(** * Template instantiation and synchronisation engine of the Focalboard
      MCP server (mcp-focalboard-server/server.py)

    A shallow embedding of the template utilities
    ([_discover_templates], [_load_template], [_save_template],
    [_substitute_variables]) and of the four template tools
    ([focalboard_instantiate_template], [focalboard_sync_template],
    [focalboard_get_board_tracking], [focalboard_set_board_tracking]),
    followed by the properties the specification states about them.
    After these come [focalboard_list_templates] and the tools that
    list, search, create and change the cards of a board, modelled
    over JSON values ([Tools]), and further properties of all of them.

    Modelling conventions.
    - A Python [dict] whose keys are read with [.get(k, default)] is a
      record whose fields are [option]s; a key read with [d[k]] is an
      [option] too and its absence raises [KeyError]. Insertion-ordered
      dicts that are iterated ([variables]) are association lists; dicts
      that are only looked up ([property_map], [option_map]) are
      [gmap]s; Python sets are [gset]s, iterated in the order of
      [elements].
    - A JSON object is read with the member types of the data model (a
      title is a string, [phases] is a list of objects, and so on); a
      JSON text that is not an object is kept apart, because the code
      meets it when it scans the template directory.
    - A [string] holds the UTF-8 encoding of a Python text: [PyStr.len]
      and [PyStr.take] count characters, and searching and replacing
      act on the encoding as they do on the text. [str.title], which
      follows the Unicode tables, is a parameter of the template tools;
      [PyStr.title] says what it does on ASCII text. [str.lower], which
      the search tool uses, is modelled on ASCII letters.
    - The remote server behind [_api_request] is an abstract state
      machine [serve]; every exchange is appended to a log held in the
      world, so that theorems can say which requests were issued.
    - The template directory is a two-level tree held in the world;
      writing either works for the whole tree or fails for the whole
      tree. A [template.json] that cannot be opened or is not JSON, one
      that holds a JSON value other than an object, and one that makes
      the scan raise any other exception (an undecodable byte, a
      nesting too deep, a [meta] or [phases] member that the scan
      cannot read) are kept apart; an object that the scan reads
      without raising is a document of the data model.
    - Block identifiers and the clock are given from outside.
    - An uncaught Python exception is the outcome [Raised].
    - A literal outside ASCII (an icon, the arrow in the name of a
      phase) is written as the characters it stands for; [server.py]
      holds these literals doubly encoded, [export_template.py] as
      they are. *)

From Stdlib Require Import Ascii.
From stdpp Require Import gmap strings list fin_maps pretty sorting.

(** ** Python string operations *)

Module PyStr.

(** [old] is a prefix of [s] ([s.startswith(old)]). *)
Fixpoint starts_with (old s : string) : bool :=
  match old, s with
  | EmptyString, _ => true
  | String a old', String b s' => if Ascii.eqb a b then starts_with old' s' else false
  | String _ _, EmptyString => false
  end.

(** One left-to-right scan of [str.replace]: outside a match, [skip] is
    [0]; after a match at some position the remaining characters of the
    matched occurrence are skipped. *)
Fixpoint replace_from (skip : nat) (old new s : string) : string :=
  match s with
  | EmptyString => EmptyString
  | String c rest =>
      match skip with
      | S k => replace_from k old new rest
      | O =>
          if starts_with old s
          then new +:+ replace_from (String.length old - 1) old new rest
          else String c (replace_from 0 old new rest)
      end
  end.

(** A character outside ASCII takes several elements of a string, a
    leading one followed by continuation elements (between 128 and
    191), as in UTF-8. *)
Definition is_continuation (c : ascii) : bool :=
  let n := nat_of_ascii c in (128 <=? n)%nat && (n <? 192)%nat.

(** [s.replace("", new)] puts [new] before every character and at the
    end. *)
Fixpoint interleave (new s : string) : string :=
  match s with
  | EmptyString => new
  | String c rest =>
      if is_continuation c then String c (interleave new rest)
      else new +:+ String c (interleave new rest)
  end.

(** [s.replace(old, new)]: every non-overlapping occurrence of [old],
    found from the left, becomes [new]. *)
Definition replace (s old new : string) : string :=
  match old with
  | EmptyString => interleave new s
  | String _ _ => replace_from 0 old new s
  end.

Definition is_lower (c : ascii) : bool :=
  let n := nat_of_ascii c in (97 <=? n)%nat && (n <=? 122)%nat.
Definition is_upper (c : ascii) : bool :=
  let n := nat_of_ascii c in (65 <=? n)%nat && (n <=? 90)%nat.
Definition to_upper (c : ascii) : ascii :=
  if is_lower c then ascii_of_nat (nat_of_ascii c - 32) else c.
Definition to_lower (c : ascii) : ascii :=
  if is_upper c then ascii_of_nat (nat_of_ascii c + 32) else c.

(** [s.title()] for an ASCII text [s]: a letter that follows a letter
    is lower-cased, any other letter is upper-cased; [prev_cased] tells
    whether the previous character was a letter. On other texts
    [str.title] follows the Unicode tables, which are not modelled: the
    tools take [str.title] as a parameter, and this function says what
    it does on ASCII text. *)
Fixpoint title_from (prev_cased : bool) (s : string) : string :=
  match s with
  | EmptyString => EmptyString
  | String c rest =>
      if is_lower c || is_upper c
      then String (if prev_cased then to_lower c else to_upper c) (title_from true rest)
      else String c (title_from false rest)
  end.

Definition title (s : string) : string := title_from false s.

(** [sep.join(parts)]. *)
Fixpoint join (sep : string) (parts : list string) : string :=
  match parts with
  | [] => ""
  | [p] => p
  | p :: ps => p +:+ sep +:+ join sep ps
  end.

(** [sub in s]. *)
Fixpoint contains (sub s : string) : bool :=
  starts_with sub s ||
  match s with
  | EmptyString => false
  | String _ rest => contains sub rest
  end.

(** The character [c] occurs in [s]. *)
Fixpoint has_char (c : ascii) (s : string) : bool :=
  match s with
  | EmptyString => false
  | String b rest => Ascii.eqb c b || has_char c rest
  end.

(** [s.lower()] and [s.upper()] for an ASCII text [s]. *)
Fixpoint lower (s : string) : string :=
  match s with
  | EmptyString => EmptyString
  | String c rest => String (to_lower c) (lower rest)
  end.

Fixpoint upper (s : string) : string :=
  match s with
  | EmptyString => EmptyString
  | String c rest => String (to_upper c) (upper rest)
  end.

(** The text is ASCII: every character is below 128. *)
Definition is_ascii_char (c : ascii) : bool := (nat_of_ascii c <? 128)%nat.

Fixpoint is_ascii (s : string) : bool :=
  match s with
  | EmptyString => true
  | String c rest => is_ascii_char c && is_ascii rest
  end.

(** [len(s)]: the number of characters. *)
Fixpoint len (s : string) : nat :=
  match s with
  | EmptyString => 0
  | String c rest => if is_continuation c then len rest else S (len rest)
  end.

(** [s[:n]]: the first [n] characters. *)
Fixpoint take (n : nat) (s : string) : string :=
  match s with
  | EmptyString => EmptyString
  | String c rest =>
      if is_continuation c then String c (take n rest)
      else match n with
           | O => EmptyString
           | S k => String c (take k rest)
           end
  end.

End PyStr.

(** ** Variable substitution *)

(** The token [f"${{{key}}}"], that is [${key}]. *)
Definition token (key : string) : string := "${" +:+ key +:+ "}".

(** [_substitute_variables(text, variables)]; [variables] is an
    insertion-ordered dict. *)
Definition _substitute_variables (text : string) (variables : list (string * string)) : string :=
  match variables with
  | [] => text
  | _ => fold_left (fun result kv => PyStr.replace result (token kv.1) kv.2) variables text
  end.

(** *** Text seen as literal runs and tokens

    The reading of the specification: a text is a sequence of literal
    runs and [${NAME}] tokens; a token whose NAME is a key becomes that
    key's value, every other token and every literal run stays as it is,
    and what a value brings in is not looked at again. *)

Inductive segment :=
| Lit (s : string)
| Tok (name : string).

Definition render_segment (seg : segment) : string :=
  match seg with Lit s => s | Tok name => token name end.

Fixpoint render (segs : list segment) : string :=
  match segs with
  | [] => ""
  | seg :: segs' => render_segment seg +:+ render segs'
  end.

(** [variables.get(name)]. *)
Fixpoint lookup_var (name : string) (variables : list (string * string)) : option string :=
  match variables with
  | [] => None
  | (k, v) :: rest => if decide (k = name) then Some v else lookup_var name rest
  end.

Definition resolve (variables : list (string * string)) (seg : segment) : string :=
  match seg with
  | Lit s => s
  | Tok name => default (token name) (lookup_var name variables)
  end.

(** Substitution as the specification words it, token by token. *)
Fixpoint substitute_spec (segs : list segment) (variables : list (string * string)) : string :=
  match segs with
  | [] => ""
  | seg :: segs' => resolve variables seg +:+ substitute_spec segs' variables
  end.

(** A literal run holds no [$]; a token name holds neither [$] nor [}]. *)
Definition clean_segment (seg : segment) : Prop :=
  match seg with
  | Lit s => PyStr.has_char "$" s = false
  | Tok name => PyStr.has_char "$" name = false ∧ PyStr.has_char "}" name = false
  end.

(** A key holds no [}] and a value holds no [$]. *)
Definition clean_variable (kv : string * string) : Prop :=
  PyStr.has_char "}" kv.1 = false ∧ PyStr.has_char "$" kv.2 = false.

(** What one replacement does to a segment: the tokens of its key turn
    into literal text. *)
Definition settle (k v : string) (seg : segment) : segment :=
  match seg with
  | Tok name => if decide (k = name) then Lit v else Tok name
  | Lit s => Lit s
  end.

(** ** Documents

    The template document of the data model. Every key that the code
    reads with [.get(key, default)] is optional. *)

(** A parsed JSON value, for the members of a document that this code
    never looks into. *)
#[local] Unset Elimination Schemes.
Inductive json :=
| JNull
| JBool (b : bool)
| JNum (n : Z)
| JStr (s : string)
| JArr (items : list json)
| JObj (members : list (string * json)).
#[local] Set Elimination Schemes.

Record select_option := SelectOption {
  opt_id : option string;
  opt_value : option string;
  opt_color : option string }.

Record property_def := PropertyDef {
  prop_id : option string;
  prop_name : option string;
  prop_type : option string;
  prop_options : option (list select_option) }.

(** A checklist entry is a bare string or an object [{title, checked}]. *)
Inductive checklist_item :=
| ItemStr (s : string)
| ItemObj (title : option string) (checked : option bool).

Record content_block := ContentBlock {
  cb_type : option string;
  cb_content : option string }.

Record task := Task {
  task_id : option string;
  task_title : option string;
  task_icon : option string;
  task_status : option string;
  task_checklist : option (list checklist_item);
  task_content_blocks : option (list content_block) }.

Record phase := Phase {
  phase_number : option Z;
  phase_name : option string;
  phase_icon : option string;
  phase_leader : option string;
  phase_tasks : option (list task) }.

Record meta := Meta {
  meta_id : option string;
  meta_name : option string;
  meta_version : option string;
  meta_author : option string;
  meta_description : option string;
  meta_complexity : option string;
  meta_tags : option (list string) }.

Record board_config := BoardConfig {
  bc_title : option string;
  bc_description : option string;
  bc_icon : option string;
  bc_type : option string;
  bc_cardProperties : option (list property_def) }.

(** A feedback proposal. [fp_change_title] is [change.title]; it is
    [None] when the board card it comes from has no title. *)
Record proposal := Proposal {
  fp_id : string;
  fp_created : string;
  fp_type : string;
  fp_target_phase : Z;
  fp_change_title : option string;
  fp_rationale : string;
  fp_source_instances : list (string * string);
  fp_votes_approve : list string;
  fp_votes_reject : list string;
  fp_status : string }.

(** The [feedback] section. A list is [None] when the section lacks
    its key. *)
Record feedback := Feedback {
  pending_proposals : option (list proposal);
  approved_proposals : option (list proposal);
  rejected_proposals : option (list proposal) }.

Record instance_record := InstanceRecord {
  ir_board_id : string;
  ir_project_name : string;
  ir_created : string;
  ir_template_version : string;
  ir_current_version : string;
  ir_upgrade_status : string }.

Record instances := Instances {
  active : option (list instance_record);
  archived : option (list instance_record) }.

(** The whole document; [t_other] holds the members under any other
    key. *)
Record template := Template {
  t_meta : option meta;
  t_board : option board_config;
  t_phases : option (list phase);
  t_feedback : option feedback;
  t_instances : option instances;
  t_other : list (string * json) }.

(** [not template] for a loaded document: the empty dict is falsy. *)
Definition template_is_empty (t : template) : bool :=
  match t with
  | Template None None None None None [] => true
  | _ => false
  end.

Definition set_feedback (fb : feedback) (t : template) : template :=
  Template (t_meta t) (t_board t) (t_phases t) (Some fb) (t_instances t) (t_other t).

Definition set_instances (i : instances) (t : template) : template :=
  Template (t_meta t) (t_board t) (t_phases t) (t_feedback t) (Some i) (t_other t).

(** ** The template directory

    [TEMPLATE_BASE_DIR/<category>/<template dir>/template.json]. The
    entries of a directory are listed in the order [iterdir()] yields
    them. *)

(** A JSON value that is not an object: what [json.load] returns for
    [null], [true], [3], ["x"] or [[]]. *)
Inductive non_object :=
| NullValue
| BoolValue (b : bool)
| NumberValue (n : Z)
| StringValue (s : string)
| ArrayValue (items : list json).

(** Python exceptions that this code lets escape. *)
Inductive exn :=
| AttributeError
| KeyError
| TypeError
| FileExistsError
| PermissionError
| NotADirectoryError
| UnicodeDecodeError
| RecursionError.

Inductive outcome (A : Type) :=
| Returned (a : A)
| Raised (e : exn).
Arguments Returned {A} a.
Arguments Raised {A} e.

(** What [open] followed by [json.load] makes of a [template.json]:
    [IOError], [JSONDecodeError], a JSON value that is not an object, or
    an object, read as a document. [Raising e] stands for every other
    file: one for which [open], [json.load] or the reading of the
    members raises [e], an exception that is neither an [IOError] nor a
    [JSONDecodeError] ([UnicodeDecodeError] for a file that is not
    valid UTF-8, [RecursionError] for one nested too deep,
    [AttributeError] or [TypeError] for an object whose [meta] is not
    an object or whose [phases] are not a list of objects with lists
    of tasks, so that [.get] or [len] fails on them). *)
Inductive file_content :=
| Unreadable
| NotJson
| NonObject (v : non_object)
| Raising (e : exn)
| JsonDoc (t : template).

(** An entry of a category directory: a plain file, or a directory with
    its [template.json] when it has one. *)
Inductive tnode :=
| TFile
| TDir (template_json : option file_content).

(** An entry of the base directory. *)
Inductive cnode :=
| CFile
| CDir (entries : list (string * tnode)).

(** [None] when [TEMPLATE_BASE_DIR] does not exist. *)
Definition disk := option (list (string * cnode)).

(** The path [TEMPLATE_BASE_DIR / category / dir / "template.json"]. *)
Record path := Path { path_category : string; path_dir : string }.

Global Instance path_eq_dec : EqDecision path.
Proof. solve_decision. Defined.

(** First entry called [name]. *)
Fixpoint entry {A} (name : string) (l : list (string * A)) : option A :=
  match l with
  | [] => None
  | (n, a) :: l' => if decide (n = name) then Some a else entry name l'
  end.

(** Replace the first entry called [name], or add one at the end. *)
Fixpoint put_entry {A} (name : string) (a : A) (l : list (string * A)) : list (string * A) :=
  match l with
  | [] => [(name, a)]
  | (n, b) :: l' => if decide (n = name) then (n, a) :: l' else (n, b) :: put_entry name a l'
  end.

(** The content of the file at [p], when there is one. *)
Definition read_file (d : disk) (p : path) : option file_content :=
  match d with
  | None => None
  | Some cats =>
      match entry (path_category p) cats with
      | Some (CDir dirs) =>
          match entry (path_dir p) dirs with
          | Some (TDir f) => f
          | _ => None
          end
      | _ => None
      end
  end.

(** [template_dir.mkdir(parents=True, exist_ok=True)] for the directory
    of [p]: missing directories are created when the tree can be
    written; a plain file in the place of the directory raises
    [FileExistsError], a plain file in the place of its category
    [NotADirectoryError]. *)
Definition mkdir_parents (can_write : bool) (d : disk) (p : path) : outcome disk :=
  let cats := default [] d in
  match entry (path_category p) cats with
  | Some CFile => Raised NotADirectoryError
  | Some (CDir dirs) =>
      match entry (path_dir p) dirs with
      | Some TFile => Raised FileExistsError
      | Some (TDir _) => Returned d
      | None =>
          if can_write
          then Returned (Some (put_entry (path_category p)
                                 (CDir (put_entry (path_dir p) (TDir None) dirs)) cats))
          else Raised PermissionError
      end
  | None =>
      if can_write
      then Returned (Some (put_entry (path_category p)
                             (CDir [(path_dir p, TDir None)]) cats))
      else Raised PermissionError
  end.

(** [json.dump] into the [template.json] of an existing directory. *)
Definition write_json (d : disk) (p : path) (c : file_content) : disk :=
  match d with
  | None => None
  | Some cats =>
      match entry (path_category p) cats with
      | Some (CDir dirs) =>
          Some (put_entry (path_category p)
                  (CDir (put_entry (path_dir p) (TDir (Some c)) dirs)) cats)
      | _ => d
      end
  end.

(** The summary [_discover_templates] gives of one template. *)
Record summary := Summary {
  s_id : string;
  s_name : string;
  s_version : string;
  s_category : string;
  s_description : string;
  s_author : string;
  s_complexity : string;
  s_tags : list string;
  s_path : path;
  s_phases_count : nat;
  s_tasks_count : nat }.

Definition sum_list (l : list nat) : nat := foldr Nat.add 0%nat l.

(** The dict appended for the document [t] found in
    [category_dir / template_dir]. *)
Definition summarise (category_dir template_dir : string) (t : template) : summary :=
  let meta := default (Meta None None None None None None None) (t_meta t) in
  {| s_id := default template_dir (meta_id meta);
     s_name := default template_dir (meta_name meta);
     s_version := default "0.0.0" (meta_version meta);
     s_category := category_dir;
     s_description := default "" (meta_description meta);
     s_author := default "Unknown" (meta_author meta);
     s_complexity := default "medium" (meta_complexity meta);
     s_tags := default [] (meta_tags meta);
     s_path := Path category_dir template_dir;
     s_phases_count := length (default [] (t_phases t));
     s_tasks_count :=
       sum_list (map (fun p => length (default [] (phase_tasks p))) (default [] (t_phases t))) |}.

(** The body of the inner loop of [_discover_templates] for one entry of
    a category directory: the summaries it appends, or the exception
    that escapes. [template.get] on a value that is not a dict raises
    [AttributeError], which the [except] clause does not catch, no more
    than the other exceptions that are not an [IOError] or a
    [JSONDecodeError]. *)
Definition scan_template_dir (category_dir : string) (e : string * tnode) : outcome (list summary) :=
  match e.2 with
  | TFile => Returned []
  | TDir None => Returned []
  | TDir (Some Unreadable) => Returned []
  | TDir (Some NotJson) => Returned []
  | TDir (Some (NonObject _)) => Raised AttributeError
  | TDir (Some (Raising e)) => Raised e
  | TDir (Some (JsonDoc t)) => Returned [summarise category_dir e.1 t]
  end.

(** Run [f] on every element in order and append what it returns; the
    first exception ends the loop. *)
Fixpoint collect {A C} (f : A -> outcome (list C)) (l : list A) : outcome (list C) :=
  match l with
  | [] => Returned []
  | x :: l' =>
      match f x with
      | Raised e => Raised e
      | Returned cs =>
          match collect f l' with
          | Raised e => Raised e
          | Returned cs' => Returned (cs ++ cs')
          end
      end
  end.

(** [if category and category_dir.name != category: continue]. *)
Definition category_skipped (category : option string) (name : string) : bool :=
  match category with
  | None => false
  | Some c => negb (bool_decide (c = "")) && negb (bool_decide (name = c))
  end.

Definition scan_category_dir (category : option string) (e : string * cnode) : outcome (list summary) :=
  match e.2 with
  | CFile => Returned []
  | CDir dirs =>
      if category_skipped category e.1 then Returned []
      else collect (scan_template_dir e.1) dirs
  end.

(** [_discover_templates(category)] as a function of the directory. *)
Definition discover (d : disk) (category : option string) : outcome (list summary) :=
  match d with
  | None => Returned []
  | Some cats => collect (scan_category_dir category) cats
  end.

(** [_load_template(template_id)] as a function of the directory: the
    first summary with that id decides. *)
Definition load (d : disk) (template_id : string) : outcome (option template) :=
  match discover d None with
  | Raised e => Raised e
  | Returned templates =>
      match find (fun t => bool_decide (s_id t = template_id)) templates with
      | None => Returned None
      | Some t =>
          match read_file d (s_path t) with
          | Some (JsonDoc doc) => Returned (Some doc)
          | Some (Raising e) => Raised e
          | _ => Returned None
          end
      end
  end.

(** ** The board backend *)

(** The body of [POST /boards]. *)
Record board_data := BoardData {
  bd_teamId : string;
  bd_type : string;
  bd_title : string;
  bd_description : string;
  bd_icon : string;
  bd_showDescription : bool;
  bd_cardProperties : list property_def }.

(** The body of [POST /boards/{id}/cards]. *)
Record card_data := CardData {
  cd_title : option string;
  cd_icon : option string;
  cd_properties : gmap string string }.

(** The [fields] of a block that this code creates. A view also carries
    the constant members [cardOrder = []], [collapsedOptionIds = []],
    [columnCalculations = {}], [columnWidths = {}],
    [defaultTemplateId = ""], [filter = {filters: [], operation: "and"}],
    [groupById = ""], [hiddenOptionIds = []], [kanbanCalculations = {}],
    [sortOptions = []] and [visibleOptionIds = []]. *)
Inductive block_fields :=
| NoFields
| CheckboxFields (value : bool)
| ViewFields (viewType : string) (visiblePropertyIds : list string).

(** A block of [POST /boards/{id}/blocks]; [schema] is always [1]. *)
Record block := Block {
  blk_id : string;
  blk_type : string;
  blk_parentId : string;
  blk_boardId : string;
  blk_title : string;
  blk_fields : block_fields;
  blk_createAt : Z;
  blk_updateAt : Z }.

(** The calls this code makes through [_api_request]. *)
Inductive request :=
| CreateBoard (data : board_data)
    (* POST /boards *)
| CreateCard (board_id : string) (data : card_data)
    (* POST /boards/{board_id}/cards?disable_notify=true *)
| CreateBlocks (board_id : string) (blocks : list block)
    (* POST /boards/{board_id}/blocks *)
| PatchContentOrder (board_id card_id : string) (contentOrder : list string)
    (* PATCH /boards/{board_id}/blocks/{card_id}, updatedFields.contentOrder *)
| GetCardBlocks (board_id : string)
    (* GET /boards/{board_id}/blocks?type=card *)
| GetBoard (board_id : string)
    (* GET /boards/{board_id} *)
| GetCards (board_id : string)
    (* GET /boards/{board_id}/cards *)
| PatchBoardProperties (board_id : string) (updatedProperties : list (string * string)).
    (* PATCH /boards/{board_id}, updatedProperties *)

(** A board or card as the server returns it, with the members this
    code reads; [obj_contentOrder] is [fields.contentOrder]. *)
Record api_object := ApiObject {
  obj_id : option string;
  obj_title : option string;
  obj_icon : option string;
  obj_properties : option (gmap string string);
  obj_contentOrder : option (list string) }.

(** What [_api_request] returns: a dict with the key ["error"] (HTTP
    status of 400 and more, timeout, connection failure, any other
    exception), another dict, a list, or some other JSON value. *)
Inductive response :=
| RError (error : string)
| RObject (o : api_object)
| RList (items : list api_object)
| ROther.

(** [isinstance(result, dict) and "error" in result]. *)
Definition is_error (r : response) : bool :=
  match r with RError _ => true | _ => false end.

(** ** Tool inputs *)

Record InstantiateTemplateInput := {
  it_template_id : string;
  it_project_name : string;
  it_team_id : string;
  it_variables : option (list (string * string)) }.

Record SyncTemplateInput := {
  sy_board_id : string;
  sy_template_id : string;
  sy_direction : string;
  sy_dry_run : bool }.

Record GetBoardTrackingInput := {
  gt_board_id : string }.

Record SetBoardTrackingInput := {
  st_board_id : string;
  st_template_id : string;
  st_template_version : string;
  st_upgrade_status : string }.

(** ** Pure parts of the instantiation *)

Definition nl : string := String "010"%char EmptyString.

(** [variables.setdefault(key, value)]. *)
Definition setdefault (key value : string) (variables : list (string * string)) :
    list (string * string) :=
  if existsb (fun kv => bool_decide (kv.1 = key)) variables
  then variables
  else variables ++ [(key, value)].

(** The two lookup tables built by the loop over [cardProperties]:
    [property_map], from property name to property id, and [option_map],
    from the name of a property with options to the dict from option
    value to option id. A later entry replaces an earlier one with the
    same key. *)
Definition property_map_of (props : list property_def) : gmap string string :=
  fold_left (fun m prop => <[default "" (prop_name prop) := default "" (prop_id prop)]> m)
    props ∅.

Definition options_dict (opts : list select_option) : gmap string string :=
  fold_left (fun m opt => <[default "" (opt_value opt) := default "" (opt_id opt)]> m)
    opts ∅.

Definition option_map_of (props : list property_def) : gmap string (gmap string string) :=
  fold_left (fun m prop =>
               match prop_options prop with
               | Some (o :: opts) => <[default "" (prop_name prop) := options_dict (o :: opts)]> m
               | _ => m
               end)
    props ∅.

(** The option value a task status is looked up under:
    [status.replace("-", " ").title()], where [str_title] is
    [str.title]. *)
Definition status_key (str_title : string -> string) (status : string) : string :=
  str_title (PyStr.replace status "-" " ").

(** The entry written for the Status property of a task, when the
    schema has a property named Status with options and one of the
    options carries the looked-up value with a non-empty id. *)
Definition status_entry (str_title : string -> string) (property_map : gmap string string)
    (option_map : gmap string (gmap string string)) (t : task) : option (string * string) :=
  let status := default "not-started" (task_status t) in
  match property_map !! "Status", option_map !! "Status" with
  | Some status_prop, Some options =>
      let status_option_id := default "" (options !! status_key str_title status) in
      if bool_decide (status_option_id = "") then None
      else Some (status_prop, status_option_id)
  | _, _ => None
  end.

(** The entry written for the Phase property of a task of the phase
    numbered [phase_num]. *)
Definition phase_entry (property_map : gmap string string)
    (option_map : gmap string (gmap string string)) (phase_num : Z) : option (string * string) :=
  match property_map !! "Phase", option_map !! "Phase" with
  | Some phase_prop, Some options =>
      let phase_name := "Phase " +:+ pretty phase_num in
      let phase_option_id := default "" (options !! phase_name) in
      if bool_decide (phase_option_id = "") then None
      else Some (phase_prop, phase_option_id)
  | _, _ => None
  end.

(** The [card_properties] dict built for one task: the Status entry,
    then the Phase entry. *)
Definition card_properties_of (str_title : string -> string)
    (property_map : gmap string string)
    (option_map : gmap string (gmap string string)) (phase_num : Z) (t : task) :
    gmap string string :=
  let with_status : gmap string string :=
    match status_entry str_title property_map option_map t with
    | Some (status_prop, status_option_id) => {[ status_prop := status_option_id ]}
    | None => ∅
    end in
  match phase_entry property_map option_map phase_num with
  | Some (phase_prop, phase_option_id) => <[ phase_prop := phase_option_id ]> with_status
  | None => with_status
  end.

(** The message recorded when the card of the task titled [task_title]
    could not be created. *)
Definition task_error (task_title error : string) : string :=
  "Task '" +:+ task_title +:+ "': " +:+ error.

(** The lines of the [## Errors] part of the report. *)
Definition error_lines (errors : list string) : list string :=
  match errors with
  | [] => []
  | _ =>
      [""; "## Errors (" +:+ pretty (length errors) +:+ ")"]
      ++ map (fun err => "- " +:+ err) (take 5 errors)
      ++ (if decide (5 < length errors)
          then ["- ... and " +:+ pretty (length errors - 5) +:+ " more errors"]
          else [])
  end.

(** The lines of the report of a completed instantiation. *)
Definition instantiate_lines (FOCALBOARD_URL : string) (m : meta) (project_name board_id
    board_title : string) (cards_created : nat) (view_created : bool)
    (errors : list string) : list string :=
  [ "# Board Created from Template";
    "";
    "**Template**: " +:+ default "Unknown" (meta_name m) +:+ " v"
      +:+ default "0.0.0" (meta_version m);
    "**Project**: " +:+ project_name;
    "";
    "## Board Details";
    "- **Board ID**: `" +:+ board_id +:+ "`";
    "- **Title**: " +:+ board_title;
    "- **Cards Created**: " +:+ pretty cards_created;
    "- **Default View**: " +:+ (if view_created then "✅ Created" else "❌ Failed") ]
  ++ error_lines errors
  ++ [ ""; "---"; "View in Focalboard: " +:+ FOCALBOARD_URL +:+ "/board/" +:+ board_id ].

(** ** Pure parts of the synchronisation *)

(** An entry of [template_tasks]. *)
Record template_task := TemplateTask {
  tt_id : option string;
  tt_title : option string;
  tt_phase : option Z;
  tt_icon : option string;
  tt_checklist_count : nat }.

(** An entry of [board_cards]. *)
Record board_card := BoardCard {
  card_id : option string;
  card_title : option string;
  card_icon : option string }.

Definition template_tasks_of (t : template) : list template_task :=
  flat_map (fun ph =>
              map (fun tk => {| tt_id := task_id tk; tt_title := task_title tk;
                                tt_phase := phase_number ph; tt_icon := task_icon tk;
                                tt_checklist_count := length (default [] (task_checklist tk)) |})
                (default [] (phase_tasks ph)))
    (default [] (t_phases t)).

Definition board_cards_of (cards : list api_object) : list board_card :=
  map (fun c => {| card_id := obj_id c; card_title := obj_title c; card_icon := obj_icon c |})
    cards.

(** A title is the value of [.get("title")]: [None] when the key is
    missing. *)
Definition template_titles (template_tasks : list template_task) : gset (option string) :=
  list_to_set (map tt_title template_tasks).

Definition board_titles (board_cards : list board_card) : gset (option string) :=
  list_to_set (map card_title board_cards).

Definition missing_from_board (template_tasks : list template_task)
    (board_cards : list board_card) : gset (option string) :=
  template_titles template_tasks ∖ board_titles board_cards.

Definition extra_in_board (template_tasks : list template_task)
    (board_cards : list board_card) : gset (option string) :=
  board_titles board_cards ∖ template_titles template_tasks.

(** How an f-string prints a title. *)
Definition show_title (title : option string) : string := default "None" title.

(** The order of titles that are all strings. *)
Definition title_le (a b : option string) : Prop :=
  match a, b with
  | Some x, Some y => String.le x y
  | None, _ => True
  | Some _, None => False
  end.

Global Instance title_le_dec : RelDecision title_le.
Proof. intros [x|] [y|]; simpl; apply _. Defined.

(** [sorted(titles)]: comparing [None] with anything raises
    [TypeError], and sorting two or more elements compares each of them. *)
Definition sorted_titles (titles : gset (option string)) : outcome (list (option string)) :=
  if decide (None ∈ titles ∧ 2 ≤ size titles) then Raised TypeError
  else Returned (merge_sort title_le (elements titles)).

(** The lines listing one of the two differences. *)
Definition difference_lines (heading unit mark : string) (titles : gset (option string)) :
    outcome (list string) :=
  if decide (titles = ∅) then Returned []
  else
    match sorted_titles titles with
    | Raised e => Raised e
    | Returned sorted =>
        Returned
          (["### " +:+ heading +:+ " (" +:+ pretty (size titles) +:+ " " +:+ unit +:+ ")"]
           ++ map (fun title => "- " +:+ mark +:+ " " +:+ show_title title) (take 10 sorted)
           ++ (if decide (10 < size titles)
               then ["- ... and " +:+ pretty (size titles - 10) +:+ " more"]
               else [])
           ++ [""])
    end.

(** The lines of the report down to the detected differences. *)
Definition sync_header_lines (params : SyncTemplateInput) (t : template)
    (missing extra : gset (option string)) : outcome (list string) :=
  let meta := default (Meta None None None None None None None) (t_meta t) in
  let head :=
    [ "# Template Sync Report";
      "";
      "**Template**: " +:+ default "Unknown" (meta_name meta) +:+ " v"
        +:+ default "0.0.0" (meta_version meta);
      "**Board**: `" +:+ sy_board_id params +:+ "`";
      "**Direction**: " +:+ sy_direction params;
      "**Dry Run**: " +:+ (if sy_dry_run params then "Yes" else "No");
      "";
      "## Differences Detected";
      "" ] in
  if decide (missing = ∅ ∧ extra = ∅)
  then Returned (head ++ ["✅ **No differences found!** Board is in sync with template."])
  else
    match difference_lines "Missing from Board" "tasks" "❌" missing with
    | Raised e => Raised e
    | Returned l1 =>
        match difference_lines "Extra in Board" "cards" "➕" extra with
        | Raised e => Raised e
        | Returned l2 => Returned (head ++ l1 ++ l2)
        end
    end.

(** The first [n] bytes of [s]. *)
Fixpoint str_take (n : nat) (s : string) : string :=
  match n, s with
  | S k, String c rest => String c (str_take k rest)
  | _, _ => EmptyString
  end.

(** The proposal raised for the board card titled [title]. *)
Definition add_task_proposal (today now_iso board_id block_id : string)
    (title : option string) : proposal :=
  {| fp_id := "FP-" +:+ today +:+ "-" +:+ PyStr.take 6 block_id;
     fp_created := now_iso;
     fp_type := "add_task";
     fp_target_phase := 0;
     fp_change_title := title;
     fp_rationale := "Task discovered in board " +:+ board_id;
     fp_source_instances := [(board_id, "Unknown")];
     fp_votes_approve := [];
     fp_votes_reject := [];
     fp_status := "pending" |}.

(** ** Pure parts of the tracking tools *)

Definition TRACKING_PROP_TEMPLATE_ID : string := "bacon-template-id".
Definition TRACKING_PROP_TEMPLATE_VERSION : string := "bacon-template-version".
Definition TRACKING_PROP_UPGRADE_STATUS : string := "bacon-upgrade-status".

(** The three values [focalboard_get_board_tracking] reads from a
    board: template id, template version, upgrade status. *)
Definition tracking_of (board : api_object) : string * string * string :=
  let properties := default ∅ (obj_properties board) in
  (default "" (properties !! TRACKING_PROP_TEMPLATE_ID),
   default "" (properties !! TRACKING_PROP_TEMPLATE_VERSION),
   default "" (properties !! TRACKING_PROP_UPGRADE_STATUS)).

(** The lines reporting a tracked board. *)
Definition tracking_lines (board_id : string) (board : api_object)
    (tracking : string * string * string) : list string :=
  [ "# Board Template Tracking";
    "";
    "**Board ID**: `" +:+ board_id +:+ "`";
    "**Board Title**: " +:+ default "Unknown" (obj_title board);
    "";
    "## Template Information";
    "- **Template ID**: `" +:+ tracking.1.1 +:+ "`";
    "- **Template Version**: " +:+ tracking.1.2;
    "- **Upgrade Status**: " +:+ tracking.2 ].

(** The lines added when the template is now at another version. *)
Definition upgrade_lines (loaded : option template) (template_version : string) : list string :=
  match loaded with
  | None => []
  | Some t =>
      if template_is_empty t then []
      else
        let meta := default (Meta None None None None None None None) (t_meta t) in
        let current_version := default "0.0.0" (meta_version meta) in
        if bool_decide (current_version = template_version) then []
        else [ "";
               "⚠️ **Upgrade Available**: Template is now at v" +:+ current_version;
               "Use `focalboard_sync_template` to check differences." ]
  end.

(** The dict sent by [focalboard_set_board_tracking]. *)
Definition tracking_update (params : SetBoardTrackingInput) : list (string * string) :=
  [ (TRACKING_PROP_TEMPLATE_ID, st_template_id params);
    (TRACKING_PROP_TEMPLATE_VERSION, st_template_version params);
    (TRACKING_PROP_UPGRADE_STATUS, st_upgrade_status params) ].

(** ** A reference server

    A small in-memory server with the interface of the backend, used to
    run the tools on concrete inputs. It refuses to create a board when
    [ms_refuse_boards] is set and to create a card whose title is listed
    in [ms_failing]. *)

Record mem_server := MemServer {
  ms_boards : list (string * api_object);
  ms_cards : list (string * api_object);
  ms_failing : list string;
  ms_refuse_boards : bool;
  ms_count : nat }.

Definition ms_cards_of (board_id : string) (s : mem_server) : list api_object :=
  map snd (filter (fun bc => bc.1 = board_id) (ms_cards s)).

Definition mem_serve (req : request) (s : mem_server) : response * mem_server :=
  match req with
  | CreateBoard data =>
      if ms_refuse_boards s then (RError "Permission denied.", s)
      else
        let o := ApiObject (Some ("b" +:+ pretty (ms_count s))) (Some (bd_title data)) None None None in
        (RObject o,
         MemServer (ms_boards s ++ [("b" +:+ pretty (ms_count s), o)]) (ms_cards s)
           (ms_failing s) (ms_refuse_boards s) (S (ms_count s)))
  | CreateCard board_id data =>
      if bool_decide (default "" (cd_title data) ∈ ms_failing s)
      then (RError "API error (HTTP 500): refused", s)
      else
        let o := ApiObject (Some ("c" +:+ pretty (ms_count s))) (cd_title data) (cd_icon data)
                   (Some (cd_properties data)) None in
        (RObject o,
         MemServer (ms_boards s) (ms_cards s ++ [(board_id, o)])
           (ms_failing s) (ms_refuse_boards s) (S (ms_count s)))
  | CreateBlocks _ _ => (RList [], s)
  | PatchContentOrder board_id card order =>
      (ROther,
       MemServer (ms_boards s)
         (map (fun bc =>
                 if bool_decide (bc.1 = board_id ∧ obj_id bc.2 = Some card)
                 then (bc.1, ApiObject (obj_id bc.2) (obj_title bc.2) (obj_icon bc.2)
                               (obj_properties bc.2) (Some order))
                 else bc)
            (ms_cards s))
         (ms_failing s) (ms_refuse_boards s) (ms_count s))
  | GetCardBlocks board_id => (RList (ms_cards_of board_id s), s)
  | GetCards board_id => (RList (ms_cards_of board_id s), s)
  | GetBoard board_id =>
      match entry board_id (ms_boards s) with
      | Some o => (RObject o, s)
      | None => (RError "Resource not found. Verify the board_id or card_id is correct.", s)
      end
  | PatchBoardProperties board_id props =>
      match entry board_id (ms_boards s) with
      | Some o =>
          let o' := ApiObject (obj_id o) (obj_title o) (obj_icon o)
                      (Some (list_to_map props ∪ default ∅ (obj_properties o)))
                      (obj_contentOrder o) in
          (RObject o',
           MemServer (put_entry board_id o' (ms_boards s)) (ms_cards s)
             (ms_failing s) (ms_refuse_boards s) (ms_count s))
      | None => (RError "Resource not found. Verify the board_id or card_id is correct.", s)
      end
  end.

(** ** The world and the monad of the tools *)

Section Engine.

(** The server: its state and how it answers a request. *)
Context {B : Type}.
Variable serve : request -> B -> response * B.

(** The stream of identifiers [_generate_block_id()] draws from. *)
Variable block_id : nat -> string.

(** The configured address of the server. *)
Variable FOCALBOARD_URL : string.

(** The clock: [datetime.now().strftime("%Y-%m-%d")],
    [datetime.now().isoformat()] and [int(time.time() * 1000)]. *)
Variable today : string.
Variable now_iso : string.
Variable now_ms : Z.

(** [str.title], which follows the Unicode tables; on ASCII text it is
    [PyStr.title]. *)
Variable str_title : string -> string.

Record world := World {
  backend : B;
  (** every exchange with the server so far, oldest first *)
  exchanges : list (request * response);
  (** the template directory, and whether its files can be written *)
  templates_dir : disk;
  writable : bool;
  (** how many block identifiers have been drawn *)
  drawn : nat }.

Definition M (A : Type) : Type := world -> outcome A * world.

Definition ret {A} (a : A) : M A := fun w => (Returned a, w).

Definition raise {A} (e : exn) : M A := fun w => (Raised e, w).

Definition bind {A C} (m : M A) (k : A -> M C) : M C :=
  fun w => match m w with
           | (Returned a, w') => k a w'
           | (Raised e, w') => (Raised e, w')
           end.

Definition lift {A} (o : outcome A) : M A := fun w => (o, w).

Notation "x <- m ;; k" := (bind m (fun x => k))
  (at level 100, m at next level, right associativity).
Notation "m ;;; k" := (bind m (fun _ => k))
  (at level 100, right associativity).

(** [for x in l: s = body(x, s)]. *)
Fixpoint for_each {A S} (body : A -> S -> M S) (l : list A) (s : S) : M S :=
  match l with
  | [] => ret s
  | x :: l' => s' <- body x s ;; for_each body l' s'
  end.

Definition _api_request (req : request) : M response := fun w =>
  let (resp, b') := serve req (backend w) in
  (Returned resp,
   World b' (exchanges w ++ [(req, resp)]) (templates_dir w) (writable w) (drawn w)).

Definition _generate_block_id : M string := fun w =>
  (Returned (block_id (drawn w)),
   World (backend w) (exchanges w) (templates_dir w) (writable w) (S (drawn w))).

(** *** Template utilities *)

Definition _discover_templates (category : option string) : M (list summary) :=
  fun w => (discover (templates_dir w) category, w).

Definition _load_template (template_id : string) : M (option template) :=
  fun w => (load (templates_dir w) template_id, w).

(** [_save_template(template, template_id, category)]: [True] when the
    document was written, [False] on [IOError]. *)
Definition _save_template (t : template) (template_id category : string) : M bool :=
  fun w =>
    let p := Path category template_id in
    match mkdir_parents (writable w) (templates_dir w) p with
    | Raised e => (Raised e, w)
    | Returned d =>
        if writable w
        then (Returned true,
              World (backend w) (exchanges w) (write_json d p (JsonDoc t)) (writable w) (drawn w))
        else (Returned false, w)
    end.

(** *** focalboard_instantiate_template *)

(** The checkbox block of one checklist entry. *)
Definition checkbox_block (board_id card_id : string) (variables : list (string * string))
    (checkbox_id : string) (item : checklist_item) : block :=
  let item_title := match item with ItemStr s => s | ItemObj t _ => default "" t end in
  let item_checked := match item with ItemStr _ => false | ItemObj _ c => default false c end in
  {| blk_id := checkbox_id; blk_type := "checkbox"; blk_parentId := card_id;
     blk_boardId := board_id; blk_title := _substitute_variables item_title variables;
     blk_fields := CheckboxFields item_checked;
     blk_createAt := now_ms; blk_updateAt := now_ms |}.

(** [if checklist and card_id: ...]: one checkbox block per entry,
    created in one call, then the content order of the card is set. *)
Definition add_checklist (board_id card_id : string) (variables : list (string * string))
    (checklist : list checklist_item) : M unit :=
  if bool_decide (checklist = []) || bool_decide (card_id = "") then ret tt
  else
    built <- for_each
               (fun item (acc : list block * list string) =>
                  checkbox_id <- _generate_block_id ;;
                  ret (acc.1 ++ [checkbox_block board_id card_id variables checkbox_id item],
                       acc.2 ++ [checkbox_id]))
               checklist ([], []) ;;
    let new_blocks := built.1 in
    let content_order := built.2 in
    match new_blocks with
    | [] => ret tt
    | _ =>
        _api_request (CreateBlocks board_id new_blocks) ;;;
        _api_request (PatchContentOrder board_id card_id content_order) ;;;
        ret tt
    end.

(** The text or divider block of one content block. *)
Definition content_block_of (board_id card_id : string) (variables : list (string * string))
    (block_id : string) (cb : content_block) : block :=
  let block_type := default "text" (cb_type cb) in
  if bool_decide (block_type = "divider")
  then {| blk_id := block_id; blk_type := "divider"; blk_parentId := card_id;
          blk_boardId := board_id; blk_title := ""; blk_fields := NoFields;
          blk_createAt := now_ms; blk_updateAt := now_ms |}
  else {| blk_id := block_id; blk_type := "text"; blk_parentId := card_id;
          blk_boardId := board_id;
          blk_title := _substitute_variables (default "" (cb_content cb)) variables;
          blk_fields := NoFields;
          blk_createAt := now_ms; blk_updateAt := now_ms |}.

(** [if content_blocks and card_id: ...]: the blocks are created in one
    call; the card is then looked up among the card blocks of the board
    and the new ids are added to the end of its content order. *)
Definition add_content_blocks (board_id card_id : string)
    (variables : list (string * string)) (content_blocks : list content_block) : M unit :=
  if bool_decide (content_blocks = []) || bool_decide (card_id = "") then ret tt
  else
    built <- for_each
               (fun cb (acc : list block * list string) =>
                  block_id <- _generate_block_id ;;
                  ret (acc.1 ++ [content_block_of board_id card_id variables block_id cb],
                       acc.2 ++ [block_id]))
               content_blocks ([], []) ;;
    let new_blocks := built.1 in
    let content_order_additions := built.2 in
    match new_blocks with
    | [] => ret tt
    | _ =>
        _api_request (CreateBlocks board_id new_blocks) ;;;
        cards_result <- _api_request (GetCardBlocks board_id) ;;
        match cards_result with
        | RList cards =>
            match find (fun card => bool_decide (obj_id card = Some card_id)) cards with
            | Some card =>
                let current_order := default [] (obj_contentOrder card) in
                _api_request (PatchContentOrder board_id card_id
                                (current_order ++ content_order_additions)) ;;;
                ret tt
            | None => ret tt
            end
        | _ => ret tt
        end
    end.

(** The request that creates the card of one task. *)
Definition card_request (board_id : string) (variables : list (string * string))
    (property_map : gmap string string) (option_map : gmap string (gmap string string))
    (phase_num : Z) (t : task) : request :=
  CreateCard board_id
    {| cd_title := Some (_substitute_variables (default "Untitled Task" (task_title t)) variables);
       cd_icon := Some (default "📋" (task_icon t));
       cd_properties := card_properties_of str_title property_map option_map phase_num t |}.

(** The body of the loop over the tasks of a phase; the state is
    [(cards_created, errors)]. *)
Definition instantiate_task (board_id : string) (variables : list (string * string))
    (property_map : gmap string string) (option_map : gmap string (gmap string string))
    (phase_num : Z) (t : task) (st : nat * list string) : M (nat * list string) :=
  let task_title := _substitute_variables (default "Untitled Task" (task_title t)) variables in
  card_result <- _api_request (card_request board_id variables property_map option_map phase_num t) ;;
  match card_result with
  | RError error => ret (st.1, st.2 ++ [task_error task_title error])
  | RObject card =>
      let card_id := default "" (obj_id card) in
      add_checklist board_id card_id variables (default [] (task_checklist t)) ;;;
      add_content_blocks board_id card_id variables (default [] (task_content_blocks t)) ;;;
      ret (S st.1, st.2)
  | _ => raise AttributeError
  end.

(** The body of the loop over the phases. *)
Definition instantiate_phase (board_id : string) (variables : list (string * string))
    (property_map : gmap string string) (option_map : gmap string (gmap string string))
    (ph : phase) (st : nat * list string) : M (nat * list string) :=
  let phase_num := default 0%Z (phase_number ph) in
  for_each (instantiate_task board_id variables property_map option_map phase_num)
    (default [] (phase_tasks ph)) st.

(** The view block posted after the cards. *)
Definition view_block (board_id view_id : string) (property_map : gmap string string) : block :=
  let status_prop_id := default "" (property_map !! "Status") in
  {| blk_id := view_id; blk_type := "view"; blk_parentId := board_id;
     blk_boardId := board_id; blk_title := "Task Overview";
     blk_fields := ViewFields "table"
                     (if bool_decide (status_prop_id = "") then [] else [status_prop_id]);
     blk_createAt := now_ms; blk_updateAt := now_ms |}.

(** The variables used for substitution: those of the caller, then the
    two defaults where the caller gave none. *)
Definition instantiate_variables (params : InstantiateTemplateInput) : list (string * string) :=
  setdefault "CURRENT_DATE" today
    (setdefault "PROJECT_NAME" (it_project_name params) (default [] (it_variables params))).

Definition board_data_of (params : InstantiateTemplateInput) (t : template) : board_data :=
  let variables := instantiate_variables params in
  let board_config := default (BoardConfig None None None None None) (t_board t) in
  {| bd_teamId := it_team_id params;
     bd_type := default "P" (bc_type board_config);
     bd_title := _substitute_variables (default "${PROJECT_NAME} Board" (bc_title board_config)) variables;
     bd_description := _substitute_variables (default "" (bc_description board_config)) variables;
     bd_icon := default "🥓" (bc_icon board_config);
     bd_showDescription := true;
     bd_cardProperties := default [] (bc_cardProperties board_config) |}.

(** Step 4: the instance record is added to [instances.active] and the
    document is saved under the category discovery reports for it. *)
Definition record_instance (params : InstantiateTemplateInput) (t : template)
    (board_id : string) : M unit :=
  let meta := default (Meta None None None None None None None) (t_meta t) in
  let template_instances := default (Instances (Some []) (Some [])) (t_instances t) in
  match active template_instances with
  | None => raise KeyError
  | Some act =>
      let record :=
        {| ir_board_id := board_id; ir_project_name := it_project_name params;
           ir_created := now_iso;
           ir_template_version := default "1.0.0" (meta_version meta);
           ir_current_version := default "1.0.0" (meta_version meta);
           ir_upgrade_status := "current" |} in
      let t' := set_instances (Instances (Some (act ++ [record])) (archived template_instances)) t in
      templates <- _discover_templates None ;;
      match find (fun s => bool_decide (s_id s = it_template_id params)) templates with
      | Some template_info =>
          _save_template t' (it_template_id params) (s_category template_info) ;;; ret tt
      | None => ret tt
      end
  end.

Definition focalboard_instantiate_template (params : InstantiateTemplateInput) : M string :=
  loaded <- _load_template (it_template_id params) ;;
  match loaded with
  | None => ret ("Error: Template `" +:+ it_template_id params +:+ "` not found.")
  | Some t =>
      if template_is_empty t
      then ret ("Error: Template `" +:+ it_template_id params +:+ "` not found.")
      else
        let variables := instantiate_variables params in
        let meta := default (Meta None None None None None None None) (t_meta t) in
        let board_config := default (BoardConfig None None None None None) (t_board t) in
        let phases := default [] (t_phases t) in
        let board_data := board_data_of params t in
        board_result <- _api_request (CreateBoard board_data) ;;
        match board_result with
        | RError error => ret ("Error creating board: " +:+ error)
        | RObject board =>
            let board_id := default "unknown" (obj_id board) in
            let property_map := property_map_of (default [] (bc_cardProperties board_config)) in
            let option_map := option_map_of (default [] (bc_cardProperties board_config)) in
            st <- for_each (instantiate_phase board_id variables property_map option_map)
                    phases (0%nat, []) ;;
            view_id <- _generate_block_id ;;
            view_result <- _api_request
                             (CreateBlocks board_id [view_block board_id view_id property_map]) ;;
            let view_created := negb (is_error view_result) in
            record_instance params t board_id ;;;
            ret (PyStr.join nl
                   (instantiate_lines FOCALBOARD_URL meta (it_project_name params) board_id
                      (bd_title board_data) st.1 view_created st.2))
        | _ => raise AttributeError
        end
  end.

(** *** focalboard_sync_template *)

(** [template_to_board], not a dry run: a card with title and icon only
    for every template task whose title is missing; [created] counts
    the calls that did not fail. *)
Definition create_missing_cards (board_id : string) (missing : gset (option string))
    (template_tasks : list template_task) : M nat :=
  for_each
    (fun tk (created : nat) =>
       if decide (tt_title tk ∈ missing)
       then
         result <- _api_request
                     (CreateCard board_id
                        {| cd_title := tt_title tk; cd_icon := tt_icon tk;
                           cd_properties := ∅ |}) ;;
         ret (if is_error result then created else S created)
       else ret created)
    template_tasks 0%nat.

(** [board_to_template], not a dry run: one proposal per extra title,
    in the order the set yields them; the state is the list of pending
    proposals and the lines reported. [feedback["pending_proposals"]]
    raises [KeyError] when the section lacks the key. *)
Definition propose_extra_cards (board_id : string) (fb : feedback)
    (extra : gset (option string)) : M (list proposal * list string) :=
  match pending_proposals fb with
  | None =>
      match elements extra with
      | [] => ret ([], [])
      | _ => _generate_block_id ;;; raise KeyError
      end
  | Some pending =>
      for_each
        (fun title (st : list proposal * list string) =>
           block_id <- _generate_block_id ;;
           let p := add_task_proposal today now_iso board_id block_id title in
           ret (st.1 ++ [p],
                st.2 ++ ["- Proposal `" +:+ fp_id p +:+ "`: Add '" +:+ show_title title +:+ "'"]))
        (elements extra) (pending, [])
  end.

Definition sync_actions (params : SyncTemplateInput) (t : template)
    (template_tasks : list template_task)
    (missing extra : gset (option string)) : M (list string) :=
  if bool_decide (sy_direction params = "template_to_board") && negb (bool_decide (missing = ∅))
  then
    if sy_dry_run params
    then ret [ "## Planned Actions (Dry Run)";
               "Would create " +:+ pretty (size missing) +:+ " cards from template." ]
    else
      created <- create_missing_cards (sy_board_id params) missing template_tasks ;;
      ret [ "## Actions Taken";
            "✅ Created " +:+ pretty created +:+ " cards from template." ]
  else if bool_decide (sy_direction params = "board_to_template") && negb (bool_decide (extra = ∅))
  then
    if sy_dry_run params
    then ret [ "## Feedback Proposals (Dry Run)";
               "Would propose " +:+ pretty (size extra) +:+ " new tasks for template." ]
    else
      let fb := default (Feedback (Some []) (Some []) (Some [])) (t_feedback t) in
      proposed <- propose_extra_cards (sy_board_id params) fb extra ;;
      let t' := set_feedback (Feedback (Some proposed.1) (approved_proposals fb)
                                (rejected_proposals fb)) t in
      templates <- _discover_templates None ;;
      match find (fun s => bool_decide (s_id s = sy_template_id params)) templates with
      | Some template_info =>
          _save_template t' (sy_template_id params) (s_category template_info) ;;; ret tt
      | None => ret tt
      end ;;;
      ret (["## Feedback Proposals Created"] ++ proposed.2
           ++ [""; "✅ Created " +:+ pretty (size extra) +:+ " feedback proposals."])
  else ret [].

Definition focalboard_sync_template (params : SyncTemplateInput) : M string :=
  loaded <- _load_template (sy_template_id params) ;;
  match loaded with
  | None => ret ("Error: Template `" +:+ sy_template_id params +:+ "` not found.")
  | Some t =>
      if template_is_empty t
      then ret ("Error: Template `" +:+ sy_template_id params +:+ "` not found.")
      else
        board <- _api_request (GetBoard (sy_board_id params)) ;;
        match board with
        | RError error => ret ("Error: " +:+ error)
        | _ =>
            cards <- _api_request (GetCards (sy_board_id params)) ;;
            match cards with
            | RError error => ret ("Error: " +:+ error)
            | _ =>
                let cards := match cards with RList l => l | _ => [] end in
                let template_tasks := template_tasks_of t in
                let board_cards := board_cards_of cards in
                let missing := missing_from_board template_tasks board_cards in
                let extra := extra_in_board template_tasks board_cards in
                head <- lift (sync_header_lines params t missing extra) ;;
                actions <- sync_actions params t template_tasks missing extra ;;
                ret (PyStr.join nl
                       (head ++ actions
                        ++ [ ""; "---";
                             "**Summary**: Template has " +:+ pretty (length template_tasks)
                               +:+ " tasks, Board has " +:+ pretty (length board_cards)
                               +:+ " cards" ]))
            end
        end
  end.

(** *** focalboard_get_board_tracking, focalboard_set_board_tracking *)

Definition focalboard_get_board_tracking (params : GetBoardTrackingInput) : M string :=
  board <- _api_request (GetBoard (gt_board_id params)) ;;
  match board with
  | RError error => ret ("Error: " +:+ error)
  | RObject board =>
      let tracking := tracking_of board in
      if bool_decide (tracking.1.1 = "")
      then ret ("Board `" +:+ gt_board_id params +:+ "` is not tracked by a template."
                +:+ nl +:+ nl
                +:+ "Use `focalboard_set_board_tracking` to link it to a template.")
      else
        loaded <- _load_template tracking.1.1 ;;
        ret (PyStr.join nl (tracking_lines (gt_board_id params) board tracking
                            ++ upgrade_lines loaded tracking.1.2))
  | _ => raise AttributeError
  end.

Definition focalboard_set_board_tracking (params : SetBoardTrackingInput) : M string :=
  result <- _api_request (PatchBoardProperties (st_board_id params) (tracking_update params)) ;;
  match result with
  | RError error => ret ("Error: " +:+ error)
  | _ =>
      ret (PyStr.join nl
             [ "# Template Tracking Set";
               "";
               "**Board ID**: `" +:+ st_board_id params +:+ "`";
               "";
               "## Tracking Properties";
               "- **Template ID**: `" +:+ st_template_id params +:+ "`";
               "- **Template Version**: " +:+ st_template_version params;
               "- **Upgrade Status**: " +:+ st_upgrade_status params;
               "";
               "Use `focalboard_sync_template` to sync changes with the template." ])
  end.

End Engine.

(** ** Vocabulary of the statements *)

(** The tasks of a template in template order, each with the number of
    its phase. *)
Definition all_tasks (t : template) : list (Z * task) :=
  flat_map (fun ph => map (pair (default 0%Z (phase_number ph))) (default [] (phase_tasks ph)))
    (default [] (t_phases t)).

Definition is_card_request (req : request) : bool :=
  match req with CreateCard _ _ => true | _ => false end.

(** The exchanges of a log that ask for a card. *)
Definition card_attempt (x : request * response) : option (request * response) :=
  if is_card_request x.1 then Some x else None.

Definition card_attempts (log : list (request * response)) : list (request * response) :=
  omap card_attempt log.

(** The message owed to a refused card request. *)
Definition failure_message (x : request * response) : option string :=
  match x with
  | (CreateCard _ data, RError error) => Some (task_error (default "" (cd_title data)) error)
  | _ => None
  end.

Definition failure_messages (log : list (request * response)) : list string :=
  omap failure_message log.

Definition card_created (x : request * response) : option unit :=
  match x with
  | (CreateCard _ _, RError _) => None
  | (CreateCard _ _, _) => Some tt
  | _ => None
  end.

(** The number of card requests of a log that were not refused. *)
Definition created_count (log : list (request * response)) : nat :=
  length (omap card_created log).

(** The answer is a dict: an error or an object. *)
Definition answers_object (r : response) : Prop :=
  match r with RError _ | RObject _ => True | _ => False end.

(** No exchange of [extra] asks for a card. *)
Definition quiet (extra : list (request * response)) : Prop :=
  Forall (fun x => is_card_request x.1 = false) extra.

(** The summaries discovery owes for a tree: one for every
    [template.json] that holds a document, in the order of the tree. *)
Definition summaries_of_dir (category_dir : string) (e : string * tnode) : list summary :=
  match e.2 with
  | TDir (Some (JsonDoc t)) => [summarise category_dir e.1 t]
  | _ => []
  end.

Definition summaries_of_category (category : option string) (e : string * cnode) : list summary :=
  match e.2 with
  | CFile => []
  | CDir dirs =>
      if category_skipped category e.1 then []
      else flat_map (summaries_of_dir e.1) dirs
  end.

Definition valid_summaries (d : disk) (category : option string) : list summary :=
  flat_map (summaries_of_category category) (default [] d).

(** No [template.json] of the tree makes the scan raise: each can be
    skipped ([IOError], [JSONDecodeError]) or holds a document. *)
Definition scannable (d : disk) : bool :=
  forallb (λ c : string * cnode,
             match c.2 with
             | CFile => true
             | CDir dirs =>
                 forallb (λ e : string * tnode,
                            match e.2 with
                            | TDir (Some (NonObject _)) => false
                            | TDir (Some (Raising _)) => false
                            | _ => true
                            end) dirs
             end)
    (default [] d).

(** A request that posts a view block. *)
Definition is_view_request (req : request) : bool :=
  match req with
  | CreateBlocks _ blocks => existsb (fun b => bool_decide (blk_type b = "view")) blocks
  | _ => false
  end.

(** The schema has a property called [name]. *)
Definition has_property (name : string) (props : list property_def) : bool :=
  existsb (fun p => bool_decide (default "" (prop_name p) = name)) props.

(** The last property called [name], which is the one [property_map]
    keeps. *)
Definition last_property (name : string) (props : list property_def) : option property_def :=
  last (filter (fun p => default "" (prop_name p) = name) props).

(** The schema of a template. *)
Definition schema (t : template) : list property_def :=
  default [] (bc_cardProperties (default (BoardConfig None None None None None) (t_board t))).

(** The new proposal is as the specification describes it. *)
Definition is_add_task_proposal (title : string) (p : proposal) : Prop :=
  fp_type p = "add_task" ∧ fp_status p = "pending" ∧
  fp_votes_approve p = [] ∧ fp_votes_reject p = [] ∧
  fp_change_title p = Some title.

(** The pending proposals a template document holds. *)
Definition pending_of (t : template) : option (list proposal) :=
  match t_feedback t with
  | Some fb => pending_proposals fb
  | None => None
  end.

(** ** Vocabulary of the proofs *)

(** [post m w Q]: running [m] from [w] ends in an outcome and a world
    that [Q] relates. *)
Definition post {B A} (m : @M B A) (w : @world B) (Q : outcome A → @world B → Prop) : Prop :=
  Q (m w).1 (m w).2.

(** [m] leaves the part [f] of the world alone. *)
Definition keeps {B A X} (f : @world B → X) (m : @M B A) : Prop :=
  ∀ w, post m w (λ _ w', f w' = f w).

(** The template directory with its writability. *)
Definition disk_of {B} (w : @world B) : disk * bool := (templates_dir w, writable w).

(** What a run may do to the template directory: nothing, or write the
    document [t] with another feedback section under
    [category/template_id], after creating that directory if need be;
    [category] is the one discovery reports for the template. *)
Definition feedback_only {B} (d0 : disk) (can_write : bool) (template_id : string)
    (t : template) (w' : @world B) : Prop :=
  writable w' = can_write ∧
  (templates_dir w' = d0 ∨
   ∃ fb templates info d,
     discover d0 None = Returned templates ∧
     find (λ s, bool_decide (s_id s = template_id)) templates = Some info ∧
     mkdir_parents can_write d0 (Path (s_category info) template_id) = Returned d ∧
     templates_dir w'
     = write_json d (Path (s_category info) template_id) (JsonDoc (set_feedback fb t))).

(** The entries of a category directory, none when it is missing. *)
Definition stored_dirs (d : disk) (category : string) : list (string * tnode) :=
  match entry category (default [] d) with
  | Some (CDir dirs) => dirs
  | _ => []
  end.

(** [m] returns and asks for no card. *)
Definition quietly {B A} (m : @M B A) : Prop :=
  ∀ w, post m w (λ o w', (∃ a, o = Returned a) ∧
                         ∃ extra, exchanges w' = exchanges w ++ extra ∧ quiet extra).

(** What the log gained and what the loop state became after the tasks
    [l]: one card request per task, in order; one message per refused
    request; one more card created per request that was not refused. *)
Definition loop_result {B} (str_title : string -> string) (board_id : string)
    (variables : list (string * string))
    (property_map : gmap string string) (option_map : gmap string (gmap string string))
    (l : list (Z * task)) (st : nat * list string)
    (w : @world B) (o : outcome (nat * list string)) (w' : @world B) : Prop :=
  ∃ new, exchanges w' = exchanges w ++ new ∧
         (card_attempts new).*1
         = map (λ nt, card_request str_title board_id variables property_map option_map
                        nt.1 nt.2) l ∧
         o = Returned (st.1 + created_count new, st.2 ++ failure_messages new).

(** ** Example data *)

Module Examples.

Definition titled (title : string) : task := Task None (Some title) None None None None.

Definition demo_meta : meta :=
  Meta (Some "demo") (Some "Demo") (Some "1.0.0") None None None None.

(** One phase of six tasks, no card properties. *)
Definition demo : template :=
  Template (Some demo_meta) None
    (Some [Phase (Some 1%Z) (Some "Plan") None None
             (Some [titled "a"; titled "b"; titled "c"; titled "d"; titled "e"; titled "f"])])
    None None [].

(** A single task. *)
Definition small : template :=
  Template (Some demo_meta) None
    (Some [Phase (Some 1%Z) (Some "Plan") None None (Some [titled "Query"])])
    None None [].

(** A schema whose Status property stores the raw ["not-started"],
    and one task in that status. *)
Definition raw_status : list property_def :=
  [PropertyDef (Some "st") (Some "Status") (Some "select")
     (Some [SelectOption (Some "o1") (Some "not-started") None;
            SelectOption (Some "o2") (Some "completed") None])].

Definition with_status : template :=
  Template (Some demo_meta)
    (Some (BoardConfig None None None None (Some raw_status)))
    (Some [Phase (Some 1%Z) (Some "Plan") None None
             (Some [Task None (Some "Query") None (Some "not-started") None None])])
    None None [].

(** [small] with an [instances] section that lacks its [active]
    list. *)
Definition untracked : template := set_instances (Instances None None) small.

(** [small] with a feedback section that lacks [pending_proposals]. *)
Definition no_pending : template :=
  Template (Some demo_meta) None (t_phases small) (Some (Feedback None (Some []) (Some [])))
    None [].

(** A task without a title between two titled ones. *)
Definition untitled : template :=
  Template (Some demo_meta) None
    (Some [Phase (Some 1%Z) (Some "Plan") None None
             (Some [titled "Query"; Task None None None None None None; titled "Other"])])
    None None [].

(** The document [{}]. *)
Definition empty_document : template := Template None None None None None [].

(** Another template, with its own id and phases. *)
Definition other : template :=
  Template (Some (Meta (Some "other") (Some "Other") (Some "2.0.0") None None None None)) None
    (Some [Phase (Some 1%Z) (Some "Build") None None (Some [titled "Z"])])
    None None [].

Definition store (t : template) : disk :=
  Some [("framework", CDir [("demo", TDir (Some (JsonDoc t)))])].

(** [small], whose id is [demo], stored in a directory of another
    name. *)
Definition misnamed : disk :=
  Some [("framework", CDir [("copy", TDir (Some (JsonDoc small)))])].

(** The same, next to the template [other] stored in the directory
    [demo]. *)
Definition shadowed : disk :=
  Some [("framework", CDir [("demo", TDir (Some (JsonDoc other)));
                            ("copy", TDir (Some (JsonDoc small)))])].

(** A tree with a good template and a [template.json] that is not
    valid UTF-8. *)
Definition undecodable : disk :=
  Some [("framework", CDir [("demo", TDir (Some (JsonDoc small)));
                            ("binary", TDir (Some (Raising UnicodeDecodeError)))])].

(** A tree with a good template and a [template.json] holding [[]]. *)
Definition mixed : disk :=
  Some [("framework", CDir [("demo", TDir (Some (JsonDoc small)));
                            ("broken", TDir (Some (NonObject (ArrayValue []))))])].

Definition block_id (n : nat) : string := "blk" +:+ pretty n.

(** A server that refuses every card of [demo]. *)
Definition refusing : mem_server :=
  MemServer [] [] ["a"; "b"; "c"; "d"; "e"; "f"] false 0.

(** A server that refuses the card titled ["b"]. *)
Definition picky : mem_server := MemServer [] [] ["b"] false 0.

Definition willing : mem_server := MemServer [] [] [] false 0.

Definition no_boards : mem_server := MemServer [] [] [] true 0.

(** A server with the board ["b0"] holding the cards ["Query"] and
    ["Extra Task"]. *)
Definition drifted : mem_server :=
  MemServer [("b0", ApiObject (Some "b0") (Some "Acme Board") None None None)]
    [("b0", ApiObject (Some "c1") (Some "Query") None None None);
     ("b0", ApiObject (Some "c2") (Some "Extra Task") None None None)]
    [] false 3.

(** A server with the board ["b0"] holding the one card
    ["Extra Task"]. *)
Definition lonely : mem_server :=
  MemServer [("b0", ApiObject (Some "b0") (Some "Acme Board") None None None)]
    [("b0", ApiObject (Some "c1") (Some "Extra Task") None None None)]
    [] false 2.

(** A server that answers the creation of a card with a list. *)
Definition odd_serve (req : request) (s : mem_server) : response * mem_server :=
  match req with
  | CreateCard _ _ => (RList [], s)
  | _ => mem_serve req s
  end.

Definition start (s : mem_server) (d : disk) : world := World s [] d true 0.

(** The same with a template directory that cannot be written. *)
Definition read_only (s : mem_server) (d : disk) : world := World s [] d false 0.

Definition acme : InstantiateTemplateInput :=
  {| it_template_id := "demo"; it_project_name := "Acme"; it_team_id := "0";
     it_variables := None |}.

Definition propose : SyncTemplateInput :=
  {| sy_board_id := "b0"; sy_template_id := "demo";
     sy_direction := "board_to_template"; sy_dry_run := false |}.

Definition track : SetBoardTrackingInput :=
  {| st_board_id := "b0"; st_template_id := "t"; st_template_version := "1.0.0";
     st_upgrade_status := "current" |}.

(** Tracking of the template [demo] at an older version. *)
Definition track_old : SetBoardTrackingInput :=
  {| st_board_id := "b0"; st_template_id := "demo"; st_template_version := "0.9.0";
     st_upgrade_status := "current" |}.

Definition url : string := "http://localhost:8000".
Definition today : string := "2026-01-01".
Definition now_iso : string := "2026-01-01T00:00:00".

Definition instantiate_in (w : world) :=
  focalboard_instantiate_template mem_serve block_id url today now_iso 0%Z PyStr.title acme w.

Definition run_instantiate (s : mem_server) (t : template) := instantiate_in (start s (store t)).

Definition run_sync (w : world) :=
  focalboard_sync_template mem_serve block_id today now_iso propose w.

Definition run_set_tracking (w : world) :=
  focalboard_set_board_tracking mem_serve track w.

Definition run_get_tracking (w : world) :=
  focalboard_get_board_tracking mem_serve {| gt_board_id := "b0" |} w.

End Examples.

(** * Listing the templates *)

Inductive ResponseFormat := MARKDOWN | JSON.

Record ListTemplatesInput := {
  lt_category : option string;
  lt_response_format : ResponseFormat }.

(** [sorted(l)] and [sorted(l, key=...)] by an order that is total on
    the elements: stable. *)
Fixpoint insert_sorted {A} (le : A -> A -> bool) (x : A) (l : list A) : list A :=
  match l with
  | [] => [x]
  | y :: l' => if le x y then x :: y :: l' else y :: insert_sorted le x l'
  end.

Definition sorted_by {A} (le : A -> A -> bool) (l : list A) : list A :=
  foldr (insert_sorted le) [] l.

(** The dict [by_category]: every template under its category, the
    categories in the order of their first template. *)
Definition by_category_of (templates : list summary) : list (string * list summary) :=
  fold_left (fun by_category t =>
               let cat := s_category t in
               match entry cat by_category with
               | None => by_category ++ [(cat, [t])]
               | Some cat_templates => put_entry cat (cat_templates ++ [t]) by_category
               end)
    templates [].

(** What the loop keeps true of [by_category] after the templates
    [templates]. *)
Definition grouped (templates : list summary) (by_category : list (string * list summary)) :
    Prop :=
  NoDup by_category.*1 ∧
  ∀ cat, entry cat by_category
         = match filter (λ t, s_category t = cat) templates with
           | [] => None
           | ts => Some ts
           end.

(** The four lines of one template. *)
Definition template_lines (t : summary) : list string :=
  [ "- **" +:+ s_name t +:+ "** (`" +:+ s_id t +:+ "`) v" +:+ s_version t;
    (if decide (60 < PyStr.len (s_description t))%nat
     then "  - " +:+ PyStr.take 60 (s_description t) +:+ "..."
     else "  - " +:+ s_description t);
    "  - " +:+ pretty (s_phases_count t) +:+ " phases, " +:+ pretty (s_tasks_count t)
      +:+ " tasks";
    "" ].

(** The lines of one category, under the heading [cat.title()];
    [str_title] is [str.title]. *)
Definition category_lines (str_title : string -> string) (group : string * list summary) :
    list string :=
  ["## " +:+ str_title group.1; ""] ++ flat_map template_lines group.2.

(** The summary of a template as the dict discovery made. *)
Definition summary_json (TEMPLATE_BASE_DIR : string) (t : summary) : json :=
  JObj [ ("id", JStr (s_id t)); ("name", JStr (s_name t)); ("version", JStr (s_version t));
         ("category", JStr (s_category t)); ("description", JStr (s_description t));
         ("author", JStr (s_author t)); ("complexity", JStr (s_complexity t));
         ("tags", JArr (map JStr (s_tags t)));
         ("path", JStr (TEMPLATE_BASE_DIR +:+ "/" +:+ path_category (s_path t) +:+ "/"
                        +:+ path_dir (s_path t) +:+ "/template.json"));
         ("phases_count", JNum (Z.of_nat (s_phases_count t)));
         ("tasks_count", JNum (Z.of_nat (s_tasks_count t))) ].

Section TemplateTools.

Context {B : Type}.

(** [json.dumps(value, indent=2)], [str.title] and the template
    directory as a string are given from outside. *)
Variable dumps : json -> string.
Variable str_title : string -> string.
Variable TEMPLATE_BASE_DIR : string.

(** [sorted(by_category.items())]: the categories differ, so the pairs
    are compared by their category alone, by code points. *)
Definition sorted_categories (templates : list summary) : list (string * list summary) :=
  sorted_by (fun a b => bool_decide (String.le a.1 b.1)) (by_category_of templates).

Definition list_templates_text (format : ResponseFormat) (templates : list summary) : string :=
  match format with
  | JSON =>
      dumps (JObj [ ("count", JNum (Z.of_nat (length templates)));
                    ("templates", JArr (map (summary_json TEMPLATE_BASE_DIR) templates));
                    ("template_dir", JStr TEMPLATE_BASE_DIR) ])
  | MARKDOWN =>
      match templates with
      | [] =>
          "No templates found in `" +:+ TEMPLATE_BASE_DIR +:+ "`." +:+ nl +:+ nl
          +:+ "Run the export script to create templates from existing boards."
      | _ =>
          PyStr.join nl
            ([ "# Available Templates";
               "";
               "Found **" +:+ pretty (length templates) +:+ "** templates in `"
                 +:+ TEMPLATE_BASE_DIR +:+ "`:";
               "" ]
             ++ flat_map (category_lines str_title) (sorted_categories templates)
             ++ [ "---";
                  "Use `focalboard_get_template` with a template_id to see details." ])
      end
  end.

Definition focalboard_list_templates (params : ListTemplatesInput) : @M B string :=
  bind (_discover_templates (lt_category params))
    (fun templates => ret (list_templates_text (lt_response_format params) templates)).

End TemplateTools.


(** * The board tools

    The tools that list, search, create and change cards handle
    whatever JSON value the server returns. They are modelled over
    [json]: a [JObj] stands for the [dict] that [json.load] makes of a
    JSON object, with its items in order and no key twice; numbers are
    integers. *)

Module Tools.

(** The exceptions these tools let escape; [UnboundLocalError] is a
    [NameError]. *)
Inductive exception :=
| AttributeError
| KeyError
| TypeError
| NameError.

Inductive result (A : Type) :=
| Ok (a : A)
| Raise (e : exception).
Arguments Ok {A} a.
Arguments Raise {A} e.

Definition and_then {A C} (r : result A) (k : A -> result C) : result C :=
  match r with
  | Ok a => k a
  | Raise e => Raise e
  end.

#[local] Notation "'attempt' x := r 'in' k" := (and_then r (fun x => k))
  (at level 10, x name, r at level 100, k at level 200).

(** A comprehension whose body may raise: the first exception ends
    it. *)
Fixpoint map_result {A C} (f : A -> result C) (l : list A) : result (list C) :=
  match l with
  | [] => Ok []
  | x :: l' => attempt c := f x in attempt cs := map_result f l' in Ok (c :: cs)
  end.

Fixpoint filter_result {A} (f : A -> result bool) (l : list A) : result (list A) :=
  match l with
  | [] => Ok []
  | x :: l' =>
      attempt keep := f x in
      attempt rest := filter_result f l' in
      Ok (if keep : bool then x :: rest else rest)
  end.

(** ** JSON values as Python handles them *)

(** [bool(v)]. *)
Definition truthy (v : json) : bool :=
  match v with
  | JNull => false
  | JBool b => b
  | JNum n => negb (n =? 0)%Z
  | JStr s => negb (bool_decide (s = ""))
  | JArr items => match items with [] => false | _ => true end
  | JObj members => match members with [] => false | _ => true end
  end.

(** [result["error"]] when [isinstance(result, dict) and "error" in
    result]. *)
Definition error_of (result : json) : option json :=
  match result with
  | JObj members => entry "error" members
  | _ => None
  end.

(** [v.get(key, dflt)]: only a dict has [get]. *)
Definition get (v : json) (key : string) (dflt : json) : result json :=
  match v with
  | JObj members => Ok (default dflt (entry key members))
  | _ => Raise AttributeError
  end.

(** [v[key]] for a string [key]. *)
Definition item (v : json) (key : string) : result json :=
  match v with
  | JObj members =>
      match entry key members with
      | Some x => Ok x
      | None => Raise KeyError
      end
  | _ => Raise TypeError
  end.

(** [for x in v]: a list yields its elements, a dict its keys, a string
    its characters; nothing else can be iterated. *)
Definition iterate (v : json) : result (list json) :=
  match v with
  | JArr items => Ok items
  | JObj members => Ok (map (fun kv => JStr kv.1) members)
  | JStr s => Ok (map (fun c => JStr (String c EmptyString)) (String.list_ascii_of_string s))
  | _ => Raise TypeError
  end.

(** [v == s] for a string [s]. *)
Definition is_str (s : string) (v : json) : bool :=
  match v with
  | JStr s' => bool_decide (s' = s)
  | _ => false
  end.

(** A key of a dict: of the values of JSON only [None], numbers,
    booleans and strings can be hashed, and [True] is the key [1]. *)
Inductive key :=
| KNone
| KInt (n : Z)
| KStr (s : string).

Global Instance key_eq_dec : EqDecision key.
Proof. solve_decision. Defined.

Definition key_of (v : json) : result key :=
  match v with
  | JNull => Ok KNone
  | JBool b => Ok (KInt (if b then 1 else 0))
  | JNum n => Ok (KInt n)
  | JStr s => Ok (KStr s)
  | _ => Raise TypeError
  end.

(** A dict built by the code: its items in order, each key as the
    value it was first inserted with. *)
Definition pydict (V : Type) : Type := list (json * key * V).

Fixpoint lookup_key {V} (k : key) (d : pydict V) : option V :=
  match d with
  | [] => None
  | (_, k', v) :: d' => if decide (k' = k) then Some v else lookup_key k d'
  end.

(** [d[k] = v]. *)
Fixpoint store_key {V} (orig : json) (k : key) (v : V) (d : pydict V) : pydict V :=
  match d with
  | [] => [(orig, k, v)]
  | (o, k', v') :: d' =>
      if decide (k' = k) then (o, k', v) :: d'
      else (o, k', v') :: store_key orig k v d'
  end.

(** [d.get(k, dflt)] for a dict that [json.load] made and any key
    [k]. *)
Definition get_at (v : json) (k : json) (dflt : json) : result json :=
  match v with
  | JObj members =>
      attempt k' := key_of k in
      Ok (match k' with
          | KStr s => default dflt (entry s members)
          | _ => dflt
          end)
  | _ => Raise AttributeError
  end.

(** [l[lo:hi]]. *)
Definition slice {A} (l : list A) (lo hi : Z) : list A :=
  let n := Z.of_nat (length l) in
  let clamp := fun i : Z => if (i <? 0)%Z then Z.max (i + n) 0 else Z.min i n in
  take (Z.to_nat (clamp hi - clamp lo)) (drop (Z.to_nat (clamp lo)) l).

(** ** Responses *)

Definition CHARACTER_LIMIT : Z := 25000.

Definition _truncate_response (result : string) (item_count : nat) : string :=
  if decide (Z.of_nat (PyStr.len result) ≤ CHARACTER_LIMIT)%Z then result
  else
    PyStr.take (Z.to_nat (CHARACTER_LIMIT - 200)) result
    +:+ (nl +:+ nl +:+ "---" +:+ nl +:+ "**Response truncated** from "
         +:+ pretty (PyStr.len result) +:+ " to " +:+ pretty CHARACTER_LIMIT
         +:+ " characters." +:+ nl)
    +:+ ("Use 'offset' parameter or 'query' filter to see more." +:+ nl).

(** [f"{n:02d}"]. *)
Definition two_digits (n : Z) : string :=
  let s := pretty n in
  if decide (String.length s < 2)%nat then "0" +:+ s else s.

(** A call [_api_request(method, endpoint, data, params)]. *)
Record api_call := ApiCall {
  ac_method : string;
  ac_endpoint : string;
  ac_data : option json;
  ac_params : option (list (string * string)) }.

(** ** Tool inputs *)

Record ListCardsInput := {
  lc_board_id : string;
  lc_limit : Z;
  lc_offset : Z;
  lc_response_format : ResponseFormat }.

Record SearchCardsInput := {
  sc_board_id : string;
  sc_query : string;
  sc_limit : Z;
  sc_response_format : ResponseFormat }.

(** [cards] is a list of dicts. *)
Record BulkCreateCardsInput := {
  bk_board_id : string;
  bk_cards : list (list (string * json)) }.

Record UpdateCardPropertiesInput := {
  up_board_id : string;
  up_card_id : string;
  up_title : option string;
  up_icon : option string;
  up_properties : option (list (string * json)) }.

Record BulkAddChecklistInput := {
  ck_board_id : string;
  ck_card_id : string;
  ck_items : list string;
  ck_header : option string }.

Record GetPhaseTasksInput := {
  pt_board_id : string;
  pt_phase_number : Z;
  pt_response_format : ResponseFormat }.

(** ** Pure parts of the tools *)

(** The page of [focalboard_list_cards] and whether more cards
    follow. *)
Definition list_cards_page (all_cards : list json) (offset limit : Z) : list json * bool :=
  let cards := slice all_cards offset (offset + limit) in
  (cards, (offset + Z.of_nat (length cards) <? Z.of_nat (length all_cards))%Z).

(** [title.lower()] and [title.startswith(prefix)] for the value of a
    title. *)
Definition lower_of (v : json) : result string :=
  match v with
  | JStr s => Ok (PyStr.lower s)
  | _ => Raise AttributeError
  end.

Definition startswith_of (v : json) (prefix : string) : result bool :=
  match v with
  | JStr s => Ok (PyStr.starts_with prefix s)
  | _ => Raise AttributeError
  end.

(** The cards of [focalboard_search_cards]. *)
Definition matching_cards (cards : list json) (query : string) (limit : Z) :
    result (list json) :=
  let query_lower := PyStr.lower query in
  attempt found := filter_result
                     (fun card =>
                        attempt title := get card "title" (JStr "") in
                        attempt title_lower := lower_of title in
                        Ok (PyStr.contains query_lower title_lower))
                     cards in
  Ok (slice found 0 limit).

(** The title of a card when it is a string, [""] otherwise. *)
Definition title_of (c : json) : string :=
  match c with
  | JObj members => match entry "title" members with Some (JStr s) => s | _ => "" end
  | _ => ""
  end.

(** A card of which the title can be read as text: an object whose
    title, if it has one, is a string. *)
Definition titled_card (c : json) : bool :=
  match c with
  | JObj members =>
      match entry "title" members with
      | None | Some (JStr _) => true
      | Some _ => false
      end
  | _ => false
  end.

(** [current_props.update(properties)]. *)
Definition dict_update (current new : list (string * json)) : list (string * json) :=
  fold_left (fun d kv => put_entry kv.1 kv.2 d) new current.

(** The first card with the id [card_id], as the loops
    [for card in cards: if card.get("id") == card_id: ...; break] find
    it. *)
Fixpoint find_card (cards : list json) (card_id : string) : result (option json) :=
  match cards with
  | [] => Ok None
  | card :: cards' =>
      attempt id := get card "id" JNull in
      if is_str card_id id then Ok (Some card) else find_card cards' card_id
  end.

(** The [update_data] of [focalboard_update_card_properties], or [None]
    when nothing is to be updated. *)
Definition update_data_of (params : UpdateCardPropertiesInput) (current_card : json) :
    result (option json) :=
  attempt properties :=
    match up_properties params with
    | None => Ok []
    | Some new =>
        attempt fields := get current_card "fields" (JObj []) in
        attempt current_props := get fields "properties" (JObj []) in
        match current_props with
        | JObj current => Ok [("properties", JObj (dict_update current new))]
        | _ => Raise AttributeError
        end
    end in
  let updated_fields :=
    properties ++ match up_icon params with Some icon => [("icon", JStr icon)] | None => [] end in
  let title_given :=
    match up_title params with Some title => negb (bool_decide (title = "")) | None => false end in
  Ok (match updated_fields, title_given with
      | [], false => None
      | _, _ =>
          Some (JObj ([("updatedFields", JObj updated_fields)]
                      ++ match up_title params with
                         | Some title => [("title", JStr title)]
                         | None => []
                         end))
      end).

(** The call that [focalboard_bulk_create_cards] makes for [card]. *)
Definition card_post (board_id : string) (card : list (string * json)) : api_call :=
  ApiCall "POST" ("/boards/" +:+ board_id +:+ "/cards")
    (Some (JObj [ ("title", default JNull (entry "title" card));
                  ("icon", default (JStr "📋") (entry "icon" card));
                  ("properties", default (JObj []) (entry "properties" card)) ]))
    (Some [("disable_notify", "true")]).

(** A content block as the tools post it. *)
Definition new_block (now : Z) (board_id card_id id type title : string)
    (fields : list (string * json)) : json :=
  JObj [ ("id", JStr id); ("type", JStr type); ("parentId", JStr card_id);
         ("boardId", JStr board_id); ("title", JStr title); ("fields", JObj fields);
         ("schema", JNum 1); ("createAt", JNum now); ("updateAt", JNum now) ].

(** The statistics of a board, as [focalboard_get_board_statistics]
    collects them before it renders them: for every property of type
    [select], the number of cards under each option value. *)
Definition count_value (options : pydict json) (prop_id : json) (counts : pydict Z)
    (card : json) : result (pydict Z) :=
  attempt properties := get card "properties" (JObj []) in
  attempt val := get_at properties prop_id (JStr "") in
  attempt val_key := key_of val in
  let val_name := default (JStr "Unset") (lookup_key val_key options) in
  attempt name_key := key_of val_name in
  Ok (store_key val_name name_key (default 0%Z (lookup_key name_key counts) + 1)%Z counts).

Fixpoint count_values (options : pydict json) (prop_id : json) (counts : pydict Z)
    (cards : list json) : result (pydict Z) :=
  match cards with
  | [] => Ok counts
  | card :: cards' =>
      attempt counts' := count_value options prop_id counts card in
      count_values options prop_id counts' cards'
  end.

(** [{opt["id"]: opt["value"] for opt in options}]. *)
Fixpoint options_by_id (options : list json) (d : pydict json) : result (pydict json) :=
  match options with
  | [] => Ok d
  | opt :: options' =>
      attempt id := item opt "id" in
      attempt value := item opt "value" in
      attempt k := key_of id in
      options_by_id options' (store_key id k value d)
  end.

Fixpoint by_property_of (card_properties : list json) (cards : list json)
    (by_property : pydict (pydict Z)) : result (pydict (pydict Z)) :=
  match card_properties with
  | [] => Ok by_property
  | prop :: card_properties' =>
      attempt type := get prop "type" JNull in
      if is_str "select" type
      then
        attempt prop_id := item prop "id" in
        attempt prop_name := item prop "name" in
        attempt listed := get prop "options" (JArr []) in
        attempt opts := iterate listed in
        attempt options := options_by_id opts [] in
        attempt counts := count_values options prop_id [] cards in
        attempt name_key := key_of prop_name in
        by_property_of card_properties' cards (store_key prop_name name_key counts by_property)
      else by_property_of card_properties' cards by_property
  end.

(** [stats]: [total_cards] and [by_property]. *)
Definition board_statistics (board : json) (cards : list json) :
    result (nat * pydict (pydict Z)) :=
  attempt listed := get board "cardProperties" (JArr []) in
  attempt card_properties := iterate listed in
  attempt by_property := by_property_of card_properties cards [] in
  Ok (length cards, by_property).

(** The cards of a phase: [focalboard_get_phase_tasks] keeps the cards
    whose title starts with [P00] and the two digits of the phase. *)
Definition phase_pattern (phase_number : Z) : string := "P00" +:+ two_digits phase_number.

Definition phase_cards_of (cards : list json) (phase_number : Z) : result (list json) :=
  filter_result
    (fun c =>
       attempt title := get c "title" (JStr "") in
       startswith_of title (phase_pattern phase_number))
    cards.

(** The Status property of a board: [status_options] and
    [status_prop_id], which stays unbound when the loop finds no
    property named [Status]. *)
Fixpoint find_status (card_properties : list json) : result (option (pydict json * json)) :=
  match card_properties with
  | [] => Ok None
  | prop :: card_properties' =>
      attempt name := get prop "name" JNull in
      if is_str "Status" name
      then
        attempt listed := get prop "options" (JArr []) in
        attempt opts := iterate listed in
        attempt status_options := options_by_id opts [] in
        attempt status_prop_id := get prop "id" (JStr "") in
        Ok (Some (status_options, status_prop_id))
      else find_status card_properties'
  end.

Definition status_of_board (board : json) : result (option (pydict json * json)) :=
  match board with
  | JObj _ =>
      attempt listed := get board "cardProperties" (JArr []) in
      attempt card_properties := iterate listed in
      find_status card_properties
  | _ => Ok None
  end.

(** [status_options.get(c.get("properties", {}).get(status_prop_id, ""),
    "Unknown")]. *)
Definition status_of (status : option (pydict json * json)) (c : json) : result json :=
  attempt properties := get c "properties" (JObj []) in
  match properties with
  | JObj _ =>
      match status with
      | None => Raise NameError
      | Some (status_options, status_prop_id) =>
          attempt val := get_at properties status_prop_id (JStr "") in
          attempt val_key := key_of val in
          Ok (default (JStr "Unknown") (lookup_key val_key status_options))
      end
  | _ => Raise AttributeError
  end.

Record phase_meta := PhaseMeta {
  pm_name : string;
  pm_icon : string;
  pm_leader : string }.

Definition phase_metadata : list (Z * phase_meta) :=
  [ (0, PhaseMeta "Verification Protocol" "🔍" "Research Specialist");
    (1, PhaseMeta "Empathetic Problem Definition" "💭" "Elisabeth + Maisie");
    (2, PhaseMeta "Multi-Dimensional Data Gathering" "📊" "Research Specialist");
    (3, PhaseMeta "Systematic Analysis & Insights" "🔬" "George (Systems Architect)");
    (4, PhaseMeta "Creative Solution Generation" "💡" "Finn (Innovation Engineer)");
    (5, PhaseMeta "Systematic Solution Evaluation" "⚖️" "Perspective Analyst");
    (6, PhaseMeta "Consensus & Solution Selection" "🗳️" "Elisabeth (Orchestrator)");
    (7, PhaseMeta "Design Excellence (WRICEF)" "📐" "Giuseppe (Documentation)");
    (8, PhaseMeta "Implementation Planning" "📋" "Elisabeth + Lily");
    (9, PhaseMeta "Build → Test (TDD)" "🔨" "Lily (Quality Assurance)");
    (10, PhaseMeta "Go-Live Prep & Change Management" "🚀" "Elisabeth + Connor");
    (11, PhaseMeta "Production Deployment" "🌐" "Connor (DevOps)");
    (12, PhaseMeta "Reflection & Learning (SSC)" "📝" "SE-Agent Observer") ]%Z.

Definition phase_meta_of (phase_number : Z) : phase_meta :=
  default (PhaseMeta ("Phase " +:+ pretty phase_number) "📋" "Unknown")
    (snd <$> find (fun e => bool_decide (e.1 = phase_number)) phase_metadata).

(** ** The tools

    A tool runs in a session with the server: [serve] answers a call
    from the state of the server, and every call is logged with its
    answer. Block identifiers, the clock, [json.dumps], the [repr] of
    lists and dicts, [_format_timestamp] and the formatting of a
    percentage are given from outside. *)

Section Session.

Context {B : Type}.
Variable serve : api_call -> B -> json * B.
Variable block_id : nat -> string.
Variable now : Z.
Variable dumps : json -> string.
Variable repr : json -> string.
Variable _format_timestamp : json -> string.
(** [f"{count / total * 100:.0f}"]. *)
Variable percent : Z -> nat -> string.

Record session := Session {
  remote : B;
  (** every call so far with its answer, oldest first *)
  calls : list (api_call * json);
  (** how many block identifiers have been drawn *)
  made : nat }.

Definition T (A : Type) : Type := session -> result A * session.

Definition ret {A} (a : A) : T A := fun s => (Ok a, s).

Definition lift {A} (r : result A) : T A := fun s => (r, s).

Definition bind {A C} (m : T A) (k : A -> T C) : T C :=
  fun s => match m s with
           | (Ok a, s') => k a s'
           | (Raise e, s') => (Raise e, s')
           end.

Notation "x <- m ;; k" := (bind m (fun x => k))
  (at level 100, m at next level, right associativity).

Definition _api_request (method endpoint : string) (data : option json)
    (params : option (list (string * string))) : T json := fun s =>
  let call := ApiCall method endpoint data params in
  let (answer, b) := serve call (remote s) in
  (Ok answer, Session b (calls s ++ [(call, answer)]) (made s)).

Definition _generate_block_id : T string := fun s =>
  (Ok (block_id (made s)), Session (remote s) (calls s) (S (made s))).

(** [f"{v}"]. *)
Definition fmt (v : json) : string :=
  match v with
  | JNull => "None"
  | JBool true => "True"
  | JBool false => "False"
  | JNum n => pretty n
  | JStr s => s
  | _ => repr v
  end.

Definition _format_card_markdown (card : json) (brief : bool) : result string :=
  attempt title := get card "title" (JStr "Untitled") in
  attempt icon := get card "icon" (JStr "📋") in
  attempt card_id := get card "id" (JStr "N/A") in
  if brief
  then Ok ("- " +:+ fmt icon +:+ " **" +:+ fmt title +:+ "** (`" +:+ fmt card_id +:+ "`)")
  else
    attempt created := get card "createAt" JNull in
    attempt updated := get card "updateAt" JNull in
    let lines :=
      [ "## " +:+ fmt icon +:+ " " +:+ fmt title;
        "**ID**: `" +:+ fmt card_id +:+ "`";
        "**Created**: " +:+ _format_timestamp created;
        "**Updated**: " +:+ _format_timestamp updated ] in
    attempt props := get card "properties" (JObj []) in
    attempt properties :=
      if truthy props
      then match props with
           | JObj members =>
               Ok (["";  "**Properties**:"]
                   ++ map (fun kv => "- `" +:+ kv.1 +:+ "`: " +:+ fmt kv.2) (take 10 members))
           | _ => Raise AttributeError
           end
      else Ok [] in
    Ok (PyStr.join nl (lines ++ properties)).

(** *** focalboard_list_cards *)

Definition focalboard_list_cards (params : ListCardsInput) : T string :=
  result <- _api_request "GET" ("/boards/" +:+ lc_board_id params +:+ "/cards") None None ;;
  match error_of result with
  | Some error => ret ("Error: " +:+ fmt error)
  | None =>
      match result with
      | JArr all_cards =>
          let total := length all_cards in
          let offset := lc_offset params in
          let '(cards, has_more) := list_cards_page all_cards offset (lc_limit params) in
          match lc_response_format params with
          | JSON =>
              let response :=
                JObj [ ("total", JNum (Z.of_nat total));
                       ("count", JNum (Z.of_nat (length cards)));
                       ("offset", JNum offset);
                       ("has_more", JBool has_more);
                       ("next_offset",
                        if has_more then JNum (offset + Z.of_nat (length cards)) else JNull);
                       ("cards", JArr cards) ] in
              ret (_truncate_response (dumps response) (length cards))
          | MARKDOWN =>
              match cards with
              | [] =>
                  ret (if (0 <? offset)%Z
                       then "No more cards after offset " +:+ pretty offset
                            +:+ ". Total cards: " +:+ pretty total
                       else "No cards found on this board.")
              | _ =>
                  listed <- lift (map_result (fun card => _format_card_markdown card true) cards) ;;
                  let lines :=
                    [ "# Cards";
                      "";
                      "Showing **" +:+ pretty (length cards) +:+ "** of **" +:+ pretty total
                        +:+ "** cards (offset: " +:+ pretty offset +:+ ")";
                      "" ]
                    ++ listed
                    ++ (if has_more
                        then [ "";
                               "---";
                               "More cards available. Use offset="
                                 +:+ pretty (offset + Z.of_nat (length cards))%Z
                                 +:+ " to see next page." ]
                        else []) in
                  ret (_truncate_response (PyStr.join nl lines) (length cards))
              end
          end
      | _ => ret "Error: Unexpected response format from API"
      end
  end.

(** *** focalboard_search_cards *)

Definition focalboard_search_cards (params : SearchCardsInput) : T string :=
  result <- _api_request "GET" ("/boards/" +:+ sc_board_id params +:+ "/cards") None None ;;
  match error_of result with
  | Some error => ret ("Error: " +:+ fmt error)
  | None =>
      match result with
      | JArr cards =>
          matching <- lift (matching_cards cards (sc_query params) (sc_limit params)) ;;
          match sc_response_format params with
          | JSON =>
              ret (dumps (JObj [ ("query", JStr (sc_query params));
                                 ("count", JNum (Z.of_nat (length matching)));
                                 ("cards", JArr matching) ]))
          | MARKDOWN =>
              match matching with
              | [] =>
                  ret ("No cards found matching '" +:+ sc_query params +:+ "' on this board.")
              | _ =>
                  listed <- lift (map_result (fun card => _format_card_markdown card true)
                                    matching) ;;
                  ret (PyStr.join nl
                         ([ "# Search Results: '" +:+ sc_query params +:+ "'";
                            "";
                            "Found **" +:+ pretty (length matching) +:+ "** matching cards:";
                            "" ]
                          ++ listed))
              end
          end
      | _ => ret "Error: Unexpected response format from API"
      end
  end.

(** *** focalboard_bulk_create_cards *)

Record bulk_results := BulkResults {
  created : nat;
  failed : nat;
  errors : list string;
  ids : list json }.

(** The body of the loop for the card [card] at index [i]. *)
Definition bulk_create_card (board_id : string) (i : nat) (card : list (string * json))
    (results : bulk_results) : T bulk_results :=
  title <- lift (item (JObj card) "title") ;;
  let data :=
    JObj [ ("title", title);
           ("icon", default (JStr "📋") (entry "icon" card));
           ("properties", default (JObj []) (entry "properties" card)) ] in
  result <- _api_request "POST" ("/boards/" +:+ board_id +:+ "/cards") (Some data)
              (Some [("disable_notify", "true")]) ;;
  match error_of result with
  | Some error =>
      ret (BulkResults (created results) (failed results + 1)
             (errors results
              ++ ["Card " +:+ pretty (i + 1)%nat +:+ " ('" +:+ fmt title +:+ "'): " +:+ fmt error])
             (ids results))
  | None =>
      id <- lift (get result "id" (JStr "unknown")) ;;
      ret (BulkResults (created results + 1) (failed results) (errors results)
             (ids results ++ [id]))
  end.

Fixpoint bulk_create_from (board_id : string) (i : nat) (cards : list (list (string * json)))
    (results : bulk_results) : T bulk_results :=
  match cards with
  | [] => ret results
  | card :: cards' =>
      results' <- bulk_create_card board_id i card results ;;
      bulk_create_from board_id (S i) cards' results'
  end.

Definition bulk_lines (results : bulk_results) : list string :=
  [ "# Bulk Create Results";
    "";
    "**Created**: " +:+ pretty (created results) +:+ " cards";
    "**Failed**: " +:+ pretty (failed results) +:+ " cards" ]
  ++ match errors results with
     | [] => []
     | _ =>
         [""; "## Errors:"]
         ++ map (fun err => "- " +:+ err) (take 10 (errors results))
         ++ (if decide (10 < length (errors results))%nat
             then ["- ... and " +:+ pretty (length (errors results) - 10)%nat +:+ " more errors"]
             else [])
     end.

Definition focalboard_bulk_create_cards (params : BulkCreateCardsInput) : T string :=
  results <- bulk_create_from (bk_board_id params) 0 (bk_cards params)
               (BulkResults 0 0 [] []) ;;
  ret (PyStr.join nl (bulk_lines results)).

(** *** focalboard_update_card_properties *)

Definition focalboard_update_card_properties (params : UpdateCardPropertiesInput) : T string :=
  cards_result <- _api_request "GET" ("/boards/" +:+ up_board_id params +:+ "/blocks?type=card")
                    None None ;;
  match error_of cards_result with
  | Some error => ret ("Error getting card: " +:+ fmt error)
  | None =>
      cards <- lift (iterate cards_result) ;;
      current_card <- lift (find_card cards (up_card_id params)) ;;
      match current_card with
      | None =>
          ret ("Error: Card `" +:+ up_card_id params +:+ "` not found on board `"
               +:+ up_board_id params +:+ "`")
      | Some card =>
          update_data <- lift (update_data_of params card) ;;
          match update_data with
          | None =>
              ret "Error: No updates provided. Specify title, icon, or properties to update."
          | Some data =>
              result <- _api_request "PATCH"
                          ("/boards/" +:+ up_board_id params +:+ "/blocks/"
                           +:+ up_card_id params)
                          (Some data) None ;;
              match error_of result with
              | Some error => ret ("Error: " +:+ fmt error)
              | None => ret ("Card `" +:+ up_card_id params +:+ "` updated successfully!")
              end
          end
      end
  end.

(** *** focalboard_add_checklist *)

(** The tool ends by adding the new blocks to the [contentOrder] of the
    card, when the card is found. *)
Definition extend_content_order (board_id card_id : string) (content_order : list string) :
    T unit :=
  cards_result <- _api_request "GET" ("/boards/" +:+ board_id +:+ "/blocks?type=card")
                    None None ;;
  match cards_result with
  | JArr cards =>
      found <- lift (find_card cards card_id) ;;
      match found with
      | Some card =>
          fields <- lift (get card "fields" (JObj [])) ;;
          current_order <- lift (get fields "contentOrder" (JArr [])) ;;
          match current_order with
          | JArr order =>
              _ <- _api_request "PATCH" ("/boards/" +:+ board_id +:+ "/blocks/" +:+ card_id)
                     (Some (JObj [("updatedFields",
                                   JObj [("contentOrder",
                                          JArr (order ++ map JStr content_order))])]))
                     None ;;
              ret tt
          | _ => lift (Raise AttributeError)
          end
      | None => ret tt
      end
  | _ => ret tt
  end.

(** The identifiers of the blocks of a checklist, one after the
    other. *)
Fixpoint generate_block_ids (n : nat) : T (list string) :=
  match n with
  | O => ret []
  | S n' =>
      id <- _generate_block_id ;;
      rest <- generate_block_ids n' ;;
      ret (id :: rest)
  end.

Definition focalboard_add_checklist (params : BulkAddChecklistInput) : T string :=
  let with_header := match ck_header params with
                     | Some header => negb (bool_decide (header = ""))
                     | None => false
                     end in
  header_ids <- (if with_header then header_id <- _generate_block_id ;; ret [header_id]
                 else ret []) ;;
  checkbox_ids <- generate_block_ids (length (ck_items params)) ;;
  let new_blocks :=
    map (fun header_id =>
           new_block now (ck_board_id params) (ck_card_id params) header_id "text"
             (default "" (ck_header params)) [])
      header_ids
    ++ zip_with (fun checkbox_id item =>
                   new_block now (ck_board_id params) (ck_card_id params) checkbox_id
                     "checkbox" item [("value", JBool false)])
         checkbox_ids (ck_items params) in
  let content_order := header_ids ++ checkbox_ids in
  result <- _api_request "POST" ("/boards/" +:+ ck_board_id params +:+ "/blocks")
              (Some (JArr new_blocks)) None ;;
  match error_of result with
  | Some error => ret ("Error: " +:+ fmt error)
  | None =>
      _ <- extend_content_order (ck_board_id params) (ck_card_id params) content_order ;;
      ret ("Checklist added!" +:+ nl +:+ nl +:+ "**Items**: "
           +:+ pretty (length (ck_items params)) +:+ nl +:+ "**Header**: "
           +:+ (if with_header then "Yes" else "No"))
  end.

(** *** focalboard_get_phase_tasks *)

(** [sorted(status_counts.items())]: the statuses, which differ, are
    compared; a string and a number, or [None] and anything, cannot
    be. *)
Definition key_le (a b : json * key * Z) : bool :=
  match a.1.2, b.1.2 with
  | KStr x, KStr y => bool_decide (String.le x y)
  | KInt x, KInt y => (x <=? y)%Z
  | _, _ => false
  end.

Definition comparable (counts : pydict Z) : bool :=
  match counts with
  | [] | [_] => true
  | _ =>
      forallb (fun e => match e.1.2 with KStr _ => true | _ => false end) counts
      || forallb (fun e => match e.1.2 with KInt _ => true | _ => false end) counts
  end.

Definition sorted_counts (counts : pydict Z) : result (pydict Z) :=
  if comparable counts then Ok (sorted_by key_le counts) else Raise TypeError.

(** The status count of the cards of a phase. *)
Fixpoint status_counts_of (status : option (pydict json * json)) (phase_cards : list json)
    (status_counts : pydict Z) : result (pydict Z) :=
  match phase_cards with
  | [] => Ok status_counts
  | c :: phase_cards' =>
      attempt st := status_of status c in
      attempt k := key_of st in
      status_counts_of status phase_cards'
        (store_key st k (default 0%Z (lookup_key k status_counts) + 1)%Z status_counts)
  end.

Definition status_icon (st : json) : string :=
  if is_str "Not Started" st then "⬜"
  else if is_str "In Progress" st then "🔵"
  else if is_str "Completed" st then "✅"
  else if is_str "Blocked" st then "🔴"
  else "⬜".

Definition task_line (status : option (pydict json * json)) (card : json) : result string :=
  attempt title := get card "title" (JStr "Untitled") in
  attempt icon := get card "icon" (JStr "📋") in
  attempt st := status_of status card in
  attempt card_id := get card "id" (JStr "") in
  attempt _k := key_of st in
  Ok ("- " +:+ status_icon st +:+ " " +:+ fmt icon +:+ " **" +:+ fmt title +:+ "** (`"
      +:+ fmt card_id +:+ "`)").

Definition task_json (status : option (pydict json * json)) (c : json) : result json :=
  attempt id := get c "id" JNull in
  attempt title := get c "title" JNull in
  attempt icon := get c "icon" JNull in
  attempt st := status_of status c in
  Ok (JObj [("id", id); ("title", title); ("icon", icon); ("status", st)]).

Definition focalboard_get_phase_tasks (params : GetPhaseTasksInput) : T string :=
  let phase_number := pt_phase_number params in
  cards <- _api_request "GET" ("/boards/" +:+ pt_board_id params +:+ "/cards") None None ;;
  match error_of cards with
  | Some error => ret ("Error: " +:+ fmt error)
  | None =>
      match cards with
      | JArr cards =>
          phase_cards <- lift (phase_cards_of cards phase_number) ;;
          board <- _api_request "GET" ("/boards/" +:+ pt_board_id params) None None ;;
          status <- lift (status_of_board board) ;;
          let meta := phase_meta_of phase_number in
          match pt_response_format params with
          | JSON =>
              tasks <- lift (map_result (task_json status) phase_cards) ;;
              ret (dumps (JObj [ ("phase", JNum phase_number);
                                 ("name", JStr (pm_name meta));
                                 ("leader", JStr (pm_leader meta));
                                 ("tasks", JArr tasks) ]))
          | MARKDOWN =>
              status_counts <- lift (status_counts_of status phase_cards []) ;;
              sorted <- lift (sorted_counts status_counts) ;;
              listed <- lift (map_result (task_line status)
                                (sorted_by (fun a b => bool_decide
                                                         (String.le (title_of a) (title_of b)))
                                   phase_cards)) ;;
              ret (PyStr.join nl
                     ([ "# " +:+ pm_icon meta +:+ " Phase " +:+ pretty phase_number +:+ ": "
                          +:+ pm_name meta;
                        "";
                        "**Leader**: " +:+ pm_leader meta;
                        "**Tasks**: " +:+ pretty (length phase_cards);
                        "";
                        "## Status Summary" ]
                      ++ map (fun e => "- **" +:+ fmt e.1.1 +:+ "**: " +:+ pretty e.2 +:+ " ("
                                       +:+ percent e.2 (length phase_cards) +:+ "%)")
                           sorted
                      ++ [""; "## Tasks"; ""]
                      ++ listed))
          end
      | _ => ret "Error: No cards found"
      end
  end.

End Session.

End Tools.

(** * More example data *)

Module Cases.

Import Examples.

(** A tree with what discovery passes over: plain files, a directory
    without [template.json], a file that cannot be read and one that
    is not JSON, beside two templates in two categories. *)
Definition littered : disk :=
  Some [ ("README.md", CFile);
         ("framework", CDir [ ("notes.txt", TFile);
                              ("empty", TDir None);
                              ("locked", TDir (Some Unreadable));
                              ("garbled", TDir (Some NotJson));
                              ("demo", TDir (Some (JsonDoc small))) ]);
         ("custom", CDir [ ("mine", TDir (Some (JsonDoc demo))) ]) ].

(** A world without any template. *)
Definition bare : @world mem_server := World willing [] (Some []) true 0.

Definition rehearse : SyncTemplateInput :=
  {| sy_board_id := "b0"; sy_template_id := "demo";
     sy_direction := "board_to_template"; sy_dry_run := true |}.

Definition push : SyncTemplateInput :=
  {| sy_board_id := "b0"; sy_template_id := "demo";
     sy_direction := "template_to_board"; sy_dry_run := false |}.

(** A schema with a Status and a Phase property. *)
Definition full_schema : list property_def :=
  [PropertyDef (Some "st") (Some "Status") (Some "select")
     (Some [SelectOption (Some "o1") (Some "Not Started") None;
            SelectOption (Some "o2") (Some "In Progress") None]);
   PropertyDef (Some "ph") (Some "Phase") (Some "select")
     (Some [SelectOption (Some "p1") (Some "Phase 1") None])].

(** A text of 32768 characters. *)
Fixpoint doubled (n : nat) (s : string) : string :=
  match n with
  | O => s
  | S k => doubled k (s +:+ s)
  end.

Definition long_text : string := doubled 15 "a".

(** A server for the board tools that gives the answers of a script,
    one per call, and [null] when the script is over. *)
Definition scripted (call : Tools.api_call) (script : list json) : json * list json :=
  match script with
  | [] => (JNull, [])
  | answer :: rest => (answer, rest)
  end.

Definition opening (script : list json) : @Tools.session (list json) :=
  Tools.Session script [] 0.

Definition dumps (v : json) : string := "<json>".
Definition repr (v : json) : string := "<repr>".
Definition _format_timestamp (v : json) : string := "<time>".
Definition percent (count : Z) (total : nat) : string := "<percent>".

Definition card (id title : string) : json := JObj [("id", JStr id); ("title", JStr title)].

Definition five_cards : list json :=
  [ card "c1" "P0001-T0001 Interview users";
    card "c2" "P0001-T0002 Draw the empathy map";
    card "c3" "P0002-T0001 Gather data";
    card "c4" "P0010-T0001 Prepare go-live";
    card "c5" "Unplanned" ].

(** A board whose cards carry a select property. *)
Definition priority_board : json :=
  JObj [ ("id", JStr "b0");
         ("cardProperties",
          JArr [ JObj [ ("id", JStr "prio"); ("name", JStr "Priority"); ("type", JStr "select");
                        ("options", JArr [ JObj [("id", JStr "hi"); ("value", JStr "High")];
                                           JObj [("id", JStr "lo"); ("value", JStr "Low")] ]) ];
                 JObj [ ("id", JStr "note"); ("name", JStr "Note"); ("type", JStr "text") ] ]) ].

Definition with_priority (id value : string) : json :=
  JObj [("id", JStr id); ("properties", JObj [("prio", JStr value)])].

Definition priority_cards : list json :=
  [ with_priority "c1" "hi"; with_priority "c2" "lo"; with_priority "c3" "hi";
    JObj [("id", JStr "c4")] ].

(** A card block with properties and a content order. *)
Definition stored_card : json :=
  JObj [ ("id", JStr "c1");
         ("fields", JObj [ ("properties", JObj [("st", JStr "o1"); ("ph", JStr "p1")]);
                           ("contentOrder", JArr [JStr "old"]) ]) ].

End Cases.
(** * Properties *)

#[local] Arguments String.append !_ _ / : simpl nomatch.
#[local] Arguments Ascii.eqb : simpl never.
#[local] Arguments token : simpl never.

(** ** Strings *)

Lemma append_assoc (a b c : string) : (a +:+ b) +:+ c = a +:+ (b +:+ c).
Proof. induction a as [|x a IH]; simpl; congruence. Qed.

Lemma starts_with_append old s : PyStr.starts_with old (old +:+ s) = true.
Proof. induction old as [|c old IH]; simpl; [done|]. by rewrite Ascii.eqb_refl. Qed.

Lemma has_char_append c s1 s2 :
  PyStr.has_char c (s1 +:+ s2) = PyStr.has_char c s1 || PyStr.has_char c s2.
Proof. induction s1 as [|b s1 IH]; simpl; [done|]. by rewrite IH, orb_assoc. Qed.

(** Once a match is found, the scan resumes behind it. *)
Lemma replace_from_skip old new s rest :
  PyStr.replace_from (String.length s) old new (s +:+ rest) = PyStr.replace_from 0 old new rest.
Proof. induction s as [|c s IH]; simpl; [done|]. exact IH. Qed.

Lemma replace_from_match old new rest :
  old ≠ "" →
  PyStr.replace_from 0 old new (old +:+ rest) = new +:+ PyStr.replace_from 0 old new rest.
Proof.
  destruct old as [|c old]; [done|]. intros _.
  change (String c old +:+ rest) with (String c (old +:+ rest)).
  cbn [PyStr.replace_from].
  change (String c (old +:+ rest)) with (String c old +:+ rest).
  rewrite starts_with_append. f_equal.
  cbn [String.length]. rewrite Nat.sub_1_r. cbn [Nat.pred].
  apply replace_from_skip.
Qed.

(** No match starts inside text that lacks the first character of
    [old]. *)
Lemma replace_from_no_match c old new s rest :
  PyStr.has_char c s = false →
  PyStr.replace_from 0 (String c old) new (s +:+ rest)
  = s +:+ PyStr.replace_from 0 (String c old) new rest.
Proof.
  induction s as [|b s IH]; simpl; [done|].
  intros [Hb Hs]%orb_false_iff. rewrite Hb. by rewrite IH.
Qed.

Lemma starts_with_name k n rest :
  PyStr.has_char "}" k = false → PyStr.has_char "}" n = false →
  PyStr.starts_with (k +:+ "}") (n +:+ "}" +:+ rest) = true → k = n.
Proof.
  revert n. induction k as [|a k IH]; intros [|b n]; simpl.
  - done.
  - intros _ [Hb _]%orb_false_iff. by rewrite Hb.
  - intros [Ha _]%orb_false_iff _. by rewrite (Ascii.eqb_sym a "}"), Ha.
  - intros [_ Hk]%orb_false_iff [_ Hn]%orb_false_iff.
    destruct (Ascii.eqb a b) eqn:E; [|done].
    apply Ascii.eqb_eq in E as ->. intros H. f_equal. by apply IH.
Qed.

(** Text in which [old] does not occur is left as it is. *)
Lemma replace_absent s old new :
  PyStr.contains old s = false → PyStr.replace s old new = s.
Proof.
  destruct old as [|c old].
  { by destruct s. }
  unfold PyStr.replace. induction s as [|b s IH]; [done|].
  cbn [PyStr.contains PyStr.replace_from].
  intros [-> Hrest]%orb_false_iff. by rewrite IH.
Qed.

(** ** Substitution, token by token *)

Lemma replace_token_lit k v s rest :
  PyStr.has_char "$" s = false →
  PyStr.replace_from 0 (token k) v (s +:+ rest) = s +:+ PyStr.replace_from 0 (token k) v rest.
Proof. apply (replace_from_no_match "$" ("{" +:+ k +:+ "}")). Qed.

Lemma replace_token_same k v rest :
  PyStr.replace_from 0 (token k) v (token k +:+ rest)
  = v +:+ PyStr.replace_from 0 (token k) v rest.
Proof. by apply replace_from_match. Qed.

Lemma replace_token_other k n v rest :
  PyStr.has_char "}" k = false →
  PyStr.has_char "$" n = false → PyStr.has_char "}" n = false →
  k ≠ n →
  PyStr.replace_from 0 (token k) v (token n +:+ rest)
  = token n +:+ PyStr.replace_from 0 (token k) v rest.
Proof.
  intros Hk Hn1 Hn2 Hne. unfold token. simpl.
  destruct (PyStr.starts_with (k +:+ "}") ((n +:+ "}") +:+ rest)) eqn:E.
  - rewrite append_assoc in E. by apply starts_with_name in E.
  - f_equal.
    change (String "{" ((n +:+ "}") +:+ rest)) with (("{" +:+ n +:+ "}") +:+ rest).
    change (String "$" (String "{" (k +:+ "}"))) with (String "$" ("{" +:+ k +:+ "}")).
    rewrite replace_from_no_match; [done|].
    simpl. by rewrite has_char_append, Hn1.
Qed.

(** One [str.replace] settles the tokens of its key and nothing else. *)
Lemma replace_render k v segs :
  PyStr.has_char "}" k = false →
  Forall clean_segment segs →
  PyStr.replace (render segs) (token k) v = render (map (settle k v) segs).
Proof.
  intros Hk Hsegs.
  change (PyStr.replace (render segs) (token k) v)
    with (PyStr.replace_from 0 (token k) v (render segs)).
  induction Hsegs as [|seg segs Hseg _ IH]; [done|].
  destruct seg as [s|n]; cbn [render render_segment map settle clean_segment] in *.
  - rewrite replace_token_lit by done. by rewrite IH.
  - destruct Hseg as [Hn1 Hn2].
    destruct (decide (k = n)) as [->|Hne]; cbn [render render_segment].
    + by rewrite replace_token_same, IH.
    + by rewrite replace_token_other, IH.
Qed.

Lemma settle_clean k v seg :
  PyStr.has_char "$" v = false → clean_segment seg → clean_segment (settle k v seg).
Proof. intros Hv. destruct seg as [s|n]; simpl; [done|]. by destruct (decide _). Qed.

Lemma substitute_spec_settle k v rest segs :
  substitute_spec (map (settle k v) segs) rest = substitute_spec segs ((k, v) :: rest).
Proof.
  induction segs as [|[s|n] segs IH]; simpl; [done| |].
  - by rewrite IH.
  - rewrite IH. by destruct (decide (k = n)).
Qed.

Lemma substitute_spec_nil segs : substitute_spec segs [] = render segs.
Proof. induction segs as [|[s|n] segs IH]; simpl; by rewrite ?IH. Qed.

Lemma fold_replace_render variables : ∀ segs,
  Forall clean_variable variables →
  Forall clean_segment segs →
  fold_left (λ result kv, PyStr.replace result (token kv.1) kv.2) variables (render segs)
  = substitute_spec segs variables.
Proof.
  induction variables as [|[k v] variables IH]; intros segs Hvars Hsegs; cbn [fold_left].
  - by rewrite substitute_spec_nil.
  - inversion Hvars as [|? ? [Hk Hv] Hvars']; subst. cbn [fst snd] in *.
    rewrite replace_render by done.
    rewrite IH; [apply substitute_spec_settle|done|].
    eapply Forall_fmap, Forall_impl; [done|]. intros seg. by apply settle_clean.
Qed.

(** C6, as amended. On a text of literal runs without [$] and of tokens,
    with keys that hold no [}] and values that hold no [$],
    [_substitute_variables] replaces every token whose name is a key by
    the value of that key and leaves every other token and all other
    text as it is, in one pass. On any text it applies [str.replace] key
    after key in the order of the map, and a text in which the token of
    no key occurs comes back unchanged. The two cases of the
    specification hold. *)
Theorem substitute_token_by_token (segs : list segment) (variables : list (string * string)) :
  Forall clean_segment segs →
  Forall clean_variable variables →
  _substitute_variables (render segs) variables = substitute_spec segs variables
  ∧ (∀ text k v rest,
       _substitute_variables text ((k, v) :: rest)
       = _substitute_variables (PyStr.replace text (token k) v) rest)
  ∧ (∀ text,
       Forall (λ kv, PyStr.contains (token kv.1) text = false) variables →
       _substitute_variables text variables = text)
  ∧ _substitute_variables "${P} board" [("P", "X")] = "X board"
  ∧ _substitute_variables "${MISSING}" [] = "${MISSING}".
Proof.
  intros Hsegs Hvars. split_and!; [| | |reflexivity..].
  - unfold _substitute_variables.
    destruct variables as [|kv variables]; [by rewrite substitute_spec_nil|].
    by apply fold_replace_render.
  - intros text k v rest. unfold _substitute_variables. by destruct rest.
  - intros text Habsent.
    assert (fold_left (λ result kv, PyStr.replace result (token kv.1) kv.2) variables text
            = text) as Hfold.
    { clear Hvars. induction Habsent as [|[k v] rest Hk _ IH]; [done|].
      cbn [fold_left fst snd] in *. by rewrite replace_absent. }
    unfold _substitute_variables. by destruct variables.
Qed.

(** ** The diff of a synchronisation *)

(** C3. The titles missing from the board and the titles extra in the
    board are disjoint; when no title is extra, the missing titles and
    the titles on the board together are the titles of the template. *)
Theorem diff_disjoint_and_complete (template_tasks : list template_task)
    (board_cards : list board_card) :
  missing_from_board template_tasks board_cards ∩ extra_in_board template_tasks board_cards = ∅
  ∧ (extra_in_board template_tasks board_cards = ∅ →
     missing_from_board template_tasks board_cards ∪ board_titles board_cards
     = template_titles template_tasks).
Proof.
  unfold missing_from_board, extra_in_board. split.
  - apply set_eq. intros x.
    rewrite elem_of_intersection, !elem_of_difference, elem_of_empty. tauto.
  - intros Hextra. apply set_eq. intros x.
    rewrite elem_of_union, elem_of_difference. split.
    + intros [[? _]|Hboard]; [done|].
      destruct (decide (x ∈ template_titles template_tasks)) as [|Hout]; [done|].
      assert (x ∈ board_titles board_cards ∖ template_titles template_tasks) as Hx
        by by apply elem_of_difference.
      rewrite Hextra in Hx. by apply elem_of_empty in Hx.
    + intros ?. destruct (decide (x ∈ board_titles board_cards)); [by right|by left].
Qed.

(** ** The lookup tables *)

Lemma property_map_of_snoc props p :
  property_map_of (props ++ [p])
  = <[default "" (prop_name p) := default "" (prop_id p)]> (property_map_of props).
Proof. unfold property_map_of. by rewrite fold_left_app. Qed.

(** [property_map] keeps, for every name, the id of the last property of
    that name. *)
Lemma property_map_of_lookup name props :
  property_map_of props !! name
  = (λ p, default "" (prop_id p)) <$> last_property name props.
Proof.
  unfold last_property. induction props as [|p props IH] using rev_ind; [done|].
  rewrite property_map_of_snoc, filter_app, filter_cons, filter_nil.
  destruct (decide (default "" (prop_name p) = name)) as [<-|Hne].
  - by rewrite lookup_insert_eq, last_snoc.
  - by rewrite lookup_insert_ne, app_nil_r.
Qed.

Lemma has_property_lookup name props :
  has_property name props = true ↔ is_Some (property_map_of props !! name).
Proof.
  rewrite property_map_of_lookup, fmap_is_Some. unfold has_property, last_property.
  rewrite existsb_exists. split.
  - intros (p & Hp%list_elem_of_In & Hn%bool_decide_eq_true).
    apply last_is_Some. intros Hnil.
    assert (p ∈ filter (λ p, default "" (prop_name p) = name) props) as Hin
      by by apply list_elem_of_filter.
    rewrite Hnil in Hin. by apply elem_of_nil in Hin.
  - intros [p Hp]. apply last_Some_elem_of, list_elem_of_filter in Hp as [Hn Hp].
    exists p. split; [by apply list_elem_of_In|by apply bool_decide_eq_true].
Qed.

Lemma options_dict_lookup_Some opts : ∀ (m : gmap string string) value id,
  fold_left (λ m opt, <[default "" (opt_value opt) := default "" (opt_id opt)]> m) opts m
    !! value = Some id →
  m !! value = Some id ∨ ∃ o, o ∈ opts ∧ default "" (opt_value o) = value.
Proof.
  induction opts as [|o opts IH]; intros m value id; simpl; [by left|].
  intros [H|(o' & ? & ?)]%IH.
  - destruct (decide (default "" (opt_value o) = value)) as [Heq|Hne].
    + right. exists o. split; [left|done].
    + left. by rewrite lookup_insert_ne in H.
  - right. exists o'. split; [by right|done].
Qed.

Lemma option_map_of_lookup_Some props : ∀ (m : gmap string (gmap string string)) name d,
  fold_left (λ m prop,
               match prop_options prop with
               | Some (o :: opts) => <[default "" (prop_name prop) := options_dict (o :: opts)]> m
               | _ => m
               end) props m !! name = Some d →
  m !! name = Some d
  ∨ ∃ p opts, p ∈ props ∧ default "" (prop_name p) = name ∧ prop_options p = Some opts
              ∧ d = options_dict opts.
Proof.
  induction props as [|p props IH]; intros m name d; simpl; [by left|].
  intros [H|(p' & opts & ? & ? & ? & ?)]%IH.
  - destruct (prop_options p) as [[|o opts]|] eqn:Eo; [by left| |by left].
    destruct (decide (default "" (prop_name p) = name)) as [Heq|Hne].
    + right. exists p, (o :: opts). rewrite Heq, lookup_insert_eq in H.
      split_and!; [left|done|done|congruence].
    + left. by rewrite lookup_insert_ne in H.
  - right. exists p', opts. split_and!; [by right|done..].
Qed.

(** An option found in [option_map] comes from the options of a property
    of that name. *)
Lemma option_map_of_option props name d value id :
  option_map_of props !! name = Some d → d !! value = Some id →
  ∃ p opts o, p ∈ props ∧ default "" (prop_name p) = name ∧ prop_options p = Some opts
              ∧ o ∈ opts ∧ default "" (opt_value o) = value.
Proof.
  intros [H|(p & opts & Hp & Hn & Ho & ->)]%option_map_of_lookup_Some Hd.
  - by rewrite lookup_empty in H.
  - apply options_dict_lookup_Some in Hd as [Hd|(o & ? & ?)].
    + by rewrite lookup_empty in Hd.
    + by exists p, opts, o.
Qed.


(** The visible properties of the default view: the id of the last
    property called Status when it is not empty. *)
Lemma view_block_fields now_ms board_id view_id props :
  blk_fields (view_block now_ms board_id view_id (property_map_of props))
  = ViewFields "table"
      (match last_property "Status" props with
       | Some p => if bool_decide (default "" (prop_id p) = "") then [] else [default "" (prop_id p)]
       | None => []
       end).
Proof.
  unfold view_block. cbn [blk_fields]. rewrite property_map_of_lookup.
  by destruct (last_property "Status" props).
Qed.

(** ** Discovery *)

Lemma collect_valid {A C} (f : A → outcome (list C)) (g : A → list C) l :
  (∀ x, (∃ e, f x = Raised e) ∨ f x = Returned (g x)) →
  (∃ e, collect f l = Raised e) ∨ collect f l = Returned (flat_map g l).
Proof.
  intros Hf. induction l as [|x l IH]; simpl; [by right|].
  destruct (Hf x) as [[e ->] | ->]; [left; by exists e|].
  destruct IH as [[e ->] | ->]; [left; by exists e|by right].
Qed.

(** Discovery either lets an exception escape or returns exactly the
    summaries of the files that hold a document: unreadable and
    unparsable files are left out, every document is listed. *)
Lemma discover_valid d category :
  (∃ e, discover d category = Raised e)
  ∨ discover d category = Returned (valid_summaries d category).
Proof.
  unfold discover, valid_summaries. destruct d as [cats|]; [|by right].
  apply collect_valid. intros [name [|dirs]]; unfold scan_category_dir, summaries_of_category;
    simpl; [by right|].
  destruct (category_skipped category name); [by right|].
  apply collect_valid. intros [dir [|[[| |j|e|t]|]]]; unfold scan_template_dir, summaries_of_dir;
    simpl; eauto.
Qed.

(** C9, where the code fails. A tree with a valid template and a
    [template.json] that parses to a JSON value other than an object
    makes discovery raise [AttributeError] instead of returning the
    valid template. *)
Theorem discover_raises_on_non_object (category good bad : string) (t : template)
    (v : non_object) :
  discover (Some [(category, CDir [(good, TDir (Some (JsonDoc t)));
                                   (bad, TDir (Some (NonObject v)))])]) None
  = Raised AttributeError.
Proof. reflexivity. Qed.


(** ** The template directory *)

Lemma entry_put_entry_eq {A} (n : string) (a : A) l : entry n (put_entry n a l) = Some a.
Proof.
  induction l as [|[m b] l IH]; simpl.
  - by rewrite decide_True.
  - destruct (decide (m = n)) as [->|Hne]; simpl.
    + by rewrite decide_True.
    + by rewrite decide_False.
Qed.

Lemma entry_put_entry_ne {A} (n m : string) (a : A) l :
  n ≠ m → entry m (put_entry n a l) = entry m l.
Proof.
  intros Hne. induction l as [|[k b] l IH]; simpl.
  - by rewrite decide_False.
  - destruct (decide (k = n)) as [->|Hkn]; simpl.
    + by rewrite !decide_False.
    + destruct (decide (k = m)); done.
Qed.

Lemma collect_put_entry {A C} (f : string * A → outcome (list C)) n a a0 l :
  entry n l = Some a0 → f (n, a) = f (n, a0) →
  collect f (put_entry n a l) = collect f l.
Proof.
  intros Hl Hf. induction l as [|[m b] l IH]; simpl in *; [done|].
  destruct (decide (m = n)) as [->|Hne]; simpl.
  - injection Hl as ->. by rewrite Hf.
  - by rewrite IH.
Qed.

Lemma read_file_write_json_eq d p c c0 :
  read_file d p = Some c0 → read_file (write_json d p c) p = Some c.
Proof.
  unfold read_file, write_json. destruct d as [cats|]; [|done].
  destruct (entry (path_category p) cats) as [[|dirs]|] eqn:E; [done| |done].
  intros _. by rewrite !entry_put_entry_eq.
Qed.

Lemma read_file_write_json_ne d p q c :
  p ≠ q → read_file (write_json d p c) q = read_file d q.
Proof.
  intros Hne. unfold read_file, write_json. destruct d as [cats|]; [|done].
  destruct (entry (path_category p) cats) as [[|dirs]|] eqn:E; [done| |done].
  destruct (decide (path_category p = path_category q)) as [Hc|Hc].
  - rewrite <-Hc, entry_put_entry_eq, E.
    rewrite entry_put_entry_ne; [done|].
    intros Hd. apply Hne. destruct p, q; simpl in *; congruence.
  - by rewrite entry_put_entry_ne.
Qed.

(** The directory of an existing [template.json] is there already. *)
Lemma mkdir_parents_existing can_write d p c :
  read_file d p = Some c → mkdir_parents can_write d p = Returned d.
Proof.
  unfold read_file, mkdir_parents. destruct d as [cats|]; [|done]. simpl.
  destruct (entry (path_category p) cats) as [[|dirs]|]; [done| |done].
  destruct (entry (path_dir p) dirs) as [[|f]|]; done.
Qed.

(** Creating directories adds no file and changes none. *)
Lemma read_file_mkdir_parents can_write d d' p q :
  mkdir_parents can_write d p = Returned d' → read_file d' q = read_file d q.
Proof.
  unfold mkdir_parents.
  destruct (entry (path_category p) (default [] d)) as [[|dirs]|] eqn:Ec; [done| |].
  - destruct (entry (path_dir p) dirs) as [[|f]|] eqn:Ed; [done|by intros [= <-]|].
    destruct can_write; [|done]. intros [= <-].
    destruct d as [cats|]; simpl in *; [|done].
    destruct (decide (path_category p = path_category q)) as [Hc|Hc].
    + rewrite <-Hc, entry_put_entry_eq, Ec.
      destruct (decide (path_dir p = path_dir q)) as [Hd|Hd].
      * by rewrite <-Hd, entry_put_entry_eq, Ed.
      * by rewrite entry_put_entry_ne.
    + by rewrite entry_put_entry_ne.
  - destruct can_write; [|done]. intros [= <-].
    destruct d as [cats|]; simpl in *.
    + destruct (decide (path_category p = path_category q)) as [Hc|Hc].
      * rewrite <-Hc, entry_put_entry_eq, Ec. simpl.
        destruct (decide (path_dir p = path_dir q)); done.
      * by rewrite entry_put_entry_ne.
    + destruct (decide (path_category p = path_category q)); [|done].
      simpl. destruct (decide (path_dir p = path_dir q)); done.
Qed.

Lemma discover_write_json d p t t' category :
  read_file d p = Some (JsonDoc t) →
  summarise (path_category p) (path_dir p) t' = summarise (path_category p) (path_dir p) t →
  discover (write_json d p (JsonDoc t')) category = discover d category.
Proof.
  unfold read_file, write_json, discover. destruct d as [cats|]; [|done].
  destruct (entry (path_category p) cats) as [[|dirs]|] eqn:Ec; [done| |done].
  destruct (entry (path_dir p) dirs) as [[|f]|] eqn:Ed; [done| |done].
  intros -> Hsum.
  apply collect_put_entry with (a0 := CDir dirs); [done|].
  unfold scan_category_dir. simpl. destruct (category_skipped _ _); [done|].
  apply collect_put_entry with (a0 := TDir (Some (JsonDoc t))); [done|].
  unfold scan_template_dir. simpl. by rewrite Hsum.
Qed.

Lemma summarise_set_feedback c d fb t :
  summarise c d (set_feedback fb t) = summarise c d t.
Proof. done. Qed.

(** Where discovery finds a summary, there is a document. *)
Lemma collect_elem {A C} (f : A → outcome (list C)) l cs c :
  collect f l = Returned cs → c ∈ cs → ∃ x cs', x ∈ l ∧ f x = Returned cs' ∧ c ∈ cs'.
Proof.
  revert cs. induction l as [|x l IH]; simpl; intros cs.
  - intros [= <-] Hc. by apply elem_of_nil in Hc.
  - destruct (f x) as [cs1|] eqn:Ef; [|done].
    destruct (collect f l) as [cs2|]; [|done].
    intros [= <-] [Hc|Hc]%elem_of_app.
    + exists x, cs1. split_and!; [left|done..].
    + destruct (IH _ eq_refl Hc) as (y & cs' & ? & ? & ?).
      exists y, cs'. split_and!; [by right|done..].
Qed.

Lemma discover_category d category templates s :
  discover d category = Returned templates → s ∈ templates →
  s_category s = path_category (s_path s).
Proof.
  unfold discover. destruct d as [cats|]; [|intros [= <-] H; by apply elem_of_nil in H].
  intros Hd Hs. destruct (collect_elem _ _ _ _ Hd Hs) as ([c [|dirs]] & cs & _ & Hc & Hs').
  - injection Hc as <-. by apply elem_of_nil in Hs'.
  - unfold scan_category_dir in Hc. simpl in Hc.
    destruct (category_skipped _ _).
    + injection Hc as <-. by apply elem_of_nil in Hs'.
    + destruct (collect_elem _ _ _ _ Hc Hs') as ([n [|[[| |j|e|t]|]]] & cs' & _ & Hn & Hs'');
        unfold scan_template_dir in Hn; simpl in Hn; simplify_eq;
        try by apply elem_of_nil in Hs''.
      by apply list_elem_of_singleton in Hs'' as ->.
Qed.

(** After [mkdir_parents], the file written is the file read. *)
Lemma read_file_write_json_mkdir can_write d d' p c :
  mkdir_parents can_write d p = Returned d' → read_file (write_json d' p c) p = Some c.
Proof.
  unfold mkdir_parents, read_file, write_json.
  destruct (entry (path_category p) (default [] d)) as [[|dirs]|] eqn:Ec; [done| |].
  - destruct (entry (path_dir p) dirs) as [[|f]|] eqn:Ed; [done| |].
    + intros [= <-]. destruct d as [cats|]; simpl in *; [|done].
      by rewrite Ec, !entry_put_entry_eq.
    + destruct can_write; [|done]. intros [= <-].
      by rewrite !entry_put_entry_eq.
  - destruct can_write; [|done]. intros [= <-].
    by rewrite !entry_put_entry_eq.
Qed.

Lemma find_elem_of {A} (f : A → bool) l x : find f l = Some x → x ∈ l ∧ f x = true.
Proof. intros [? ?]%find_some. split; [by apply list_elem_of_In|done]. Qed.

(** What [load] returns is the document at the path of the first
    summary with the wanted id. *)
Lemma load_found d template_id templates info t :
  discover d None = Returned templates →
  find (λ s, bool_decide (s_id s = template_id)) templates = Some info →
  read_file d (s_path info) = Some (JsonDoc t) →
  load d template_id = Returned (Some t).
Proof. intros Hd Hf Hr. unfold load. by rewrite Hd, Hf, Hr. Qed.

Lemma load_inv d template_id t :
  load d template_id = Returned (Some t) →
  ∃ templates info,
    discover d None = Returned templates
    ∧ find (λ s, bool_decide (s_id s = template_id)) templates = Some info
    ∧ read_file d (s_path info) = Some (JsonDoc t).
Proof.
  unfold load. destruct (discover d None) as [templates|] eqn:Hd; [|done].
  destruct (find _ templates) as [info|] eqn:Hf; [|done].
  destruct (read_file d (s_path info)) as [[| | | |doc]|] eqn:Hr; try done.
  intros [= ->]. by exists templates, info.
Qed.

(** ** More about discovery *)

Lemma collect_returned {A C} (f : A → outcome (list C)) (g : A → list C) l :
  Forall (λ x, f x = Returned (g x)) l → collect f l = Returned (flat_map g l).
Proof. induction 1 as [|x l Hx _ IH]; simpl; [done|]. by rewrite Hx, IH. Qed.

Lemma collect_returned_inv {A C} (f : A → outcome (list C)) l cs :
  collect f l = Returned cs → Forall (λ x, ∃ cs', f x = Returned cs') l.
Proof.
  revert cs. induction l as [|x l IH]; intros cs; simpl; [by constructor|].
  destruct (f x) as [cs1|] eqn:Ef; [|done].
  destruct (collect f l) as [cs2|]; [|done]. intros _.
  constructor; [by eexists|by eapply IH].
Qed.

Lemma scan_template_dir_objects c (e : string * tnode) :
  match e.2 with
  | TDir (Some (NonObject _)) => false
  | TDir (Some (Raising _)) => false
  | _ => true
  end = true →
  scan_template_dir c e = Returned (summaries_of_dir c e).
Proof. destruct e as [n [|[[| |v|e|t]|]]]; done. Qed.

Lemma scannable_discover d category :
  scannable d = true → discover d category = Returned (valid_summaries d category).
Proof.
  unfold scannable, discover, valid_summaries. destruct d as [cats|]; [|done].
  cbn [default]. rewrite forallb_forall. intros Hcats.
  apply collect_returned, Forall_forall. intros [c [|dirs]] Hin%list_elem_of_In; [done|].
  unfold scan_category_dir, summaries_of_category. cbn [snd fst].
  destruct (category_skipped category c); [done|].
  apply collect_returned, Forall_forall. intros e He%list_elem_of_In.
  apply scan_template_dir_objects.
  specialize (Hcats _ Hin). cbn [snd] in Hcats.
  by apply (proj1 (forallb_forall _ _) Hcats).
Qed.

Lemma discover_scannable d l : discover d None = Returned l → scannable d = true.
Proof.
  unfold scannable, discover. destruct d as [cats|]; [|done]. cbn [default].
  intros Hl%collect_returned_inv. apply forallb_forall. intros [c [|dirs]] Hin; [done|].
  cbn [snd]. apply list_elem_of_In in Hin.
  destruct (proj1 (Forall_forall _ _) Hl _ Hin) as [cs Hcs].
  unfold scan_category_dir in Hcs. cbn [snd fst category_skipped] in Hcs.
  apply collect_returned_inv in Hcs.
  apply forallb_forall. intros [n node] Hn%list_elem_of_In.
  destruct (proj1 (Forall_forall _ _) Hcs _ Hn) as [cs' Hcs'].
  by destruct node as [|[[| |v|e|t]|]].
Qed.



Lemma filter_all {A} (P : A → Prop) `{∀ x, Decision (P x)} l : Forall P l → filter P l = l.
Proof. induction 1; [done|]. rewrite filter_cons_True by done. by f_equal. Qed.

Lemma filter_none {A} (P : A → Prop) `{∀ x, Decision (P x)} l :
  Forall (λ x, ¬ P x) l → filter P l = [].
Proof. induction 1; [done|]. by rewrite filter_cons_False. Qed.

(** A summary carries the names of the directories it was found in. *)
Lemma summaries_of_dir_path c e s :
  s ∈ summaries_of_dir c e → s_category s = c ∧ s_path s = Path c e.1.
Proof.
  destruct e as [n [|[[| |v|e'|t]|]]]; unfold summaries_of_dir; cbn [snd fst];
    try by intros ?%elem_of_nil.
  by intros ->%list_elem_of_singleton.
Qed.

Lemma summaries_of_category_path category e s :
  s ∈ summaries_of_category category e →
  s_category s = e.1 ∧ path_category (s_path s) = e.1
  ∧ ∃ dirs n, e.2 = CDir dirs ∧ n ∈ dirs ∧ s ∈ summaries_of_dir e.1 n.
Proof.
  destruct e as [c [|dirs]]; unfold summaries_of_category; cbn [snd fst].
  - by intros ?%elem_of_nil.
  - destruct (category_skipped category c); [by intros ?%elem_of_nil|].
    intros (e & He & Hs)%list_elem_of_In%in_flat_map.
    apply list_elem_of_In in Hs, He.
    destruct (summaries_of_dir_path _ _ _ Hs) as [Hc Hp].
    split_and!; [done|by rewrite Hp|by exists dirs, e].
Qed.

Lemma valid_summaries_filter d c :
  c ≠ "" →
  valid_summaries d (Some c) = filter (λ s, s_category s = c) (valid_summaries d None).
Proof.
  intros Hc. unfold valid_summaries. induction (default [] d) as [|e cats IH]; [done|].
  cbn [flat_map]. rewrite filter_app, <-IH. f_equal.
  destruct e as [n [|dirs]]; [done|].
  unfold summaries_of_category at 1. cbn [snd fst category_skipped].
  rewrite (bool_decide_eq_false_2 (c = "")) by done. cbn [negb andb].
  destruct (decide (n = c)) as [->|Hne].
  - rewrite (bool_decide_eq_true_2 (c = c)) by done. cbn [negb].
    symmetry. apply filter_all, Forall_forall. intros s Hs.
    by apply (summaries_of_category_path None (c, CDir dirs)) in Hs as [? _].
  - rewrite (bool_decide_eq_false_2 (n = c)) by done. cbn [negb].
    symmetry. apply filter_none, Forall_forall. intros s Hs.
    apply (summaries_of_category_path None (n, CDir dirs)) in Hs as [? _].
    simpl in *. congruence.
Qed.

Lemma discover_returned d category l :
  discover d category = Returned l → l = valid_summaries d category.
Proof. destruct (discover_valid d category) as [[e ->] | ->]; [done|]. by intros [= <-]. Qed.

(** X2. An empty category filters nothing; a category that is not empty
    keeps the templates of that category directory, in order. *)
Theorem discover_filters_by_category (d : disk) (c : string) :
  discover d (Some "") = discover d None
  ∧ (c ≠ "" → ∀ l, discover d (Some c) = Returned l →
       Forall (λ s, s_category s = c) l
       ∧ ∀ l', discover d None = Returned l' → l = filter (λ s, s_category s = c) l').
Proof.
  split.
  - unfold discover. destruct d as [cats|]; [|done].
    induction cats as [|[n [|dirs]] cats IH]; [done|simpl in *; by rewrite IH|].
    simpl in *. by rewrite IH.
  - intros Hc l ->%discover_returned. rewrite valid_summaries_filter by done. split.
    + apply Forall_forall. by intros s [? _]%list_elem_of_filter.
    + by intros l' ->%discover_returned.
Qed.

(** ** Saving and loading *)

Lemma put_entry_put_entry {A} (n : string) (a b : A) l :
  put_entry n a (put_entry n b l) = put_entry n a l.
Proof.
  induction l as [|[m c] l IH]; simpl.
  - by rewrite decide_True.
  - destruct (decide (m = n)) as [->|Hne]; simpl.
    + by rewrite decide_True.
    + by rewrite decide_False, IH.
Qed.

Lemma entry_elem_of {A} (n : string) (a : A) l : entry n l = Some a → (n, a) ∈ l.
Proof.
  induction l as [|[m c] l IH]; simpl; [done|].
  destruct (decide (m = n)) as [->|Hne]; [intros [= ->]; left|right; auto].
Qed.

Lemma forallb_put_entry {A} (Q : string * A → bool) n a l :
  forallb Q l = true → Q (n, a) = true → forallb Q (put_entry n a l) = true.
Proof.
  intros Hl Ha. induction l as [|[m c] l IH]; simpl in *; [by rewrite Ha|].
  apply andb_true_iff in Hl as [Hc Hl].
  destruct (decide (m = n)) as [->|Hne]; simpl.
  - by rewrite Ha, Hl.
  - by rewrite Hc, IH.
Qed.

Lemma find_app {A} (P : A → bool) l1 l2 :
  find P (l1 ++ l2) = match find P l1 with Some x => Some x | None => find P l2 end.
Proof. induction l1 as [|x l1 IH]; simpl; [done|]. by destruct (P x). Qed.

Lemma find_none {A} (P : A → bool) l : (∀ x, x ∈ l → P x = false) → find P l = None.
Proof.
  induction l as [|x l IH]; intros H; simpl; [done|].
  rewrite (H x) by left. apply IH. intros y Hy. apply H. by right.
Qed.

(** The first match of a search through all entries, after one entry
    was put: it is found in that entry when no entry of another name
    has a match. *)
Lemma find_flat_map_put_entry {A C} (g : string * A → list C) (P : C → bool) n a l c :
  (∀ m b c', (m, b) ∈ l → m ≠ n → c' ∈ g (m, b) → P c' = false) →
  find P (g (n, a)) = Some c →
  find P (flat_map g (put_entry n a l)) = Some c.
Proof.
  intros Hother Hfound. induction l as [|[m b] l IH]; simpl.
  - by rewrite app_nil_r.
  - destruct (decide (m = n)) as [->|Hne]; simpl; rewrite find_app.
    + by rewrite Hfound.
    + rewrite find_none by (intros c' Hc'; by apply (Hother m b); [left| |]).
      apply IH. intros m' b' c' Hin. apply Hother. by right.
Qed.

Lemma write_json_mkdir_parents d d1 p c :
  mkdir_parents true d p = Returned d1 →
  write_json d1 p c
  = Some (put_entry (path_category p)
            (CDir (put_entry (path_dir p) (TDir (Some c)) (stored_dirs d (path_category p))))
            (default [] d)).
Proof.
  unfold mkdir_parents, write_json, stored_dirs.
  destruct (entry (path_category p) (default [] d)) as [[|dirs]|] eqn:Ec; [done| |].
  - destruct (entry (path_dir p) dirs) as [[|f]|] eqn:Ed; [done| |].
    + intros [= <-]. destruct d as [cats|]; [|done]. simpl in *. by rewrite Ec.
    + intros [= <-]. by rewrite entry_put_entry_eq, !put_entry_put_entry.
  - intros [= <-]. rewrite entry_put_entry_eq, put_entry_put_entry. simpl.
    by rewrite decide_True.
Qed.

Lemma save_then_find_disk d d1 p t templates :
  mkdir_parents true d p = Returned d1 →
  discover d None = Returned templates →
  default (path_dir p) (meta_id (default (Meta None None None None None None None) (t_meta t)))
    = path_dir p →
  (∀ s, s ∈ templates → s_id s = path_dir p → s_path s = p) →
  load (write_json d1 p (JsonDoc t)) (path_dir p) = Returned (Some t).
Proof.
  intros Hmk Hdisc Hid Hunique.
  pose proof (discover_scannable _ _ Hdisc) as Hobj.
  apply discover_returned in Hdisc as ->.
  pose proof (read_file_write_json_mkdir _ _ _ _ (JsonDoc t) Hmk) as Hread.
  rewrite (write_json_mkdir_parents _ _ _ _ Hmk) in Hread |- *.
  set (cat := path_category p) in *. set (dir := path_dir p) in *.
  set (dirs' := put_entry dir (TDir (Some (JsonDoc t))) (stored_dirs d cat)) in *.
  set (d' := Some (put_entry cat (CDir dirs') (default [] d))) in *.
  assert (scannable d' = true) as Hobj'.
  { unfold scannable in *. cbn [default d'].
    apply forallb_put_entry; [done|]. cbn [snd].
    apply forallb_put_entry; [|done].
    unfold stored_dirs. destruct (entry cat (default [] d)) as [[|dirs]|] eqn:Ec; [done| |done].
    apply entry_elem_of, list_elem_of_In in Ec.
    by apply (proj1 (forallb_forall _ _) Hobj) in Ec. }
  assert (p = Path cat dir) as Hp by by destruct p.
  apply (load_found _ _ (valid_summaries d' None) (summarise cat dir t)).
  - by apply scannable_discover.
  - unfold valid_summaries. cbn [default d'].
    apply find_flat_map_put_entry.
    + intros m b s Hin Hne Hs.
      apply bool_decide_eq_false_2. intros Hsid.
      assert (s ∈ valid_summaries d None) as Hs'.
      { unfold valid_summaries. apply list_elem_of_In, in_flat_map.
        exists (m, b). split; by apply list_elem_of_In. }
      apply Hunique in Hs'; [|done].
      apply summaries_of_category_path in Hs as (_ & Hc & _).
      rewrite Hs', Hp in Hc. simpl in Hc. congruence.
    + unfold summaries_of_category. cbn [snd fst category_skipped].
      apply find_flat_map_put_entry.
      * intros m b s Hin Hne Hs.
        apply bool_decide_eq_false_2. intros Hsid.
        unfold stored_dirs in Hin.
        destruct (entry cat (default [] d)) as [[|dirs]|] eqn:Ec;
          [by apply elem_of_nil in Hin| |by apply elem_of_nil in Hin].
        assert (s ∈ valid_summaries d None) as Hs'.
        { unfold valid_summaries. apply list_elem_of_In, in_flat_map.
          exists (cat, CDir dirs). split; [by apply list_elem_of_In, entry_elem_of|].
          unfold summaries_of_category. cbn [snd fst category_skipped].
          apply in_flat_map. exists (m, b). split; by apply list_elem_of_In. }
        apply Hunique in Hs'; [|done].
        apply summaries_of_dir_path in Hs as [_ Hpath].
        rewrite Hs', Hp in Hpath. simpl in Hpath. congruence.
      * unfold summaries_of_dir. cbn [snd fst find].
        rewrite bool_decide_eq_true_2; [done|]. unfold summarise. cbn [s_id]. exact Hid.
  - unfold summarise. cbn [s_path]. by rewrite <-Hp.
Qed.

(** ** More about the status key *)

Lemma replace_hyphen_cons c s :
  PyStr.replace (String c s) "-" " "
  = String (if Ascii.eqb "-" c then " "%char else c) (PyStr.replace s "-" " ").
Proof.
  unfold PyStr.replace. cbn [PyStr.replace_from PyStr.starts_with String.length Nat.sub].
  destruct (Ascii.eqb "-" c); reflexivity.
Qed.

Lemma replace_space_cons c s :
  PyStr.replace (String c s) " " "-"
  = String (if Ascii.eqb " " c then "-"%char else c) (PyStr.replace s " " "-").
Proof.
  unfold PyStr.replace. cbn [PyStr.replace_from PyStr.starts_with String.length Nat.sub].
  destruct (Ascii.eqb " " c); reflexivity.
Qed.

(** What the status key makes of one character: [h] turns a hyphen into
    a space, [cased] tells a letter, [emitted] is the character written
    when the previous one was a letter or not. *)
Lemma status_key_characters (b : bool) (c : ascii) :
  let h := λ c : ascii, if Ascii.eqb "-" c then " "%char else c in
  let cased := λ c, PyStr.is_lower c || PyStr.is_upper c in
  let emitted := λ (b : bool) c,
    if cased (h c) then (if b then PyStr.to_lower (h c) else PyStr.to_upper (h c)) else h c in
  cased (h (PyStr.to_lower c)) = cased (h c)
  ∧ emitted b (PyStr.to_lower c) = emitted b c
  ∧ cased (h (PyStr.to_upper c)) = cased (h c)
  ∧ emitted b (PyStr.to_upper c) = emitted b c
  ∧ cased (h (if Ascii.eqb " " c then "-"%char else c)) = cased (h c)
  ∧ emitted b (if Ascii.eqb " " c then "-"%char else c) = emitted b c
  ∧ cased (h (emitted b c)) = cased (h c)
  ∧ emitted b (emitted b c) = emitted b c.
Proof. destruct b, c as [[] [] [] [] [] [] [] []]; vm_compute; by repeat split. Qed.

Lemma title_from_replace_cons b c s :
  PyStr.title_from b (PyStr.replace (String c s) "-" " ")
  = String
      (let h := if Ascii.eqb "-" c then " "%char else c in
       if PyStr.is_lower h || PyStr.is_upper h
       then (if b then PyStr.to_lower h else PyStr.to_upper h) else h)
      (PyStr.title_from
         (let h := if Ascii.eqb "-" c then " "%char else c in
          PyStr.is_lower h || PyStr.is_upper h)
         (PyStr.replace s "-" " ")).
Proof.
  rewrite replace_hyphen_cons. cbn [PyStr.title_from]. cbv zeta.
  by destruct (PyStr.is_lower _ || PyStr.is_upper _).
Qed.

Lemma title_from_replace_lower s : ∀ b,
  PyStr.title_from b (PyStr.replace (PyStr.lower s) "-" " ")
  = PyStr.title_from b (PyStr.replace s "-" " ").
Proof.
  induction s as [|c s IH]; intros b; [done|].
  cbn [PyStr.lower]. rewrite !title_from_replace_cons. cbv zeta.
  destruct (status_key_characters b c) as (H1 & H2 & _). cbv zeta in H1, H2.
  by rewrite H2, H1, IH.
Qed.

Lemma title_from_replace_upper s : ∀ b,
  PyStr.title_from b (PyStr.replace (PyStr.upper s) "-" " ")
  = PyStr.title_from b (PyStr.replace s "-" " ").
Proof.
  induction s as [|c s IH]; intros b; [done|].
  cbn [PyStr.upper]. rewrite !title_from_replace_cons. cbv zeta.
  destruct (status_key_characters b c) as (_ & _ & H1 & H2 & _). cbv zeta in H1, H2.
  by rewrite H2, H1, IH.
Qed.

Lemma title_from_replace_spaces s : ∀ b,
  PyStr.title_from b (PyStr.replace (PyStr.replace s " " "-") "-" " ")
  = PyStr.title_from b (PyStr.replace s "-" " ").
Proof.
  induction s as [|c s IH]; intros b; [done|].
  rewrite replace_space_cons, !title_from_replace_cons. cbv zeta.
  destruct (status_key_characters b c) as (_ & _ & _ & _ & H1 & H2 & _). cbv zeta in H1, H2.
  by rewrite H2, H1, IH.
Qed.

Lemma title_from_replace_again s : ∀ b,
  PyStr.title_from b (PyStr.replace (PyStr.title_from b (PyStr.replace s "-" " ")) "-" " ")
  = PyStr.title_from b (PyStr.replace s "-" " ").
Proof.
  induction s as [|c s IH]; intros b; [done|].
  rewrite (title_from_replace_cons b c s). cbv zeta.
  rewrite title_from_replace_cons. cbv zeta.
  destruct (status_key_characters b c) as (_ & _ & _ & _ & _ & _ & H1 & H2). cbv zeta in H1, H2.
  by rewrite H2, H1, IH.
Qed.

Lemma is_ascii_characters (b : bool) (c : ascii) :
  PyStr.is_ascii_char c = true →
  PyStr.is_ascii_char (PyStr.to_lower c) = true
  ∧ PyStr.is_ascii_char (PyStr.to_upper c) = true
  ∧ PyStr.is_ascii_char (if Ascii.eqb "-" c then " "%char else c) = true
  ∧ PyStr.is_ascii_char (if Ascii.eqb " " c then "-"%char else c) = true.
Proof. destruct c as [[] [] [] [] [] [] [] []]; vm_compute; by repeat split. Qed.

Lemma is_ascii_lower s : PyStr.is_ascii s = true → PyStr.is_ascii (PyStr.lower s) = true.
Proof.
  induction s as [|c s IH]; [done|]. cbn [PyStr.is_ascii PyStr.lower].
  intros [Hc Hs]%andb_true_iff. apply andb_true_iff.
  split; [by apply (is_ascii_characters true)|by apply IH].
Qed.

Lemma is_ascii_upper s : PyStr.is_ascii s = true → PyStr.is_ascii (PyStr.upper s) = true.
Proof.
  induction s as [|c s IH]; [done|]. cbn [PyStr.is_ascii PyStr.upper].
  intros [Hc Hs]%andb_true_iff. apply andb_true_iff.
  split; [by apply (is_ascii_characters true)|by apply IH].
Qed.

Lemma is_ascii_replace_hyphen s :
  PyStr.is_ascii s = true → PyStr.is_ascii (PyStr.replace s "-" " ") = true.
Proof.
  induction s as [|c s IH]; [done|]. rewrite replace_hyphen_cons. cbn [PyStr.is_ascii].
  intros [Hc Hs]%andb_true_iff. apply andb_true_iff.
  split; [by apply (is_ascii_characters true)|by apply IH].
Qed.

Lemma is_ascii_replace_space s :
  PyStr.is_ascii s = true → PyStr.is_ascii (PyStr.replace s " " "-") = true.
Proof.
  induction s as [|c s IH]; [done|]. rewrite replace_space_cons. cbn [PyStr.is_ascii].
  intros [Hc Hs]%andb_true_iff. apply andb_true_iff.
  split; [by apply (is_ascii_characters true)|by apply IH].
Qed.

Lemma is_ascii_title_from s : ∀ b,
  PyStr.is_ascii s = true → PyStr.is_ascii (PyStr.title_from b s) = true.
Proof.
  induction s as [|c s IH]; intros b; [done|]. cbn [PyStr.is_ascii PyStr.title_from].
  intros [Hc Hs]%andb_true_iff.
  destruct (is_ascii_characters true c Hc) as (Hl & Hu & _).
  destruct (PyStr.is_lower c || PyStr.is_upper c); cbn [PyStr.is_ascii];
    apply andb_true_iff; (split; [by destruct b|by apply IH]).
Qed.

(** X3. For a status written in ASCII, the option value it is looked
    up under depends neither on the case of its letters nor on whether
    its words are joined by hyphens or by spaces, and the key of a key
    is that key: a template may write [in-progress], [In Progress] or
    [IN-PROGRESS]. [str_title] is [str.title], of which only what it
    does on ASCII text is used. *)
Theorem status_key_is_normal (str_title : string → string) (status : string) :
  (∀ s, PyStr.is_ascii s = true → str_title s = PyStr.title s) →
  PyStr.is_ascii status = true →
  status_key str_title (PyStr.lower status) = status_key str_title status
  ∧ status_key str_title (PyStr.upper status) = status_key str_title status
  ∧ status_key str_title (PyStr.replace status " " "-") = status_key str_title status
  ∧ status_key str_title (status_key str_title status) = status_key str_title status
  ∧ PyStr.is_ascii (status_key str_title status) = true.
Proof.
  intros Htitle Hascii. unfold status_key.
  assert (∀ s, PyStr.is_ascii s = true →
               str_title (PyStr.replace s "-" " ") = PyStr.title (PyStr.replace s "-" " "))
    as Hkey.
  { intros s Hs. apply Htitle. by apply is_ascii_replace_hyphen. }
  pose proof (is_ascii_title_from _ false (is_ascii_replace_hyphen _ Hascii)) as Ht.
  fold (PyStr.title (PyStr.replace status "-" " ")) in Ht.
  rewrite (Hkey status Hascii).
  rewrite (Hkey (PyStr.lower status)) by by apply is_ascii_lower.
  rewrite (Hkey (PyStr.upper status)) by by apply is_ascii_upper.
  rewrite (Hkey (PyStr.replace status " " "-")) by by apply is_ascii_replace_space.
  rewrite (Hkey (PyStr.title (PyStr.replace status "-" " "))) by done.
  unfold PyStr.title in *. split_and!.
  - apply title_from_replace_lower.
  - apply title_from_replace_upper.
  - apply title_from_replace_spaces.
  - apply title_from_replace_again.
  - done.
Qed.

(** ** More about the properties of a card *)

Lemma options_dict_lookup_option opts : ∀ (m : gmap string string) value id,
  fold_left (λ m opt, <[default "" (opt_value opt) := default "" (opt_id opt)]> m) opts m
    !! value = Some id →
  m !! value = Some id
  ∨ ∃ o, o ∈ opts ∧ default "" (opt_value o) = value ∧ default "" (opt_id o) = id.
Proof.
  induction opts as [|o opts IH]; intros m value id; simpl; [by left|].
  intros [H|(o' & ? & ? & ?)]%IH.
  - destruct (decide (default "" (opt_value o) = value)) as [Heq|Hne].
    + right. exists o. rewrite Heq, lookup_insert_eq in H. injection H as <-.
      split_and!; [left|done..].
    + left. by rewrite lookup_insert_ne in H.
  - right. exists o'. split_and!; [by right|done..].
Qed.

(** An entry of [option_map] is an option of a property of the schema. *)
Lemma option_map_of_entry props name d value id :
  option_map_of props !! name = Some d → d !! value = Some id →
  ∃ p opts o, p ∈ props ∧ default "" (prop_name p) = name ∧ prop_options p = Some opts
              ∧ o ∈ opts ∧ default "" (opt_value o) = value ∧ default "" (opt_id o) = id.
Proof.
  intros [H|(p & opts & Hp & Hn & Ho & ->)]%option_map_of_lookup_Some Hd.
  - by rewrite lookup_empty in H.
  - apply options_dict_lookup_option in Hd as [Hd|(o & ? & ? & ?)].
    + by rewrite lookup_empty in Hd.
    + by exists p, opts, o.
Qed.

(** X4. Whatever a task carries, its card gets at most two properties.
    Each is stored under the id the schema gives the property named
    [Status] or [Phase], and its value is the id, never empty, of an
    option of a property of that name: of the option whose value is the
    status key of the task, or [Phase] followed by the number of the
    phase. [str_title] is [str.title]. *)
Theorem card_properties_are_status_and_phase (str_title : string → string)
    (props : list property_def) (phase_num : Z) (t : task) :
  let card_properties :=
    card_properties_of str_title (property_map_of props) (option_map_of props) phase_num t in
  size card_properties ≤ 2
  ∧ ∀ k v, card_properties !! k = Some v →
      v ≠ ""
      ∧ ∃ name value p opts o,
          (name = "Status" ∧ value = status_key str_title (default "not-started" (task_status t))
           ∨ name = "Phase" ∧ value = "Phase " +:+ pretty phase_num)
          ∧ property_map_of props !! name = Some k
          ∧ p ∈ props ∧ default "" (prop_name p) = name ∧ prop_options p = Some opts
          ∧ o ∈ opts ∧ default "" (opt_value o) = value ∧ default "" (opt_id o) = v.
Proof.
  intros card_properties. subst card_properties. unfold card_properties_of.
  assert (∀ sp sv, status_entry str_title (property_map_of props) (option_map_of props) t = Some (sp, sv) →
            sv ≠ ""
            ∧ ∃ p opts o,
                property_map_of props !! "Status" = Some sp
                ∧ p ∈ props ∧ default "" (prop_name p) = "Status" ∧ prop_options p = Some opts
                ∧ o ∈ opts
                ∧ default "" (opt_value o) = status_key str_title (default "not-started" (task_status t))
                ∧ default "" (opt_id o) = sv) as Hstatus.
  { intros sp sv. unfold status_entry. cbv zeta.
    destruct (property_map_of props !! "Status") as [status_prop|]; [|done].
    destruct (option_map_of props !! "Status") as [options|] eqn:Ho; [|done].
    destruct (options !! _) as [oid|] eqn:Hid; cbn [from_option id];
      [|by rewrite (bool_decide_eq_true_2 ("" = ""))].
    destruct (bool_decide (oid = "")) eqn:Hempty; [done|]. intros [= <- <-].
    apply bool_decide_eq_false in Hempty. split; [done|].
    destruct (option_map_of_entry _ _ _ _ _ Ho Hid) as (p & opts & o & ? & ? & ? & ? & ? & ?).
    by exists p, opts, o. }
  assert (∀ pp pv, phase_entry (property_map_of props) (option_map_of props) phase_num
                   = Some (pp, pv) →
            pv ≠ ""
            ∧ ∃ p opts o,
                property_map_of props !! "Phase" = Some pp
                ∧ p ∈ props ∧ default "" (prop_name p) = "Phase" ∧ prop_options p = Some opts
                ∧ o ∈ opts ∧ default "" (opt_value o) = "Phase " +:+ pretty phase_num
                ∧ default "" (opt_id o) = pv) as Hphase.
  { intros pp pv. unfold phase_entry. cbv zeta.
    destruct (property_map_of props !! "Phase") as [phase_prop|]; [|done].
    destruct (option_map_of props !! "Phase") as [options|] eqn:Ho; [|done].
    destruct (options !! _) as [oid|] eqn:Hid; cbn [from_option id];
      [|by rewrite (bool_decide_eq_true_2 ("" = ""))].
    destruct (bool_decide (oid = "")) eqn:Hempty; [done|]. intros [= <- <-].
    apply bool_decide_eq_false in Hempty. split; [done|].
    destruct (option_map_of_entry _ _ _ _ _ Ho Hid) as (p & opts & o & ? & ? & ? & ? & ? & ?).
    by exists p, opts, o. }
  destruct (status_entry _ _ _ t) as [[sp sv]|];
    destruct (phase_entry _ _ phase_num) as [[pp pv]|].
  all: split.
  all: try (intros k v Hk).
  - destruct (decide (pp = sp)) as [->|Hne].
    + rewrite insert_singleton_eq, map_size_singleton. lia.
    + rewrite map_size_insert_None, map_size_singleton by by rewrite lookup_singleton_ne. lia.
  - destruct (decide (pp = k)) as [->|Hne].
    + rewrite lookup_insert_eq in Hk. injection Hk as <-.
      destruct (Hphase _ _ eq_refl) as (? & p & opts & o & ? & ? & ? & ? & ? & ? & ?).
      split; [done|]. exists "Phase", ("Phase " +:+ pretty phase_num), p, opts, o.
      split_and!; auto.
    + rewrite lookup_insert_ne in Hk by done.
      apply lookup_singleton_Some in Hk as [<- <-].
      destruct (Hstatus _ _ eq_refl) as (? & p & opts & o & ? & ? & ? & ? & ? & ? & ?).
      split; [done|].
      exists "Status", (status_key str_title (default "not-started" (task_status t))), p, opts, o.
      split_and!; auto.
  - rewrite map_size_singleton. lia.
  - apply lookup_singleton_Some in Hk as [<- <-].
    destruct (Hstatus _ _ eq_refl) as (? & p & opts & o & ? & ? & ? & ? & ? & ? & ?).
    split; [done|].
    exists "Status", (status_key str_title (default "not-started" (task_status t))), p, opts, o.
    split_and!; auto.
  - rewrite insert_empty, map_size_singleton. lia.
  - rewrite insert_empty in Hk. apply lookup_singleton_Some in Hk as [<- <-].
    destruct (Hphase _ _ eq_refl) as (? & p & opts & o & ? & ? & ? & ? & ? & ? & ?).
    split; [done|]. exists "Phase", ("Phase " +:+ pretty phase_num), p, opts, o.
    split_and!; auto.
  - rewrite map_size_empty. lia.
  - by rewrite lookup_empty in Hk.
Qed.

(** ** More about the variables *)

Lemma lookup_var_app name l1 l2 :
  lookup_var name (l1 ++ l2)
  = match lookup_var name l1 with Some v => Some v | None => lookup_var name l2 end.
Proof.
  induction l1 as [|[k v] l1 IH]; simpl; [done|]. by destruct (decide (k = name)).
Qed.

Lemma existsb_key_lookup key l :
  existsb (λ kv : string * string, bool_decide (kv.1 = key)) l = true
  ↔ is_Some (lookup_var key l).
Proof.
  induction l as [|[k v] l IH]; simpl.
  - split; [done|by intros [? ?]].
  - destruct (decide (k = key)) as [->|Hne].
    + rewrite bool_decide_eq_true_2 by done. split; [by eexists|done].
    + by rewrite bool_decide_eq_false_2.
Qed.

Lemma lookup_var_setdefault name key value l :
  lookup_var name (setdefault key value l)
  = match lookup_var name l with
    | Some v => Some v
    | None => if decide (key = name) then Some value else None
    end.
Proof.
  unfold setdefault.
  destruct (existsb _ l) eqn:E.
  - apply existsb_key_lookup in E as [v Hv].
    destruct (lookup_var name l) eqn:Hn; [done|].
    destruct (decide (key = name)) as [->|]; [congruence|done].
  - rewrite lookup_var_app. simpl. destruct (lookup_var name l); [done|].
    by destruct (decide (key = name)).
Qed.

(** A text without the first character of [sub] does not hold [sub]. *)
Lemma contains_without_first c sub s :
  PyStr.has_char c s = false → PyStr.contains (String c sub) s = false.
Proof.
  induction s as [|b s IH]; [done|].
  cbn [PyStr.has_char PyStr.contains PyStr.starts_with].
  intros [-> Hs]%orb_false_iff. by rewrite IH.
Qed.

(** X5. The variables of an instantiation are those of the caller, to
    which [PROJECT_NAME] and [CURRENT_DATE] are added where the caller
    gave none: a value of the caller for one of them wins over the
    project name and over the date of the day, and every other variable
    is as the caller gave it. A template without a board title gets the
    title made of the project name followed by [Board], when the caller
    gives no variables and the project name holds no [$]. *)
Theorem instantiate_variables_defaults (today : string) (params : InstantiateTemplateInput)
    (t : template) :
  let given := default [] (it_variables params) in
  let variables := instantiate_variables today params in
  lookup_var "PROJECT_NAME" variables
  = Some (default (it_project_name params) (lookup_var "PROJECT_NAME" given))
  ∧ lookup_var "CURRENT_DATE" variables
    = Some (default today (lookup_var "CURRENT_DATE" given))
  ∧ (∀ name, name ≠ "PROJECT_NAME" → name ≠ "CURRENT_DATE" →
       lookup_var name variables = lookup_var name given)
  ∧ (it_variables params = None →
     bc_title (default (BoardConfig None None None None None) (t_board t)) = None →
     PyStr.has_char "$" (it_project_name params) = false →
     bd_title (board_data_of today params t) = it_project_name params +:+ " Board").
Proof.
  intros given variables. subst variables. unfold instantiate_variables. fold given.
  split_and!.
  - rewrite !lookup_var_setdefault. destruct (lookup_var "PROJECT_NAME" given); done.
  - rewrite !lookup_var_setdefault. destruct (lookup_var "CURRENT_DATE" given); done.
  - intros name H1 H2. rewrite !lookup_var_setdefault.
    destruct (lookup_var name given); [done|].
    by rewrite !decide_False.
  - intros Hnone Htitle Hclean. unfold board_data_of, instantiate_variables.
    cbn [bd_title]. rewrite Htitle, Hnone. cbn [default].
    unfold setdefault. cbn [existsb app].
    rewrite (bool_decide_eq_false_2 ("PROJECT_NAME" = "CURRENT_DATE")) by discriminate.
    cbn [orb app]. unfold _substitute_variables. cbn [fold_left fst snd].
    change "${PROJECT_NAME} Board" with (token "PROJECT_NAME" +:+ " Board").
    unfold PyStr.replace at 2.
    change (token "PROJECT_NAME") with ("${PROJECT_NAME}") at 1.
    cbv iota. change "${PROJECT_NAME}" with (token "PROJECT_NAME").
    rewrite replace_token_same.
    change (PyStr.replace_from 0 (token "PROJECT_NAME") (it_project_name params) " Board")
      with " Board".
    apply replace_absent. apply contains_without_first.
    by rewrite has_char_append, Hclean.
Qed.

(** ** Reasoning about the tools *)

Section Facts.

Context {B : Type}.
Variable serve : request -> B -> response * B.
Variable block_id : nat -> string.
Variable FOCALBOARD_URL : string.
Variable today : string.
Variable now_iso : string.
Variable now_ms : Z.
Variable str_title : string -> string.

Local Abbreviation world := (@world B).
Local Abbreviation M := (@M B).
Local Abbreviation instantiate :=
  (focalboard_instantiate_template serve block_id FOCALBOARD_URL today now_iso now_ms
     str_title).
Local Abbreviation sync := (focalboard_sync_template serve block_id today now_iso).
Local Abbreviation get_tracking := (focalboard_get_board_tracking serve).
Local Abbreviation set_tracking := (focalboard_set_board_tracking serve).
Local Abbreviation keeps := (@keeps B _ _).
Local Abbreviation quietly := (@quietly B _).
Local Abbreviation disk_of := (@disk_of B).

Implicit Types w : world.

Lemma post_ret {A} (a : A) w (Q : outcome A → world → Prop) :
  Q (Returned a) w → post (ret a) w Q.
Proof. done. Qed.

Lemma post_raise {A} e w (Q : outcome A → world → Prop) :
  Q (Raised e) w → post (raise e) w Q.
Proof. done. Qed.

Lemma post_lift {A} (o : outcome A) w (Q : outcome A → world → Prop) :
  Q o w → post (lift o) w Q.
Proof. done. Qed.

Lemma post_bind {A C} (m : M A) (k : A → M C) w (Q : outcome C → world → Prop) :
  post m w (λ o w', match o with
                    | Returned a => post (k a) w' Q
                    | Raised e => Q (Raised e) w'
                    end) →
  post (bind m k) w Q.
Proof. unfold post, bind. by destruct (m w) as [[a|e] w']. Qed.

Lemma post_mono {A} (m : M A) w (Q Q' : outcome A → world → Prop) :
  post m w Q → (∀ o w', Q o w' → Q' o w') → post m w Q'.
Proof. unfold post. auto. Qed.

Lemma post_api_request req w (Q : outcome response → world → Prop) :
  (∀ resp b', serve req (backend w) = (resp, b') →
     Q (Returned resp)
       (World b' (exchanges w ++ [(req, resp)]) (templates_dir w) (writable w) (drawn w))) →
  post (_api_request serve req) w Q.
Proof.
  intros H. unfold post, _api_request.
  destruct (serve req (backend w)) as [resp b'] eqn:E. by apply H.
Qed.

Lemma post_save_template t tid category w (Q : outcome bool → world → Prop) :
  (∀ e, mkdir_parents (writable w) (templates_dir w) (Path category tid) = Raised e →
        Q (Raised e) w) →
  (∀ d, mkdir_parents (writable w) (templates_dir w) (Path category tid) = Returned d →
        if writable w
        then Q (Returned true)
               (World (backend w) (exchanges w)
                  (write_json d (Path category tid) (JsonDoc t)) (writable w) (drawn w))
        else Q (Returned false) w) →
  post (_save_template t tid category) w Q.
Proof.
  intros He Hd. unfold post, _save_template.
  destruct (mkdir_parents _ _ _) as [d|e]; [|by apply He].
  specialize (Hd d eq_refl). by destruct (writable w).
Qed.

(** *** Parts of the world a computation leaves alone *)

Lemma keeps_ret {A X} (f : world → X) (a : A) : keeps f (ret a).
Proof. done. Qed.
Lemma keeps_raise {A X} (f : world → X) e : keeps f (raise (A:=A) e).
Proof. done. Qed.
Lemma keeps_lift {A X} (f : world → X) (o : outcome A) : keeps f (lift o).
Proof. done. Qed.
Lemma keeps_discover {X} (f : world → X) c : keeps f (_discover_templates c).
Proof. done. Qed.
Lemma keeps_load {X} (f : world → X) tid : keeps f (_load_template tid).
Proof. done. Qed.
Lemma keeps_disk_api req : keeps disk_of (_api_request serve req).
Proof. intros w. by apply post_api_request. Qed.
Lemma keeps_disk_id : keeps disk_of (_generate_block_id block_id).
Proof. done. Qed.
Lemma keeps_log_id : keeps exchanges (_generate_block_id block_id).
Proof. done. Qed.
Lemma keeps_log_save t tid category : keeps exchanges (_save_template t tid category).
Proof.
  intros w. apply post_save_template; [done|]. intros d _. by destruct (writable w).
Qed.

Lemma keeps_bind {A C X} (f : world → X) (m : M A) (k : A → M C) :
  keeps f m → (∀ a, keeps f (k a)) → keeps f (bind m k).
Proof.
  intros Hm Hk w. apply post_bind. eapply post_mono; [apply Hm|].
  intros [a|e] w' Hw'; [|done].
  eapply post_mono; [apply Hk|]. intros o w'' Hw''. simpl in *. congruence.
Qed.

Lemma keeps_for_each {A S X} (f : world → X) (body : A → S → M S) l s :
  (∀ x s, keeps f (body x s)) → keeps f (for_each body l s).
Proof.
  intros Hbody. revert s. induction l as [|x l IH]; intros s; simpl.
  - apply keeps_ret.
  - apply keeps_bind; [apply Hbody|apply IH].
Qed.

Create HintDb keeps.
#[local] Hint Resolve keeps_ret keeps_raise keeps_lift keeps_discover keeps_load
  keeps_disk_api keeps_disk_id keeps_log_id keeps_log_save : keeps.

Ltac keeps_step :=
  first
    [ apply keeps_bind; [|intros ?]
    | apply keeps_for_each; intros ? ?
    | solve [auto with keeps]
    | match goal with
      | |- keeps _ (match ?x with _ => _ end) => destruct x
      | |- keeps _ (if ?x then _ else _) => destruct x
      end ].
Ltac keeps_all := repeat keeps_step.

Lemma keeps_disk_propose board_id fb extra :
  keeps disk_of (propose_extra_cards block_id today now_iso board_id fb extra).
Proof. unfold propose_extra_cards. keeps_all. Qed.

Lemma keeps_disk_add_checklist board_id card_id variables checklist :
  keeps disk_of (add_checklist serve block_id now_ms board_id card_id variables checklist).
Proof. unfold add_checklist. keeps_all. Qed.

Lemma keeps_disk_add_content_blocks board_id card_id variables blocks :
  keeps disk_of (add_content_blocks serve block_id now_ms board_id card_id variables blocks).
Proof. unfold add_content_blocks. keeps_all. Qed.

#[local] Hint Resolve keeps_disk_add_checklist keeps_disk_add_content_blocks : keeps.

Lemma keeps_disk_phases board_id variables property_map option_map phases st :
  keeps disk_of
    (for_each (instantiate_phase serve block_id now_ms str_title board_id variables property_map option_map)
       phases st).
Proof. unfold instantiate_phase, instantiate_task. keeps_all. Qed.

Lemma keeps_log_record_instance params t board_id :
  keeps exchanges (record_instance now_iso params t board_id).
Proof. unfold record_instance. keeps_all. Qed.

(** *** Board creation *)

(** C2. When the request that creates the board is refused, the tool
    returns the error at once: the refused request is the only exchange
    with the server (no card, no block, no view), the template directory
    is as before (no instance record is saved) and no block id was
    drawn. *)
Theorem board_creation_failure_aborts (params : InstantiateTemplateInput) (w : world)
    (t : template) (error : string) (b1 : B) :
  load (templates_dir w) (it_template_id params) = Returned (Some t) →
  template_is_empty t = false →
  serve (CreateBoard (board_data_of today params t)) (backend w) = (RError error, b1) →
  instantiate params w
  = (Returned ("Error creating board: " +:+ error),
     World b1 (exchanges w ++ [(CreateBoard (board_data_of today params t), RError error)])
       (templates_dir w) (writable w) (drawn w)).
Proof.
  intros Hload Hne Hserve.
  unfold focalboard_instantiate_template, bind, _load_template.
  rewrite Hload, Hne. unfold _api_request. by rewrite Hserve.
Qed.

(** *** Tracking *)

(** C8, as amended. Setting the tracking of a board issues one request,
    which carries the three fields. When the server stores what it is
    sent and returns it with the board, and the look-up of the template
    in the template directory returns, reading the tracking afterwards
    issues one read of the board and returns the report of exactly the
    template id, version and upgrade status that were set, followed
    only by the notice of an upgrade when the stored template is at
    another version. *)
Theorem tracking_round_trip (params : SetBoardTrackingInput) (w : world)
    (result : response) (board : api_object) (b1 b2 : B) (properties : gmap string string)
    (loaded : option template) :
  st_template_id params ≠ "" →
  serve (PatchBoardProperties (st_board_id params) (tracking_update params)) (backend w)
    = (result, b1) →
  serve (GetBoard (st_board_id params)) b1 = (RObject board, b2) →
  obj_properties board = Some properties →
  properties !! "bacon-template-id" = Some (st_template_id params) →
  properties !! "bacon-template-version" = Some (st_template_version params) →
  properties !! "bacon-upgrade-status" = Some (st_upgrade_status params) →
  load (templates_dir w) (st_template_id params) = Returned loaded →
  let w1 := (set_tracking params w).2 in
  let log :=
    exchanges w ++ [(PatchBoardProperties (st_board_id params)
                       [ ("bacon-template-id", st_template_id params);
                         ("bacon-template-version", st_template_version params);
                         ("bacon-upgrade-status", st_upgrade_status params) ], result)] in
  w1 = World b1 log (templates_dir w) (writable w) (drawn w)
  ∧ tracking_of board
    = (st_template_id params, st_template_version params, st_upgrade_status params)
  ∧ ∃ upgrade,
      get_tracking {| gt_board_id := st_board_id params |} w1
      = (Returned
           (PyStr.join nl
              ([ "# Board Template Tracking";
                 "";
                 "**Board ID**: `" +:+ st_board_id params +:+ "`";
                 "**Board Title**: " +:+ default "Unknown" (obj_title board);
                 "";
                 "## Template Information";
                 "- **Template ID**: `" +:+ st_template_id params +:+ "`";
                 "- **Template Version**: " +:+ st_template_version params;
                 "- **Upgrade Status**: " +:+ st_upgrade_status params ]
               ++ upgrade)),
         World b2 (log ++ [(GetBoard (st_board_id params), RObject board)])
           (templates_dir w) (writable w) (drawn w))
      ∧ (upgrade = []
         ∨ ∃ t current,
             loaded = Some t
             ∧ current = default "0.0.0"
                           (meta_version
                              (default (Meta None None None None None None None) (t_meta t)))
             ∧ current ≠ st_template_version params
             ∧ upgrade
               = [ "";
                   "⚠️ **Upgrade Available**: Template is now at v" +:+ current;
                   "Use `focalboard_sync_template` to check differences." ]).
Proof.
  intros Hid Hpatch Hget Hprops Hsid Hsver Hsst Hload w1 log.
  assert (Htr : tracking_of board
    = (st_template_id params, st_template_version params, st_upgrade_status params)).
  { unfold tracking_of, TRACKING_PROP_TEMPLATE_ID, TRACKING_PROP_TEMPLATE_VERSION,
      TRACKING_PROP_UPGRADE_STATUS. rewrite Hprops. cbn [default from_option id].
    by rewrite Hsid, Hsver, Hsst. }
  assert (Hw1 : w1 = World b1 log (templates_dir w) (writable w) (drawn w)).
  { unfold w1, focalboard_set_board_tracking, bind, _api_request. rewrite Hpatch.
    by destruct result. }
  split_and!; [done|done|].
  exists (upgrade_lines loaded (st_template_version params)). split.
  - rewrite Hw1. unfold focalboard_get_board_tracking, bind, _api_request.
    cbn [backend gt_board_id]. rewrite Hget, Htr. cbn [fst snd].
    rewrite bool_decide_eq_false_2 by done.
    unfold _load_template. cbn [templates_dir fst snd]. rewrite Hload.
    reflexivity.
  - unfold upgrade_lines. destruct loaded as [t|]; [|by left].
    destruct (template_is_empty t); [by left|]. cbv zeta.
    destruct (bool_decide _) eqn:Hv; [by left|].
    apply bool_decide_eq_false in Hv. right. by eexists t, _.
Qed.

(** *** Synchronisation and the template directory *)

Lemma feedback_only_keeps w w' tid t :
  templates_dir w' = templates_dir w → writable w' = writable w →
  feedback_only (templates_dir w) (writable w) tid t w'.
Proof. intros Hd Hw. split; [done|by left]. Qed.

Lemma sync_actions_disk params t tts missing extra w :
  sy_direction params = "board_to_template" →
  post (sync_actions serve block_id today now_iso params t tts missing extra) w
    (λ _ w', feedback_only (templates_dir w) (writable w) (sy_template_id params) t w').
Proof.
  intros Hdir. unfold sync_actions. rewrite Hdir.
  rewrite (bool_decide_eq_false_2 ("board_to_template" = "template_to_board")) by discriminate.
  cbn [andb].
  rewrite (bool_decide_eq_true_2 ("board_to_template" = "board_to_template")) by done.
  cbn [andb].
  destruct (negb (bool_decide (extra = ∅))); [|by apply post_ret, feedback_only_keeps].
  destruct (sy_dry_run params); [by apply post_ret, feedback_only_keeps|].
  apply post_bind. eapply post_mono; [apply keeps_disk_propose|].
  intros [proposed|e] w1 [= Hd1 Hw1]; [|by apply feedback_only_keeps].
  apply post_bind. unfold post at 1, _discover_templates. cbn [fst snd].
  destruct (discover (templates_dir w1) None) as [templates|e] eqn:Hdisc;
    [|by apply feedback_only_keeps].
  apply post_bind.
  destruct (find _ templates) as [info|] eqn:Hfind.
  - apply post_bind, post_save_template.
    + intros e _. by apply feedback_only_keeps.
    + intros d Hmk. rewrite Hd1, Hw1 in Hmk. rewrite Hd1 in Hdisc.
      destruct (writable w1) eqn:Ew1; do 2 apply post_ret.
      * split; [simpl; congruence|]. right. simpl. by eauto 10.
      * split; [congruence|by left].
  - do 2 apply post_ret. by apply feedback_only_keeps.
Qed.

Lemma sync_disk params w :
  sy_direction params = "board_to_template" →
  post (sync params) w
    (λ _ w', templates_dir w' = templates_dir w ∨
             ∃ t, load (templates_dir w) (sy_template_id params) = Returned (Some t) ∧
                  feedback_only (templates_dir w) (writable w) (sy_template_id params) t w').
Proof.
  intros Hdir. unfold focalboard_sync_template.
  apply post_bind. unfold post at 1, _load_template. cbn [fst snd].
  destruct (load _ _) as [[t|]|e] eqn:Hload; [|by apply post_ret; left|by left].
  destruct (template_is_empty t); [by apply post_ret; left|].
  apply post_bind. eapply post_mono; [apply keeps_disk_api|].
  intros [board|e] w1 [= Hd1 Hw1]; [|by left].
  rewrite <-Hd1 in Hload |- *. rewrite <-Hw1. clear Hd1 Hw1 w.
  destruct board; try (by apply post_ret; left).
  all: apply post_bind; eapply post_mono; [apply keeps_disk_api|].
  all: intros [cards|e] w2 [= Hd2 Hw2]; [|by left].
  all: destruct cards; try (by apply post_ret; left).
  all: apply post_bind, post_lift.
  all: match goal with |- context [sync_header_lines ?a ?b ?c ?d] =>
         destruct (sync_header_lines a b c d) as [head|e] end; [|by left].
  all: apply post_bind; eapply post_mono; [by apply sync_actions_disk|].
  all: intros [actions|e] w3 H3; [apply post_ret|]; right; exists t; split; [done| |done|].
  all: by rewrite <-Hd2, <-Hw2.
Qed.


(** *** The card loop of an instantiation *)

Lemma quietly_ret {A} (a : A) : quietly (ret a).
Proof.
  intros w. split; [by eexists|]. exists []. split; [|by constructor].
  simpl. by rewrite app_nil_r.
Qed.

Lemma quietly_bind {A C} (m : M A) (k : A → M C) :
  quietly m → (∀ a, quietly (k a)) → quietly (bind m k).
Proof.
  intros Hm Hk w. apply post_bind. eapply post_mono; [apply Hm|].
  intros o w' [[a ->] (extra & Hx & Hq)].
  eapply post_mono; [apply Hk|]. intros o' w'' [Ha (extra' & Hx' & Hq')].
  split; [done|]. exists (extra ++ extra'). split.
  - by rewrite Hx', Hx, app_assoc.
  - by apply Forall_app.
Qed.

Lemma quietly_for_each {A S} (body : A → S → M S) l s :
  (∀ x s, quietly (body x s)) → quietly (for_each body l s).
Proof.
  intros Hbody. revert s. induction l as [|x l IH]; intros s; simpl.
  - apply quietly_ret.
  - apply quietly_bind; [apply Hbody|apply IH].
Qed.

Lemma quietly_api req : is_card_request req = false → quietly (_api_request serve req).
Proof.
  intros Hreq w. apply post_api_request. intros resp b' _.
  split; [by eexists|]. exists [(req, resp)]. split; [done|]. by apply Forall_singleton.
Qed.

Lemma quietly_id : quietly (_generate_block_id block_id).
Proof.
  intros w. split; [by eexists|]. exists []. split; [|by constructor].
  simpl. by rewrite app_nil_r.
Qed.

Ltac quietly_step :=
  first
    [ apply quietly_bind; [|intros ?]
    | apply quietly_for_each; intros ? ?
    | apply quietly_ret
    | apply quietly_id
    | apply quietly_api; reflexivity
    | match goal with
      | |- quietly (match ?x with _ => _ end) => destruct x
      | |- quietly (if ?x then _ else _) => destruct x
      end ].

Lemma quietly_add_checklist board_id card_id variables checklist :
  quietly (add_checklist serve block_id now_ms board_id card_id variables checklist).
Proof. unfold add_checklist. repeat quietly_step. Qed.

Lemma quietly_add_content_blocks board_id card_id variables blocks :
  quietly (add_content_blocks serve block_id now_ms board_id card_id variables blocks).
Proof. unfold add_content_blocks. repeat quietly_step. Qed.

Lemma card_attempts_app l1 l2 : card_attempts (l1 ++ l2) = card_attempts l1 ++ card_attempts l2.
Proof. apply omap_app. Qed.

Lemma failure_messages_app l1 l2 :
  failure_messages (l1 ++ l2) = failure_messages l1 ++ failure_messages l2.
Proof. apply omap_app. Qed.

Lemma created_count_app l1 l2 : created_count (l1 ++ l2) = created_count l1 + created_count l2.
Proof. unfold created_count. by rewrite omap_app, length_app. Qed.

Lemma quiet_card_attempts extra : quiet extra → card_attempts extra = [].
Proof.
  induction 1 as [|[req resp] extra Hx _ IH]; [done|]. unfold card_attempts in *. simpl.
  unfold card_attempt at 1. simpl in *. by rewrite Hx.
Qed.

Lemma quiet_failure_messages extra : quiet extra → failure_messages extra = [].
Proof.
  induction 1 as [|[req resp] extra Hx _ IH]; [done|]. unfold failure_messages in *.
  destruct req; simpl in *; done.
Qed.

Lemma quiet_created_count extra : quiet extra → created_count extra = 0.
Proof.
  induction 1 as [|[req resp] extra Hx _ IH]; [done|]. unfold created_count in *.
  destruct req; simpl in *; done.
Qed.

(** Only card requests count, as failures or as cards created. *)
Lemma failure_messages_attempts log : failure_messages (card_attempts log) = failure_messages log.
Proof.
  induction log as [|[req resp] log IH]; [done|].
  unfold card_attempts, failure_messages in *.
  destruct req; try exact IH.
  cbn [omap list_omap card_attempt is_card_request fst failure_message].
  by rewrite IH.
Qed.

Lemma created_count_attempts log : created_count (card_attempts log) = created_count log.
Proof.
  induction log as [|[req resp] log IH]; [done|].
  unfold card_attempts, created_count in *.
  destruct req; try exact IH.
  cbn [omap list_omap card_attempt is_card_request fst card_created].
  destruct resp; cbn [length]; by rewrite ?IH.
Qed.

(** Every card request either failed or created a card. *)
Lemma card_attempts_length log :
  length (card_attempts log) = length (failure_messages log) + created_count log.
Proof.
  induction log as [|[req resp] log IH]; [done|].
  unfold card_attempts, failure_messages, created_count in *.
  destruct req; try exact IH.
  destruct resp; cbn [omap list_omap card_attempt is_card_request fst failure_message card_created];
    cbn [length]; lia.
Qed.

(** The loop runs the body on the first element and goes on with the
    rest from the state and the world the body leaves. *)
Lemma for_each_cons {A S} (body : A → S → M S) x l s w :
  for_each body (x :: l) s w
  = match body x s w with
    | (Returned s', w') => for_each body l s' w'
    | (Raised e, w') => (Raised e, w')
    end.
Proof. reflexivity. Qed.

(** A refused card: the body returns, the count stays and the errors
    gain exactly the message of this task. *)
Lemma refused_card_adds_one_message board_id variables property_map option_map phase_num t st w
    error b' :
  serve (card_request str_title board_id variables property_map option_map phase_num t) (backend w)
    = (RError error, b') →
  instantiate_task serve block_id now_ms str_title board_id variables property_map option_map phase_num
    t st w
  = (Returned (st.1,
               st.2 ++ [task_error
                          (_substitute_variables (default "Untitled Task" (task_title t))
                             variables) error]),
     World b'
       (exchanges w ++ [(card_request str_title board_id variables property_map option_map phase_num t,
                         RError error)])
       (templates_dir w) (writable w) (drawn w)).
Proof. intros H. unfold instantiate_task, bind, _api_request. by rewrite H. Qed.

Section Loop.

Variable board_id : string.
Variable variables : list (string * string).
Variable property_map : gmap string string.
Variable option_map : gmap string (gmap string string).
Hypothesis Hobject : ∀ bid data b, answers_object (serve (CreateCard bid data) b).1.

Local Abbreviation card_req := (card_request str_title board_id variables property_map option_map).

(** One task: a refused card adds its message and nothing else, and the
    loop goes on. *)
Lemma instantiate_task_result phase_num t st w :
  post (instantiate_task serve block_id now_ms str_title board_id variables property_map option_map
          phase_num t st) w
    (loop_result str_title board_id variables property_map option_map [(phase_num, t)] st w).
Proof.
  unfold instantiate_task. apply post_bind, post_api_request. intros resp b' Hserve.
  pose proof (Hobject board_id
    {| cd_title := Some (_substitute_variables (default "Untitled Task" (task_title t)) variables);
       cd_icon := Some (default "📋" (task_icon t));
       cd_properties := card_properties_of str_title property_map option_map phase_num t |}
    (backend w)) as Hobj.
  unfold card_request in Hserve. rewrite Hserve in Hobj.
  destruct resp as [error|card| |]; [| |done..].
  - apply post_ret. exists [(card_req phase_num t, RError error)].
    split_and!; [done|done|].
    change (created_count [(card_req phase_num t, RError error)]) with 0%nat.
    rewrite Nat.add_0_r. reflexivity.
  - apply post_bind. eapply post_mono; [apply quietly_add_checklist|].
    intros o w1 [[[] ->] (extra1 & Hx1 & Hq1)].
    apply post_bind. eapply post_mono; [apply quietly_add_content_blocks|].
    intros o w2 [[[] ->] (extra2 & Hx2 & Hq2)].
    apply post_ret. exists ((card_req phase_num t, RObject card) :: extra1 ++ extra2).
    split_and!.
    + rewrite Hx2, Hx1. simpl. by rewrite <-!app_assoc.
    + change (?x :: ?l) with ([x] ++ l). rewrite card_attempts_app, card_attempts_app.
      rewrite (quiet_card_attempts extra1), (quiet_card_attempts extra2) by done.
      reflexivity.
    + change (?x :: ?l) with ([x] ++ l).
      rewrite created_count_app, created_count_app, failure_messages_app, failure_messages_app.
      rewrite (quiet_created_count extra1), (quiet_created_count extra2),
        (quiet_failure_messages extra1), (quiet_failure_messages extra2) by done.
      change (created_count [(card_req phase_num t, RObject card)]) with 1%nat.
      change (failure_messages [(card_req phase_num t, RObject card)]) with (@nil string).
      by rewrite !app_nil_r, !Nat.add_0_r, Nat.add_1_r.
Qed.

Lemma loop_result_step l1 l2 st w o1 w1 o2 w2 st1 :
  loop_result str_title board_id variables property_map option_map l1 st w o1 w1 →
  o1 = Returned st1 →
  loop_result str_title board_id variables property_map option_map l2 st1 w1 o2 w2 →
  loop_result str_title board_id variables property_map option_map (l1 ++ l2) st w o2 w2.
Proof.
  intros (new1 & Hx1 & Hc1 & Ho1) -> (new2 & Hx2 & Hc2 & ->).
  injection Ho1 as ->. exists (new1 ++ new2). split_and!.
  - by rewrite Hx2, Hx1, app_assoc.
  - by rewrite card_attempts_app, fmap_app, Hc1, Hc2, map_app.
  - rewrite created_count_app, failure_messages_app. simpl. f_equal. f_equal; [lia|].
    by rewrite app_assoc.
Qed.

Lemma loop_result_returned l st w o w' :
  loop_result str_title board_id variables property_map option_map l st w o w' → ∃ st', o = Returned st'.
Proof. intros (new & _ & _ & ->). by eexists. Qed.

Lemma loop_result_nil st w :
  loop_result str_title board_id variables property_map option_map [] st w (Returned st) w.
Proof.
  exists []. split_and!; [by rewrite app_nil_r|done|].
  destruct st. simpl. by rewrite Nat.add_0_r, app_nil_r.
Qed.

Lemma instantiate_tasks_result phase_num tasks : ∀ st w,
  post (for_each (instantiate_task serve block_id now_ms str_title board_id variables property_map
                    option_map phase_num) tasks st) w
    (loop_result str_title board_id variables property_map option_map (map (pair phase_num) tasks) st w).
Proof.
  induction tasks as [|t tasks IH]; intros st w; simpl.
  - apply post_ret, loop_result_nil.
  - apply post_bind. eapply post_mono; [apply instantiate_task_result|].
    intros o w1 H1. destruct (loop_result_returned _ _ _ _ _ H1) as [st1 ->].
    eapply post_mono; [apply IH|]. intros o2 w2 H2.
    by apply (loop_result_step [(phase_num, t)] _ _ _ _ _ _ _ _ H1 eq_refl).
Qed.

Lemma instantiate_phases_result phases : ∀ st w,
  post (for_each (instantiate_phase serve block_id now_ms str_title board_id variables property_map
                    option_map) phases st) w
    (loop_result str_title board_id variables property_map option_map
       (flat_map (λ ph, map (pair (default 0%Z (phase_number ph)))
                          (default [] (phase_tasks ph))) phases) st w).
Proof.
  induction phases as [|ph phases IH]; intros st w; simpl.
  - apply post_ret, loop_result_nil.
  - apply post_bind. unfold instantiate_phase at 1.
    eapply post_mono; [apply instantiate_tasks_result|].
    intros o w1 H1. destruct (loop_result_returned _ _ _ _ _ H1) as [st1 ->].
    eapply post_mono; [apply IH|]. intros o2 w2 H2.
    by apply (loop_result_step _ _ _ _ _ _ _ _ _ H1 eq_refl).
Qed.

End Loop.

(** *** The whole instantiation *)

(** Recording the instance sends nothing, and returns when the
    [instances] section, if any, has the [active] list and the directory
    the document is saved in is there or can be made. *)
Lemma record_instance_outcome params t board_id w templates info :
  discover (templates_dir w) None = Returned templates →
  find (λ s, bool_decide (s_id s = it_template_id params)) templates = Some info →
  post (record_instance now_iso params t board_id) w
    (λ o w', exchanges w' = exchanges w
             ∧ ∀ act d1,
                 active (default (Instances (Some []) (Some [])) (t_instances t)) = Some act →
                 mkdir_parents (writable w) (templates_dir w)
                   (Path (s_category info) (it_template_id params)) = Returned d1 →
                 o = Returned tt).
Proof.
  intros Hdisc Hfind. unfold record_instance.
  destruct (active _) as [act|]; [|by apply post_raise].
  apply post_bind. unfold post at 1, _discover_templates. cbn [fst snd].
  rewrite Hdisc, Hfind.
  apply post_bind, post_save_template.
  - intros e He. split; [done|]. intros act' d1 _ Hmk. congruence.
  - intros d _. by destruct (writable w).
Qed.

(** What the report shows: the board id, the number of cards created,
    the number of errors and the first five of them. *)
Lemma instantiate_lines_carry url m project board_id title cards_created view_created errors :
  let lines := instantiate_lines url m project board_id title cards_created view_created errors in
  ("- **Board ID**: `" +:+ board_id +:+ "`") ∈ lines
  ∧ ("- **Cards Created**: " +:+ pretty cards_created) ∈ lines
  ∧ (errors ≠ [] → ("## Errors (" +:+ pretty (length errors) +:+ ")") ∈ lines)
  ∧ (∀ err, err ∈ take 5 errors → ("- " +:+ err) ∈ lines).
Proof.
  intros lines. unfold lines, instantiate_lines. split_and!.
  - apply elem_of_app. left. do 6 right. left.
  - apply elem_of_app. left. do 8 right. left.
  - intros Hne. apply elem_of_app. right. apply elem_of_app. left.
    unfold error_lines. destruct errors as [|e errors]; [done|].
    apply elem_of_app. left. right. left.
  - intros err Herr. apply elem_of_app. right. apply elem_of_app. left.
    unfold error_lines. destruct errors as [|e errors]; [by apply elem_of_nil in Herr|].
    apply elem_of_app. right. apply elem_of_app. left.
    by apply (list_elem_of_fmap_2 (λ err, "- " +:+ err)).
Qed.

(** C1, as amended. Once the template is loaded and the board created,
    with a server that answers every card request with a JSON object (a
    card or an error): when the card of a task cannot be created,
    exactly one message is added to the errors and the loop goes on with
    the next task. Every task of the template gets its card request, in
    template order, whatever the answers to the earlier ones; the errors
    are the messages of the refused requests and the count is the number
    of the others. When moreover the [instances] section, if any, has
    the [active] list and the directory the template is saved in is
    there or can be made, the tool returns its report, which carries
    the board id, the number of cards created, the number of errors and
    the first five error messages. *)
Theorem instantiate_collects_task_failures (params : InstantiateTemplateInput) (w : world)
    (templates : list summary) (info : summary) (t : template)
    (board : api_object) (b1 : B) :
  discover (templates_dir w) None = Returned templates →
  find (λ s, bool_decide (s_id s = it_template_id params)) templates = Some info →
  read_file (templates_dir w) (s_path info) = Some (JsonDoc t) →
  template_is_empty t = false →
  serve (CreateBoard (board_data_of today params t)) (backend w) = (RObject board, b1) →
  (∀ bid data b, answers_object (serve (CreateCard bid data) b).1) →
  let board_id := default "unknown" (obj_id board) in
  let variables := instantiate_variables today params in
  ∃ new view,
    let attempts := card_attempts new in
    let errors := failure_messages attempts in
    let cards_created := created_count attempts in
    let lines :=
      instantiate_lines FOCALBOARD_URL
        (default (Meta None None None None None None None) (t_meta t))
        (it_project_name params) board_id (bd_title (board_data_of today params t))
        cards_created (negb (is_error view.2)) errors in
    exchanges (instantiate params w).2
    = exchanges w ++ [(CreateBoard (board_data_of today params t), RObject board)]
        ++ new ++ [view]
    ∧ attempts.*1
      = map (λ nt, card_request str_title board_id variables (property_map_of (schema t))
                     (option_map_of (schema t)) nt.1 nt.2)
          (all_tasks t)
    ∧ length errors + cards_created = length (all_tasks t)
    ∧ (∀ act d1,
         active (default (Instances (Some []) (Some [])) (t_instances t)) = Some act →
         mkdir_parents (writable w) (templates_dir w)
           (Path (s_category info) (it_template_id params)) = Returned d1 →
         (instantiate params w).1 = Returned (PyStr.join nl lines))
    ∧ ("- **Board ID**: `" +:+ board_id +:+ "`") ∈ lines
    ∧ ("- **Cards Created**: " +:+ pretty cards_created) ∈ lines
    ∧ (errors ≠ [] → ("## Errors (" +:+ pretty (length errors) +:+ ")") ∈ lines)
    ∧ (∀ err, err ∈ take 5 errors → ("- " +:+ err) ∈ lines).
Proof.
  intros Hdisc Hfind Hread Hne Hboard Hobject board_id variables.
  cut (post (instantiate params) w
         (λ o w', ∃ new view,
            exchanges w'
            = exchanges w ++ [(CreateBoard (board_data_of today params t), RObject board)]
                ++ new ++ [view]
            ∧ (card_attempts new).*1
              = map (λ nt, card_request str_title board_id variables (property_map_of (schema t))
                             (option_map_of (schema t)) nt.1 nt.2)
                  (all_tasks t)
            ∧ ∀ act d1,
                active (default (Instances (Some []) (Some [])) (t_instances t)) = Some act →
                mkdir_parents (writable w) (templates_dir w)
                  (Path (s_category info) (it_template_id params)) = Returned d1 →
                o = Returned (PyStr.join nl
                      (instantiate_lines FOCALBOARD_URL
                         (default (Meta None None None None None None None) (t_meta t))
                         (it_project_name params) board_id
                         (bd_title (board_data_of today params t))
                         (created_count new) (negb (is_error view.2))
                         (failure_messages new))))).
  { unfold post. destruct (instantiate params w) as [o w']. cbn [fst snd].
    intros (new & view & Hx & Hc & Hret). exists new, view. cbn zeta.
    rewrite failure_messages_attempts, created_count_attempts.
    destruct (instantiate_lines_carry FOCALBOARD_URL
                (default (Meta None None None None None None None) (t_meta t))
                (it_project_name params) board_id (bd_title (board_data_of today params t))
                (created_count new) (negb (is_error view.2)) (failure_messages new))
      as (Hid & Hcount & Herrors & Hfirst).
    split_and!; [done|done| |done..].
    by rewrite <-card_attempts_length, <-(length_fmap fst), Hc, length_map. }
  unfold focalboard_instantiate_template.
  apply post_bind. unfold post at 1, _load_template. cbn [fst snd].
  rewrite (load_found _ _ _ _ _ Hdisc Hfind Hread), Hne.
  apply post_bind, post_api_request. intros resp b' Hserve.
  rewrite Hboard in Hserve. injection Hserve as <- <-.
  apply post_bind.
  match goal with |- post ?m ?w1 _ =>
    pose proof (instantiate_phases_result (default "unknown" (obj_id board))
                  (instantiate_variables today params) (property_map_of (schema t))
                  (option_map_of (schema t)) Hobject (default [] (t_phases t)) (0%nat, []) w1)
      as Hloop;
    pose proof (keeps_disk_phases (default "unknown" (obj_id board))
                  (instantiate_variables today params) (property_map_of (schema t))
                  (option_map_of (schema t)) (default [] (t_phases t)) (0%nat, []) w1)
      as Hkeep
  end.
  unfold post in Hloop, Hkeep |- *. unfold schema in Hloop, Hkeep.
  destruct (for_each _ _ _ _) as [o w2].
  destruct Hloop as (new & Hx2 & Hc & ->). injection Hkeep as Hd2 Hw2.
  cbn [fst snd] in *.
  apply post_bind. unfold post at 1, _generate_block_id. cbn [fst snd].
  apply post_bind, post_api_request. intros view_result b3 _.
  apply post_bind. eapply post_mono.
  { eapply (record_instance_outcome _ _ _ _ templates info); cbn [templates_dir];
      rewrite ?Hd2; done. }
  cbn [templates_dir writable]. rewrite Hd2, Hw2. cbn [templates_dir writable].
  intros o5 w5 [Hx5 Hret].
  assert (exchanges w5
          = exchanges w ++ [(CreateBoard (board_data_of today params t), RObject board)]
              ++ new ++ [(CreateBlocks (default "unknown" (obj_id board))
                            [view_block now_ms (default "unknown" (obj_id board))
                               (block_id (drawn w2))
                               (property_map_of
                                  (default []
                                     (bc_cardProperties
                                        (default (BoardConfig None None None None None)
                                           (t_board t)))))], view_result)]) as Hlog.
  { rewrite Hx5. cbn [exchanges]. rewrite Hx2. cbn [exchanges]. by rewrite <-!app_assoc. }
  destruct o5 as [[]|e].
  - apply post_ret. eexists new, (_, view_result). split_and!; [exact Hlog|exact Hc|done].
  - eexists new, (_, view_result). split_and!; [exact Hlog|exact Hc|].
    intros act d1 Hact Hmk. by specialize (Hret act d1 Hact Hmk).
Qed.

Lemma last_property_None name props :
  has_property name props = false → last_property name props = None.
Proof.
  intros Hno. destruct (last_property name props) as [p|] eqn:E; [|done].
  assert (has_property name props = true) as Hyes; [|congruence].
  apply has_property_lookup. rewrite property_map_of_lookup, E. by eexists.
Qed.

(** C7, as amended. Once the board exists and the cards have been gone
    through, the tool always posts the default view, a table titled
    ["Task Overview"], whether or not the schema has a Status property,
    and this is the last request of the run. The visible properties of
    the view are the id of the property called Status (the last one of
    that name) when the schema has one and its id is not empty, and none
    otherwise. *)
Theorem default_view_always_posted (params : InstantiateTemplateInput) (w : world)
    (t : template) (board : api_object) (b1 : B) (st : nat * list string) (w2 : world) :
  load (templates_dir w) (it_template_id params) = Returned (Some t) →
  template_is_empty t = false →
  serve (CreateBoard (board_data_of today params t)) (backend w) = (RObject board, b1) →
  let board_id := default "unknown" (obj_id board) in
  let property_map := property_map_of (schema t) in
  for_each (instantiate_phase serve block_id now_ms str_title board_id (instantiate_variables today params)
              property_map (option_map_of (schema t)))
    (default [] (t_phases t)) (0%nat, [])
    (World b1 (exchanges w ++ [(CreateBoard (board_data_of today params t), RObject board)])
       (templates_dir w) (writable w) (drawn w))
  = (Returned st, w2) →
  let view := view_block now_ms board_id (block_id (drawn w2)) property_map in
  exchanges (instantiate params w).2
  = exchanges w2 ++ [(CreateBlocks board_id [view],
                      (serve (CreateBlocks board_id [view]) (backend w2)).1)]
  ∧ blk_type view = "view"
  ∧ blk_title view = "Task Overview"
  ∧ blk_fields view
    = ViewFields "table"
        (match last_property "Status" (schema t) with
         | Some p =>
             if bool_decide (default "" (prop_id p) = "") then [] else [default "" (prop_id p)]
         | None => []
         end)
  ∧ (has_property "Status" (schema t) = false → blk_fields view = ViewFields "table" []).
Proof.
  intros Hload Hne Hboard board_id property_map Hloop view.
  assert (blk_fields view
    = ViewFields "table"
        (match last_property "Status" (schema t) with
         | Some p =>
             if bool_decide (default "" (prop_id p) = "") then [] else [default "" (prop_id p)]
         | None => []
         end)) as Hfields by apply view_block_fields.
  split_and!; [|done|done|done|].
  - cut (post (instantiate params) w
           (λ _ w', exchanges w'
                    = exchanges w2 ++ [(CreateBlocks board_id [view],
                                        (serve (CreateBlocks board_id [view]) (backend w2)).1)])).
    { done. }
    unfold focalboard_instantiate_template.
    apply post_bind. unfold post at 1, _load_template. cbn [fst snd].
    rewrite Hload, Hne.
    apply post_bind, post_api_request. intros resp b' Hserve.
    rewrite Hboard in Hserve. injection Hserve as <- <-.
    apply post_bind. unfold post at 1.
    change (for_each _ _ _ _) with
      (for_each (instantiate_phase serve block_id now_ms str_title board_id
                   (instantiate_variables today params) property_map (option_map_of (schema t)))
         (default [] (t_phases t)) (0%nat, [])
         (World b1 (exchanges w ++ [(CreateBoard (board_data_of today params t), RObject board)])
            (templates_dir w) (writable w) (drawn w))).
    rewrite Hloop. cbn [fst snd].
    apply post_bind. unfold post at 1, _generate_block_id. cbn [fst snd].
    apply post_bind, post_api_request. intros view_result b3 Hview.
    apply post_bind. eapply post_mono; [apply keeps_log_record_instance|].
    intros o w5 Hx5. cbn [exchanges] in Hx5.
    assert (exchanges w5
            = exchanges w2 ++ [(CreateBlocks board_id [view],
                                (serve (CreateBlocks board_id [view]) (backend w2)).1)]) as Hfinal.
    { rewrite Hx5. cbn [backend drawn] in Hview.
      change (serve (CreateBlocks board_id [view]) (backend w2) = (view_result, b3)) in Hview.
      by rewrite Hview. }
    destruct o; [by apply post_ret|done].
  - intros Hno. by rewrite Hfields, last_property_None.
Qed.

(** *** Proposals from the board *)

Lemma difference_lines_returns heading unit mark titles :
  ¬ (None ∈ titles ∧ 2 ≤ size titles) →
  ∃ l, difference_lines heading unit mark titles = Returned l.
Proof.
  intros Hsortable. unfold difference_lines, sorted_titles.
  destruct (decide (titles = ∅)); [by eexists|].
  rewrite decide_False by done. by eexists.
Qed.

Lemma sync_header_lines_returns params t missing extra :
  ¬ (None ∈ missing ∧ 2 ≤ size missing) →
  ¬ (None ∈ extra ∧ 2 ≤ size extra) →
  ∃ head, sync_header_lines params t missing extra = Returned head.
Proof.
  intros Hm He. unfold sync_header_lines.
  destruct (decide (missing = ∅ ∧ extra = ∅)); [by eexists|].
  destruct (difference_lines_returns "Missing from Board" "tasks" "❌" missing Hm) as [l1 ->].
  destruct (difference_lines_returns "Extra in Board" "cards" "➕" extra He) as [l2 ->].
  by eexists.
Qed.

(** One run that is not a dry run, on a board with the single extra
    title [x]: the two reads of the board are the only exchanges, one
    block id is drawn, and the file the template was loaded from holds
    the template with one more pending proposal. *)
Lemma sync_proposes_once (params : SyncTemplateInput) (w : world)
    (templates : list summary) (info : summary) (t : template) (pend : list proposal)
    (x : string) (rb : response) (b1 : B) (cards : list api_object) (b2 : B) :
  sy_direction params = "board_to_template" →
  sy_dry_run params = false →
  writable w = true →
  discover (templates_dir w) None = Returned templates →
  find (λ s, bool_decide (s_id s = sy_template_id params)) templates = Some info →
  path_dir (s_path info) = sy_template_id params →
  read_file (templates_dir w) (s_path info) = Some (JsonDoc t) →
  template_is_empty t = false →
  pending_proposals (default (Feedback (Some []) (Some []) (Some [])) (t_feedback t))
    = Some pend →
  ¬ (None ∈ missing_from_board (template_tasks_of t) (board_cards_of cards)
     ∧ 2 ≤ size (missing_from_board (template_tasks_of t) (board_cards_of cards))) →
  serve (GetBoard (sy_board_id params)) (backend w) = (rb, b1) →
  is_error rb = false →
  serve (GetCards (sy_board_id params)) b1 = (RList cards, b2) →
  extra_in_board (template_tasks_of t) (board_cards_of cards) = {[ Some x ]} →
  let fb := default (Feedback (Some []) (Some []) (Some [])) (t_feedback t) in
  let p := add_task_proposal today now_iso (sy_board_id params) (block_id (drawn w)) (Some x) in
  let t1 := set_feedback (Feedback (Some (pend ++ [p])) (approved_proposals fb)
                            (rejected_proposals fb)) t in
  (sync params w).2
  = World b2
      (exchanges w ++ [(GetBoard (sy_board_id params), rb);
                       (GetCards (sy_board_id params), RList cards)])
      (write_json (templates_dir w) (s_path info) (JsonDoc t1)) true (S (drawn w)).
Proof.
  intros Hdir Hdry Hw Hdisc Hfind Hlayout Hread Hne Hpend Htitled Hboard Hok Hcards Hextra
    fb p t1.
  assert (Path (s_category info) (sy_template_id params) = s_path info) as Hpath.
  { apply find_elem_of in Hfind as [Hin _].
    rewrite (discover_category _ _ _ _ Hdisc Hin), <-Hlayout. by destruct (s_path info). }
  destruct (sync_header_lines_returns params t
              (missing_from_board (template_tasks_of t) (board_cards_of cards))
              (extra_in_board (template_tasks_of t) (board_cards_of cards))) as [head Hhead].
  { exact Htitled. }
  { rewrite Hextra, size_singleton. lia. }
  unfold focalboard_sync_template, bind at 1, _load_template. cbn [fst snd].
  rewrite (load_found _ _ _ _ _ Hdisc Hfind Hread), Hne.
  unfold bind at 1, _api_request at 1. rewrite Hboard.
  assert (∀ (k : M string) w0,
            match rb with RError error => ret ("Error: " +:+ error) | _ => k end w0 = k w0)
    as Hrb by (intros; by destruct rb).
  rewrite Hrb. clear Hrb.
  unfold bind at 1, _api_request at 1. cbn [backend]. rewrite Hcards.
  cbn [exchanges templates_dir writable drawn].
  unfold bind at 1, lift at 1. rewrite Hhead.
  unfold bind at 1, sync_actions. rewrite Hdir, Hdry, Hextra.
  rewrite (bool_decide_eq_false_2 ("board_to_template" = "template_to_board")) by discriminate.
  rewrite (bool_decide_eq_true_2 ("board_to_template" = "board_to_template")) by done.
  rewrite (bool_decide_eq_false_2 ({[Some x]} = ∅)) by apply non_empty_singleton_L.
  cbn [andb negb].
  unfold bind at 1, propose_extra_cards. rewrite Hpend, elements_singleton.
  cbn [for_each]. unfold bind at 1, bind at 1, _generate_block_id at 1, ret at 1, ret at 1.
  cbn [fst snd drawn backend exchanges templates_dir writable].
  unfold bind at 1, _discover_templates at 1. cbn [templates_dir]. rewrite Hdisc, Hfind.
  unfold bind at 1, bind at 1, _save_template. cbn [templates_dir writable].
  rewrite Hpath, Hw, (mkdir_parents_existing _ _ _ _ Hread).
  rewrite <-app_assoc. reflexivity.
Qed.

Lemma set_feedback_not_empty fb t : template_is_empty (set_feedback fb t) = false.
Proof. destruct t as [[m|] [b|] [p|] f [i|] o]; done. Qed.


(** *** Saving, then loading *)


(** *** Templates that are not there *)

Lemma load_unknown d template_id :
  scannable d = true →
  Forall (λ s, s_id s ≠ template_id) (valid_summaries d None) →
  load d template_id = Returned None.
Proof.
  intros Hobj Hnone. unfold load. rewrite (scannable_discover _ _ Hobj).
  rewrite find_none; [done|]. intros s Hs.
  apply bool_decide_eq_false_2. by apply (proj1 (Forall_forall _ _) Hnone).
Qed.


(** *** The instance record *)

(** The record added to [instances.active] for the board [board_id]. *)
Lemma record_instance_run params t board_id w templates info c :
  discover (templates_dir w) None = Returned templates →
  find (λ s, bool_decide (s_id s = it_template_id params)) templates = Some info →
  path_dir (s_path info) = it_template_id params →
  read_file (templates_dir w) (s_path info) = Some c →
  let meta := default (Meta None None None None None None None) (t_meta t) in
  let template_instances := default (Instances (Some []) (Some [])) (t_instances t) in
  record_instance now_iso params t board_id w
  = match active template_instances with
    | None => (Raised KeyError, w)
    | Some act =>
        let record :=
          {| ir_board_id := board_id; ir_project_name := it_project_name params;
             ir_created := now_iso;
             ir_template_version := default "1.0.0" (meta_version meta);
             ir_current_version := default "1.0.0" (meta_version meta);
             ir_upgrade_status := "current" |} in
        let t' := set_instances (Instances (Some (act ++ [record]))
                                   (archived template_instances)) t in
        (Returned tt,
         if writable w
         then World (backend w) (exchanges w)
                (write_json (templates_dir w) (s_path info) (JsonDoc t')) (writable w) (drawn w)
         else w)
    end.
Proof.
  intros Hdisc Hfind Hdir Hread meta template_instances. unfold record_instance.
  fold meta template_instances. destruct (active template_instances) as [act|]; [|done].
  unfold bind at 1, _discover_templates at 1. rewrite Hdisc, Hfind.
  assert (Path (s_category info) (it_template_id params) = s_path info) as Hpath.
  { apply find_elem_of in Hfind as [Hin _].
    rewrite (discover_category _ _ _ _ Hdisc Hin), <-Hdir. by destruct (s_path info). }
  unfold bind, _save_template, ret.
  rewrite Hpath, (mkdir_parents_existing _ _ _ _ Hread).
  by destruct (writable w).
Qed.

(** The run of an instantiation down to the view: the board, the cards
    with their blocks, the view; the template directory is as before.
    What remains is to record the instance. *)
Lemma instantiate_down_to_view params w t board b1 :
  load (templates_dir w) (it_template_id params) = Returned (Some t) →
  template_is_empty t = false →
  serve (CreateBoard (board_data_of today params t)) (backend w) = (RObject board, b1) →
  (∀ bid data b, answers_object (serve (CreateCard bid data) b).1) →
  let board_id := default "unknown" (obj_id board) in
  ∃ st new view w3,
    exchanges w3
    = exchanges w ++ [(CreateBoard (board_data_of today params t), RObject board)]
        ++ new ++ [view]
    ∧ is_view_request view.1 = true
    ∧ templates_dir w3 = templates_dir w ∧ writable w3 = writable w
    ∧ instantiate params w
      = match record_instance now_iso params t board_id w3 with
        | (Returned _, w4) =>
            (Returned
               (PyStr.join nl
                  (instantiate_lines FOCALBOARD_URL
                     (default (Meta None None None None None None None) (t_meta t))
                     (it_project_name params) board_id (bd_title (board_data_of today params t))
                     st.1 (negb (is_error view.2)) st.2)), w4)
        | (Raised e, w4) => (Raised e, w4)
        end.
Proof.
  intros Hload Hne Hboard Hobject board_id.
  cut (post (instantiate params) w
         (λ o w', ∃ st new view w3,
            exchanges w3
            = exchanges w ++ [(CreateBoard (board_data_of today params t), RObject board)]
                ++ new ++ [view]
            ∧ is_view_request view.1 = true
            ∧ templates_dir w3 = templates_dir w ∧ writable w3 = writable w
            ∧ (o, w')
              = match record_instance now_iso params t board_id w3 with
                | (Returned _, w4) =>
                    (Returned
                       (PyStr.join nl
                          (instantiate_lines FOCALBOARD_URL
                             (default (Meta None None None None None None None) (t_meta t))
                             (it_project_name params) board_id
                             (bd_title (board_data_of today params t))
                             st.1 (negb (is_error view.2)) st.2)), w4)
                | (Raised e, w4) => (Raised e, w4)
                end)).
  { unfold post. by destruct (instantiate params w). }
  unfold focalboard_instantiate_template.
  apply post_bind. unfold post at 1, _load_template. cbn [fst snd].
  rewrite Hload, Hne.
  apply post_bind, post_api_request. intros resp b' Hserve.
  rewrite Hboard in Hserve. injection Hserve as <- <-.
  apply post_bind.
  match goal with |- post ?m ?w1 _ =>
    pose proof (instantiate_phases_result (default "unknown" (obj_id board))
                  (instantiate_variables today params) (property_map_of (schema t))
                  (option_map_of (schema t)) Hobject (default [] (t_phases t)) (0%nat, []) w1)
      as Hloop;
    pose proof (keeps_disk_phases (default "unknown" (obj_id board))
                  (instantiate_variables today params) (property_map_of (schema t))
                  (option_map_of (schema t)) (default [] (t_phases t)) (0%nat, []) w1)
      as Hkeep
  end.
  unfold post in Hloop, Hkeep |- *. unfold schema in Hloop, Hkeep.
  destruct (for_each _ _ _ _) as [o w2].
  destruct Hloop as (new & Hx2 & _ & ->). injection Hkeep as Hd2 Hw2.
  cbn [fst snd] in *.
  apply post_bind. unfold post at 1, _generate_block_id. cbn [fst snd].
  apply post_bind, post_api_request. intros view_result b3 _.
  match goal with |- post _ ?w3 _ => set (w3' := w3) end.
  unfold post, bind.
  exists (0 + created_count new, [] ++ failure_messages new), new,
    (CreateBlocks (default "unknown" (obj_id board))
       [view_block now_ms (default "unknown" (obj_id board)) (block_id (drawn w2))
          (property_map_of
             (default [] (bc_cardProperties
                            (default (BoardConfig None None None None None) (t_board t)))))],
     view_result), w3'.
  split_and!.
  - unfold w3'. cbn [exchanges]. rewrite Hx2. cbn [exchanges]. by rewrite <-!app_assoc.
  - reflexivity.
  - done.
  - done.
  - fold board_id. by destruct (record_instance now_iso params t board_id w3') as [[[]|e] w4].
Qed.


(** X9. When the [instances] section of the template lacks the [active]
    list, the tool raises [KeyError], yet only after the board, its
    cards and the view have been sent to the server; nothing is
    written. *)
Theorem instantiate_raises_without_active (params : InstantiateTemplateInput) (w : world)
    (t : template) (board : api_object) (b1 : B) :
  load (templates_dir w) (it_template_id params) = Returned (Some t) →
  template_is_empty t = false →
  active (default (Instances (Some []) (Some [])) (t_instances t)) = None →
  serve (CreateBoard (board_data_of today params t)) (backend w) = (RObject board, b1) →
  (∀ bid data b, answers_object (serve (CreateCard bid data) b).1) →
  (instantiate params w).1 = Raised KeyError
  ∧ templates_dir (instantiate params w).2 = templates_dir w
  ∧ ∃ new view,
      exchanges (instantiate params w).2
      = exchanges w ++ [(CreateBoard (board_data_of today params t), RObject board)]
          ++ new ++ [view]
      ∧ is_view_request view.1 = true.
Proof.
  intros Hload Hne Hact Hboard Hobject.
  destruct (instantiate_down_to_view params w t board b1)
    as (st & new & view & w3 & Hx3 & Hview & Hd3 & Hw3 & Hrun); [done..|].
  assert (record_instance now_iso params t (default "unknown" (obj_id board)) w3
          = (Raised KeyError, w3)) as Hrec.
  { unfold record_instance. by rewrite Hact. }
  rewrite Hrec in Hrun. rewrite Hrun. cbn [fst snd].
  split_and!; [done|done|]. by exists new, view.
Qed.

(** *** Synchronisations that change nothing, or the board only *)

(** In a dry run, or with a direction that is neither of the two, the
    actions are only lines of text. *)
Lemma sync_actions_inert params t tts missing extra :
  sy_dry_run params = true
  ∨ (sy_direction params ≠ "template_to_board" ∧ sy_direction params ≠ "board_to_template") →
  ∃ lines, sync_actions serve block_id today now_iso params t tts missing extra = ret lines.
Proof.
  intros Hinert. unfold sync_actions.
  destruct Hinert as [-> | [H1 H2]].
  - repeat case_match; by eexists.
  - rewrite (bool_decide_eq_false_2 _ H1), (bool_decide_eq_false_2 _ H2). by eexists.
Qed.

(** X10. A dry run, in either direction, and a run with a direction that
    is neither [template_to_board] nor [board_to_template] only read:
    the board and its cards are asked for, at most, nothing is posted,
    no file of the template directory is written and no id is drawn. *)
Theorem sync_dry_run_only_reads (params : SyncTemplateInput) (w : world) :
  sy_dry_run params = true
  ∨ (sy_direction params ≠ "template_to_board" ∧ sy_direction params ≠ "board_to_template") →
  let w' := (sync params w).2 in
  templates_dir w' = templates_dir w ∧ writable w' = writable w ∧ drawn w' = drawn w
  ∧ ∃ reads, exchanges w' = exchanges w ++ reads
             ∧ reads.*1 `prefix_of` [GetBoard (sy_board_id params); GetCards (sy_board_id params)].
Proof.
  intros Hinert w'.
  set (Q := λ w0 : world,
         templates_dir w0 = templates_dir w ∧ writable w0 = writable w ∧ drawn w0 = drawn w
         ∧ ∃ reads, exchanges w0 = exchanges w ++ reads
                    ∧ reads.*1 `prefix_of` [GetBoard (sy_board_id params);
                                            GetCards (sy_board_id params)]).
  cut (post (sync params) w (λ _ w0, Q w0)); [done|].
  assert (Q w) as Hnone.
  { split_and!; [done..|]. exists []. rewrite app_nil_r. split; [done|apply prefix_nil]. }
  assert (∀ rb b, Q (World b (exchanges w ++ [(GetBoard (sy_board_id params), rb)])
                       (templates_dir w) (writable w) (drawn w))) as Hone.
  { intros rb b. split_and!; [done..|].
    exists [(GetBoard (sy_board_id params), rb)]. split; [done|].
    by exists [GetCards (sy_board_id params)]. }
  assert (∀ rb rc b, Q (World b ((exchanges w ++ [(GetBoard (sy_board_id params), rb)])
                                 ++ [(GetCards (sy_board_id params), rc)])
                          (templates_dir w) (writable w) (drawn w))) as Htwo.
  { intros rb rc b. split_and!; [done..|].
    exists [(GetBoard (sy_board_id params), rb); (GetCards (sy_board_id params), rc)].
    split; [by rewrite <-app_assoc|done]. }
  unfold focalboard_sync_template.
  apply post_bind. unfold post at 1, _load_template. cbn [fst snd].
  destruct (load _ _) as [[t|]|e]; [|by apply post_ret|done].
  destruct (template_is_empty t); [by apply post_ret|].
  apply post_bind, post_api_request. intros rb b1 _.
  destruct rb as [error|o| |]; [apply post_ret, Hone|..].
  all: apply post_bind, post_api_request; intros rc b2 _.
  all: destruct rc as [error|o'|cards|]; [apply post_ret, Htwo|..].
  all: apply post_bind, post_lift.
  all: match goal with |- context [sync_header_lines ?a ?b ?c ?d] =>
         destruct (sync_header_lines a b c d) as [head|e] end; [|apply Htwo].
  all: match goal with |- context [sync_actions _ _ _ _ ?a ?b ?c ?d ?e] =>
         destruct (sync_actions_inert a b c d e Hinert) as [lines ->] end.
  all: apply post_bind, post_ret, post_ret, Htwo.
Qed.

(** The loop over the template tasks: one card request for every task
    whose title is missing, in template order; the count grows with
    every request that was not refused. *)
Lemma create_missing_cards_run (board_id : string) (missing : gset (option string))
    (tts : list template_task) : ∀ (created : nat) w,
  ∃ posts w',
    for_each
      (λ tk (created : nat),
         if decide (tt_title tk ∈ missing)
         then
           bind (_api_request serve
                   (CreateCard board_id
                      {| cd_title := tt_title tk; cd_icon := tt_icon tk;
                         cd_properties := ∅ |}))
             (λ result, ret (if is_error result then created else S created))
         else ret created)
      tts created w
    = (Returned (created + created_count posts), w')
    ∧ exchanges w' = exchanges w ++ posts
    ∧ posts.*1
      = map (λ tk, CreateCard board_id
                     {| cd_title := tt_title tk; cd_icon := tt_icon tk; cd_properties := ∅ |})
          (filter (λ tk, tt_title tk ∈ missing) tts)
    ∧ templates_dir w' = templates_dir w ∧ writable w' = writable w ∧ drawn w' = drawn w.
Proof.
  induction tts as [|tk tts IH]; intros created w.
  - exists [], w. rewrite app_nil_r, Nat.add_0_r. by split_and!.
  - rewrite for_each_cons. destruct (decide (tt_title tk ∈ missing)) as [Hin|Hout].
    + rewrite filter_cons_True by done.
      unfold bind at 1, _api_request at 1.
      destruct (serve _ (backend w)) as [result b1] eqn:Hserve. unfold ret at 1.
      match goal with |- context [for_each _ tts ?c ?w1] =>
        destruct (IH c w1) as (posts & w' & -> & Hx & Hreq & Hd & Hw & Hn) end.
      cbn [exchanges templates_dir writable drawn] in Hx, Hd, Hw, Hn.
      eexists ((_, result) :: posts), w'. split_and!; [|by rewrite Hx, <-app_assoc| |done..].
      * f_equal. f_equal. change (?x :: posts) with ([x] ++ posts).
        rewrite created_count_app.
        destruct result; cbn [is_error]; unfold created_count;
          cbn [omap list_omap card_created length]; lia.
      * cbn [fmap list_fmap fst map]. by rewrite <-Hreq.
    + rewrite filter_cons_False by done. unfold ret at 1. apply IH.
Qed.

(** X11. A synchronisation from template to board that is not a dry run
    posts one card for every template task whose title no card of the
    board has, in template order, with the title and the icon of the
    task and no properties; a refused card does not stop the others,
    and the report counts the cards that were not refused. The template
    directory is not written. *)
Theorem sync_creates_missing_cards (params : SyncTemplateInput) (w : world) (t : template)
    (rb : response) (cards : list api_object) (b1 b2 : B) :
  sy_direction params = "template_to_board" →
  sy_dry_run params = false →
  load (templates_dir w) (sy_template_id params) = Returned (Some t) →
  template_is_empty t = false →
  serve (GetBoard (sy_board_id params)) (backend w) = (rb, b1) →
  is_error rb = false →
  serve (GetCards (sy_board_id params)) b1 = (RList cards, b2) →
  None ∉ template_titles (template_tasks_of t) →
  None ∉ board_titles (board_cards_of cards) →
  let template_tasks := template_tasks_of t in
  let board_cards := board_cards_of cards in
  let missing := missing_from_board template_tasks board_cards in
  let w' := (sync params w).2 in
  ∃ posts head,
    exchanges w'
    = exchanges w ++ [(GetBoard (sy_board_id params), rb);
                      (GetCards (sy_board_id params), RList cards)] ++ posts
    ∧ posts.*1
      = map (λ tk, CreateCard (sy_board_id params)
                     {| cd_title := tt_title tk; cd_icon := tt_icon tk; cd_properties := ∅ |})
          (filter (λ tk, tt_title tk ∈ missing) template_tasks)
    ∧ sync_header_lines params t missing (extra_in_board template_tasks board_cards)
      = Returned head
    ∧ (sync params w).1
      = Returned
          (PyStr.join nl
             (head
              ++ (if decide (missing = ∅) then []
                  else [ "## Actions Taken";
                         "✅ Created " +:+ pretty (created_count posts)
                           +:+ " cards from template." ])
              ++ [ ""; "---";
                   "**Summary**: Template has " +:+ pretty (length template_tasks)
                     +:+ " tasks, Board has " +:+ pretty (length board_cards) +:+ " cards" ]))
    ∧ templates_dir w' = templates_dir w ∧ drawn w' = drawn w.
Proof.
  intros Hdir Hdry Hload Hne Hboard Hok Hcards Htitled Hcarded template_tasks board_cards
    missing w'.
  destruct (sync_header_lines_returns params t missing
              (extra_in_board template_tasks board_cards)) as [head Hhead].
  { intros [Hin _]. apply Htitled. unfold missing, missing_from_board in Hin.
    by apply elem_of_difference in Hin as [? _]. }
  { intros [Hin _]. apply Hcarded. unfold extra_in_board in Hin.
    by apply elem_of_difference in Hin as [? _]. }
  assert (sync params w
          = bind (sync_actions serve block_id today now_iso params t template_tasks missing
                    (extra_in_board template_tasks board_cards))
              (λ actions,
                 ret (PyStr.join nl
                        (head ++ actions
                         ++ [ ""; "---";
                              "**Summary**: Template has " +:+ pretty (length template_tasks)
                                +:+ " tasks, Board has " +:+ pretty (length board_cards)
                                +:+ " cards" ])))
              (World b2
                 (exchanges w ++ [(GetBoard (sy_board_id params), rb);
                                  (GetCards (sy_board_id params), RList cards)])
                 (templates_dir w) (writable w) (drawn w))) as Hrun.
  { unfold focalboard_sync_template, bind at 1, _load_template. cbn [fst snd].
    rewrite Hload, Hne. unfold bind at 1, _api_request at 1. rewrite Hboard.
    assert (∀ (k : M string) w0,
              match rb with RError error => ret ("Error: " +:+ error) | _ => k end w0 = k w0)
      as Hrb by (intros; by destruct rb).
    rewrite Hrb. clear Hrb.
    unfold bind at 1, _api_request at 1. cbn [backend]. rewrite Hcards.
    cbn [exchanges templates_dir writable drawn].
    unfold bind at 1, lift at 1. fold template_tasks board_cards missing. rewrite Hhead.
    by rewrite <-app_assoc. }
  unfold w'. rewrite Hrun. clear Hrun.
  match goal with |- context [bind ?m ?k ?W] => destruct (bind m k W) as [o w2] eqn:Erun end.
  cbn [fst snd]. unfold sync_actions in Erun. rewrite Hdir, Hdry in Erun.
  rewrite (bool_decide_eq_true_2 ("template_to_board" = "template_to_board")) in Erun by done.
  cbn [andb] in Erun. destruct (decide (missing = ∅)) as [Hnone|Hsome].
  - rewrite (bool_decide_eq_true_2 _ Hnone) in Erun. cbn [negb] in Erun.
    rewrite (bool_decide_eq_false_2 ("template_to_board" = "board_to_template")) in Erun
      by discriminate.
    cbn [andb] in Erun. unfold bind, ret in Erun. injection Erun as <- <-.
    exists [], head. cbn [exchanges templates_dir drawn]. split_and!; try done.
    rewrite filter_none; [done|].
    apply Forall_forall. intros tk _. rewrite Hnone. apply not_elem_of_empty.
  - rewrite (bool_decide_eq_false_2 _ Hsome) in Erun. cbn [negb] in Erun.
    unfold bind at 1, bind at 1, create_missing_cards in Erun.
    match type of Erun with context [for_each _ template_tasks ?c ?w1] =>
      destruct (create_missing_cards_run (sy_board_id params) missing template_tasks c w1)
        as (posts & w3 & Hfor & Hx & Hreq & Hd & Hw & Hn) end.
    rewrite Hfor in Erun. unfold ret in Erun. injection Erun as <- <-.
    exists posts, head. cbn [exchanges templates_dir drawn] in *. split_and!; try done.
    rewrite Hx. by rewrite <-app_assoc.
Qed.

(** *** The blocks of a card *)

(** The loop that builds the blocks of a card draws one id per element
    and keeps the blocks and their ids in the order of the elements. *)
Lemma build_blocks_run {A} (mk : string → A → block) (l : list A) :
  ∀ (acc : list block * list string) w,
    for_each
      (λ item (acc : list block * list string),
         bind (_generate_block_id block_id)
           (λ id, ret (acc.1 ++ [mk id item], acc.2 ++ [id])))
      l acc w
    = (Returned (acc.1 ++ zip_with mk (map block_id (seq (drawn w) (length l))) l,
                 acc.2 ++ map block_id (seq (drawn w) (length l))),
       World (backend w) (exchanges w) (templates_dir w) (writable w) (drawn w + length l)).
Proof.
  induction l as [|x l IH]; intros acc w.
  - cbn [for_each length seq map zip_with]. unfold ret. rewrite !app_nil_r, Nat.add_0_r.
    by destruct acc, w.
  - rewrite for_each_cons. unfold bind at 1, _generate_block_id at 1, ret at 1.
    rewrite IH. cbn [fst snd backend exchanges templates_dir writable drawn length seq map
                       zip_with].
    rewrite <-!app_assoc. cbn [app]. do 2 f_equal. lia.
Qed.

Lemma match_non_empty {A C} (l : list A) (a c : C) :
  l ≠ [] → match l with [] => a | _ :: _ => c end = c.
Proof. by destruct l. Qed.

Lemma zip_with_non_empty {A} (mk : string → A → block) (n : nat) (l : list A) :
  l ≠ [] → zip_with mk (map block_id (seq n (length l))) l ≠ [].
Proof. by destruct l. Qed.

(** X12. For a card with an id and a checklist that is not empty, the
    checklist step draws one block id per entry and sends two requests:
    one that creates a checkbox block for every entry, in the order of
    the checklist, and one that sets the content order of the card to
    the ids of these blocks in the same order, whatever the answer to
    the first request was. Without entries or without a card id it does
    nothing. *)
Theorem checklist_blocks_follow_the_entries (board_id card_id : string)
    (variables : list (string * string)) (checklist : list checklist_item) (w : world) :
  let ids := map block_id (seq (drawn w) (length checklist)) in
  let blocks := zip_with (checkbox_block now_ms board_id card_id variables) ids checklist in
  let created := serve (CreateBlocks board_id blocks) (backend w) in
  let ordered := serve (PatchContentOrder board_id card_id ids) created.2 in
  (checklist ≠ [] → card_id ≠ "" →
   add_checklist serve block_id now_ms board_id card_id variables checklist w
   = (Returned tt,
      World ordered.2
        (exchanges w ++ [(CreateBlocks board_id blocks, created.1);
                         (PatchContentOrder board_id card_id ids, ordered.1)])
        (templates_dir w) (writable w) (drawn w + length checklist)))
  ∧ (checklist = [] ∨ card_id = "" →
     add_checklist serve block_id now_ms board_id card_id variables checklist w
     = (Returned tt, w)).
Proof.
  intros ids blocks created ordered. split.
  - intros Hentries Hcard. unfold add_checklist.
    rewrite (bool_decide_eq_false_2 _ Hentries), (bool_decide_eq_false_2 _ Hcard).
    cbn [orb]. unfold bind at 1.
    rewrite (build_blocks_run (checkbox_block now_ms board_id card_id variables)).
    cbn [fst snd app]. fold ids blocks.
    rewrite match_non_empty by by apply zip_with_non_empty.
    subst created ordered.
    unfold bind, _api_request, ret. cbn [backend exchanges templates_dir writable drawn].
    destruct (serve (CreateBlocks board_id blocks) (backend w)) as [r1 b1].
    cbn [fst snd backend exchanges templates_dir writable drawn].
    destruct (serve (PatchContentOrder board_id card_id ids) b1) as [r2 b2].
    cbn [fst snd]. by rewrite <-app_assoc.
  - intros Hnothing. unfold add_checklist.
    destruct Hnothing as [-> | ->]; [done|].
    rewrite (bool_decide_eq_true_2 ("" = "")) by done. by rewrite orb_true_r.
Qed.

(** X13. The content blocks of a task are created in one request, in
    the order of the template; the card is then looked up among the
    card blocks of the board and its content order becomes the order it
    had, followed by the ids of the new blocks: what was there (the
    checklist) is kept in front. When the card is not among the blocks
    returned, the content order is not touched. *)
Theorem content_blocks_are_appended (board_id card_id : string)
    (variables : list (string * string)) (content_blocks : list content_block) (w : world)
    (cards : list api_object) (b2 : B) :
  content_blocks ≠ [] → card_id ≠ "" →
  let ids := map block_id (seq (drawn w) (length content_blocks)) in
  let blocks := zip_with (content_block_of now_ms board_id card_id variables) ids
                  content_blocks in
  let created := serve (CreateBlocks board_id blocks) (backend w) in
  serve (GetCardBlocks board_id) created.2 = (RList cards, b2) →
  let reads := [(CreateBlocks board_id blocks, created.1);
                (GetCardBlocks board_id, RList cards)] in
  add_content_blocks serve block_id now_ms board_id card_id variables content_blocks w
  = match find (λ card, bool_decide (obj_id card = Some card_id)) cards with
    | Some card =>
        let order := default [] (obj_contentOrder card) ++ ids in
        let ordered := serve (PatchContentOrder board_id card_id order) b2 in
        (Returned tt,
         World ordered.2
           (exchanges w ++ reads ++ [(PatchContentOrder board_id card_id order, ordered.1)])
           (templates_dir w) (writable w) (drawn w + length content_blocks))
    | None =>
        (Returned tt,
         World b2 (exchanges w ++ reads) (templates_dir w) (writable w)
           (drawn w + length content_blocks))
    end.
Proof.
  intros Hblocks Hcard ids blocks created Hcards reads. subst created reads.
  unfold add_content_blocks.
  rewrite (bool_decide_eq_false_2 _ Hblocks), (bool_decide_eq_false_2 _ Hcard).
  cbn [orb]. unfold bind at 1.
  rewrite (build_blocks_run (content_block_of now_ms board_id card_id variables)).
  cbn [fst snd app]. fold ids blocks.
  rewrite match_non_empty by by apply zip_with_non_empty.
  unfold bind at 1, _api_request at 1. cbn [backend exchanges templates_dir writable drawn].
  destruct (serve (CreateBlocks board_id blocks) (backend w)) as [r1 b1]. cbn [fst snd] in *.
  unfold bind at 1, _api_request at 1. cbn [backend exchanges templates_dir writable drawn].
  rewrite Hcards.
  destruct (find _ cards) as [card|].
  - unfold bind, _api_request, ret. cbn [backend exchanges templates_dir writable drawn].
    destruct (serve _ b2) as [r3 b3]. cbn [fst snd].
    by rewrite <-!app_assoc.
  - unfold ret. by rewrite <-!app_assoc.
Qed.

End Facts.


(** * Properties of listing and of the board tools *)

(** ** Sorting *)

Lemma insert_sorted_perm {A} (le : A → A → bool) x l : insert_sorted le x l ≡ₚ x :: l.
Proof.
  induction l as [|y l IH]; cbn; [done|].
  destruct (le x y); [done|]. rewrite IH. apply Permutation_swap.
Qed.

Lemma sorted_by_perm {A} (le : A → A → bool) l : sorted_by le l ≡ₚ l.
Proof.
  induction l as [|x l IH]; cbn; [done|].
  fold (sorted_by le l). by rewrite insert_sorted_perm, IH.
Qed.

Lemma insert_sorted_sorted {A} (le : A → A → bool) x l :
  (∀ a b, le a b = false → le b a = true) →
  (∀ a b c, le a b = true → le b c = true → le a c = true) →
  StronglySorted (λ a b, le a b = true) l →
  StronglySorted (λ a b, le a b = true) (insert_sorted le x l).
Proof.
  intros Htot Htrans. induction 1 as [|y l Hs IH Hy]; cbn.
  - repeat constructor.
  - destruct (le x y) eqn:Hxy.
    + constructor; [by constructor|]. constructor; [done|].
      eapply Forall_impl; [exact Hy|]. intros z Hz. eapply Htrans; eassumption.
    + constructor; [done|].
      rewrite (Forall_forall (λ b, le y b = true)). intros z Hz.
      apply (elem_of_Permutation_proper _ _ _ (insert_sorted_perm le x l)) in Hz.
      apply elem_of_cons in Hz as [->|Hz]; [by apply Htot|].
      by apply (proj1 (Forall_forall _ _) Hy).
Qed.

Lemma sorted_by_sorted {A} (le : A → A → bool) l :
  (∀ a b, le a b = false → le b a = true) →
  (∀ a b c, le a b = true → le b c = true → le a c = true) →
  StronglySorted (λ a b, le a b = true) (sorted_by le l).
Proof.
  intros Htot Htrans. induction l as [|x l IH]; cbn; [constructor|].
  by apply insert_sorted_sorted.
Qed.

(** ** The categories of the list of templates *)

Lemma entry_None_keys {A} (n : string) (l : list (string * A)) :
  entry n l = None ↔ n ∉ l.*1.
Proof.
  induction l as [|[m a] l IH]; cbn.
  - split; [intros _; apply not_elem_of_nil|done].
  - destruct (decide (m = n)) as [->|Hne].
    + split; [done|]. intros []. apply elem_of_cons. by left.
    + rewrite IH, not_elem_of_cons.
      split; [intros H; split; [by intros <-|done]|by intros [_ H]].
Qed.

Lemma entry_app {A} (n : string) (l1 l2 : list (string * A)) :
  entry n (l1 ++ l2) = match entry n l1 with Some a => Some a | None => entry n l2 end.
Proof.
  induction l1 as [|[m a] l1 IH]; cbn; [done|]. by destruct (decide (m = n)).
Qed.

Lemma put_entry_keys {A} (n : string) (a b : A) (l : list (string * A)) :
  entry n l = Some b → (put_entry n a l).*1 = l.*1.
Proof.
  induction l as [|[m c] l IH]; cbn; [done|].
  destruct (decide (m = n)); cbn; [done|]. intros H. by rewrite IH.
Qed.

Lemma entry_of_elem {A} (n : string) (a : A) (l : list (string * A)) :
  NoDup l.*1 → (n, a) ∈ l → entry n l = Some a.
Proof.
  induction l as [|[m c] l IH]; cbn; intros Hnd Hin.
  - by apply elem_of_nil in Hin.
  - apply NoDup_cons in Hnd as [Hm Hnd].
    apply elem_of_cons in Hin as [[= <- <-]|Hin].
    + by rewrite decide_True.
    + destruct (decide (m = n)) as [->|]; [|by apply IH].
      destruct Hm. apply list_elem_of_fmap. by exists (n, a).
Qed.

Lemma by_category_of_grouped (templates : list summary) :
  grouped templates (by_category_of templates).
Proof.
  unfold by_category_of.
  cut (∀ rest done acc, grouped done acc →
         grouped (done ++ rest)
           (fold_left (λ by_category t,
              let cat := s_category t in
              match entry cat by_category with
              | None => by_category ++ [(cat, [t])]
              | Some cat_templates => put_entry cat (cat_templates ++ [t]) by_category
              end) rest acc)).
  { intros H. apply (H templates [] []). split; [constructor|done]. }
  induction rest as [|t rest IH]; intros done acc [Hnd Hacc]; cbn [fold_left].
  - by rewrite app_nil_r.
  - replace (done ++ t :: rest) with ((done ++ [t]) ++ rest) by by rewrite <-app_assoc.
    apply IH. cbv zeta. destruct (entry (s_category t) acc) as [ts|] eqn:Hcat.
    + split; [by erewrite put_entry_keys|].
      intros cat. rewrite filter_app. destruct (decide (s_category t = cat)) as [<-|Hne].
      * rewrite entry_put_entry_eq, filter_cons_True by done. cbn.
        rewrite Hacc in Hcat. destruct (filter _ done); [done|]. by simplify_eq.
      * rewrite entry_put_entry_ne, filter_cons_False, app_nil_r by done. apply Hacc.
    + split.
      * rewrite fmap_app. apply NoDup_app. split; [done|]. split; [|apply NoDup_singleton].
        intros x Hx Hx'. apply list_elem_of_singleton in Hx' as ->.
        by apply entry_None_keys in Hcat.
      * intros cat. rewrite entry_app, filter_app, Hacc. cbn [entry].
        destruct (decide (s_category t = cat)) as [<-|Hne].
        -- rewrite filter_cons_True by done. rewrite Hacc in Hcat.
           destruct (filter _ done); [done|done].
        -- rewrite filter_cons_False, app_nil_r by done. by destruct (filter _ done).
Qed.

Lemma sorted_categories_groups (templates : list summary) :
  let groups := sorted_categories templates in
  StronglySorted (λ a b, String.le a b ∧ a ≠ b) groups.*1 ∧
  (∀ cat, cat ∈ groups.*1 ↔ ∃ t, t ∈ templates ∧ s_category t = cat) ∧
  (∀ cat ts, (cat, ts) ∈ groups → ts = filter (λ t, s_category t = cat) templates).
Proof.
  intros groups. unfold sorted_categories in groups.
  destruct (by_category_of_grouped templates) as [Hnd Hentry].
  assert (Hperm : groups ≡ₚ by_category_of templates) by apply sorted_by_perm.
  assert (Hnd' : NoDup groups.*1) by by rewrite Hperm.
  split; [|split].
  - assert (Hs : StronglySorted (λ a b, bool_decide (String.le a.1 b.1) = true) groups).
    { apply sorted_by_sorted.
      - intros a b H. apply bool_decide_eq_false in H. apply bool_decide_eq_true.
        by destruct (total String.le a.1 b.1).
      - intros a b c H1 H2. apply bool_decide_eq_true in H1, H2. apply bool_decide_eq_true.
        by etrans. }
    clear Hperm. induction Hs as [|a l Hs IH Ha]; cbn; [constructor|].
    cbn in Hnd'. apply NoDup_cons in Hnd' as [Hna Hnd'].
    constructor; [by apply IH|].
    apply Forall_fmap. rewrite Forall_forall in Ha |- *. intros b Hb. unfold compose. split.
    + exact (bool_decide_eq_true_1 _ (Ha b Hb)).
    + intros Heq. apply Hna. rewrite Heq. apply list_elem_of_fmap. by exists b.
  - intros cat. rewrite Hperm. split.
    + intros Hin. destruct (entry cat (by_category_of templates)) as [ts|] eqn:He.
      * rewrite Hentry in He.
        destruct (filter (λ t, s_category t = cat) templates) as [|t ts'] eqn:Hf; [done|].
        assert (Ht : t ∈ filter (λ t, s_category t = cat) templates)
          by (rewrite Hf; apply elem_of_cons; by left).
        apply list_elem_of_filter in Ht as [? ?]. by exists t.
      * by apply entry_None_keys in He.
    + intros (t & Ht & Hc). apply dec_stable. intros Hn. apply entry_None_keys in Hn.
      rewrite Hentry in Hn.
      assert (Hin : t ∈ filter (λ t, s_category t = cat) templates)
        by by apply list_elem_of_filter.
      destruct (filter _ templates); [by apply elem_of_nil in Hin|done].
  - intros cat ts Hin. rewrite Hperm in Hin. apply entry_of_elem in Hin; [|done].
    rewrite Hentry in Hin. destruct (filter _ templates); by simplify_eq.
Qed.

(** X14. The Markdown list of the templates, when there is one at
    least: a header with their number, then the categories, then two
    closing lines. The categories come in increasing order of their
    names, compared character by character by code point (upper-case
    letters before lower-case ones), none twice; the heading of a
    category is its name as [str.title] gives it, so that two
    categories that differ in case share a heading. A category is
    listed exactly when a discovered template has it, and under it
    stand all templates of that category, in the order of discovery,
    four lines each; a description of more than 60 characters is cut
    to 60. The tool returns this text for what discovery returns. *)
Theorem templates_listed_by_category {B : Type} (dumps : json → string)
    (str_title : string → string) (TEMPLATE_BASE_DIR : string)
    (params : ListTemplatesInput) (w : @world B) (templates : list summary) :
  templates ≠ [] →
  ∃ groups : list (string * list summary),
    list_templates_text dumps str_title TEMPLATE_BASE_DIR MARKDOWN templates
    = PyStr.join nl
        ([ "# Available Templates";
           "";
           "Found **" +:+ pretty (length templates) +:+ "** templates in `"
             +:+ TEMPLATE_BASE_DIR +:+ "`:";
           "" ]
         ++ flat_map
              (λ group,
                 ["## " +:+ str_title group.1; ""]
                 ++ flat_map
                      (λ t,
                         [ "- **" +:+ s_name t +:+ "** (`" +:+ s_id t +:+ "`) v"
                             +:+ s_version t;
                           (if decide (60 < PyStr.len (s_description t))%nat
                            then "  - " +:+ PyStr.take 60 (s_description t) +:+ "..."
                            else "  - " +:+ s_description t);
                           "  - " +:+ pretty (s_phases_count t) +:+ " phases, "
                             +:+ pretty (s_tasks_count t) +:+ " tasks";
                           "" ])
                      group.2)
              groups
         ++ [ "---";
              "Use `focalboard_get_template` with a template_id to see details." ])
    ∧ StronglySorted (λ a b, String.le a b ∧ a ≠ b) groups.*1
    ∧ (∀ cat, cat ∈ groups.*1 ↔ ∃ t, t ∈ templates ∧ s_category t = cat)
    ∧ (∀ cat ts, (cat, ts) ∈ groups → ts = filter (λ t, s_category t = cat) templates)
    ∧ (lt_response_format params = MARKDOWN →
       discover (templates_dir w) (lt_category params) = Returned templates →
       focalboard_list_templates dumps str_title TEMPLATE_BASE_DIR params w
       = (Returned (list_templates_text dumps str_title TEMPLATE_BASE_DIR MARKDOWN templates),
          w)).
Proof.
  intros Hne. exists (sorted_categories templates).
  destruct (sorted_categories_groups templates) as (Hsorted & Hcats & Hgroups).
  split_and!; [|done|done|done|].
  - unfold list_templates_text. by destruct templates.
  - intros Hformat Hdisc.
    unfold focalboard_list_templates, bind, _discover_templates, ret.
    by rewrite Hdisc, Hformat.
Qed.
(** ** Truncation *)

Lemma pretty_N_go_length (k : nat) : ∀ (x : N) (s : string),
  (x < 10 ^ N.of_nat k)%N → (String.length (pretty_N_go x s) ≤ k + String.length s)%nat.
Proof.
  induction k as [|k IH]; intros x s Hx.
  - assert (x = 0%N) as -> by (cbn in Hx; lia). by rewrite pretty_N_go_0.
  - destruct (decide (x = 0%N)) as [->|Hne]; [rewrite pretty_N_go_0; lia|].
    rewrite pretty_N_go_step by lia.
    etrans; [apply IH|cbn [String.length]; lia].
    rewrite Nat2N.inj_succ, N.pow_succ_r' in Hx.
    apply N.Div0.div_lt_upper_bound. lia.
Qed.

Lemma pretty_nat_length (k n : nat) :
  (0 < k)%nat → (N.of_nat n < 10 ^ N.of_nat k)%N → (String.length (pretty n) ≤ k)%nat.
Proof.
  intros Hk Hn. unfold pretty, pretty_nat, pretty, pretty_N.
  destruct (decide (N.of_nat n = 0%N)); [cbn; lia|].
  etrans; [by apply (pretty_N_go_length k)|]. cbn. lia.
Qed.

Lemma str_take_length n s : String.length (str_take n s) = Nat.min n (String.length s).
Proof.
  revert s. induction n as [|n IH]; intros [|c s]; cbn; [done..|]. by rewrite IH.
Qed.

Lemma len_take s : ∀ n, PyStr.len (PyStr.take n s) = Nat.min n (PyStr.len s).
Proof.
  induction s as [|c s IH]; intros n; cbn [PyStr.take PyStr.len]; [lia|].
  destruct (PyStr.is_continuation c) eqn:Hc.
  - cbn [PyStr.len]. by rewrite Hc, IH.
  - destruct n as [|n]; [done|]. cbn [PyStr.len]. rewrite Hc, IH. lia.
Qed.

Lemma len_append (a b : string) : PyStr.len (a +:+ b) = (PyStr.len a + PyStr.len b)%nat.
Proof.
  induction a as [|c a IH]; [done|]. cbn [String.append PyStr.len].
  change (String.app a b) with (a +:+ b).
  destruct (PyStr.is_continuation c); rewrite IH; lia.
Qed.

Lemma len_le_length (s : string) : (PyStr.len s ≤ String.length s)%nat.
Proof.
  induction s as [|c s IH]; cbn; [lia|]. destruct (PyStr.is_continuation c); lia.
Qed.

(** X15. Counted in characters: a response of at most
    [CHARACTER_LIMIT] characters is returned as it is. A longer one (of
    fewer than 10^90 characters) is cut to its first 24800 characters
    followed by a notice that tells its length, and what is returned is
    within the limit. *)
Theorem truncated_response_fits (result : string) (item_count : nat) :
  (N.of_nat (PyStr.len result) < 10 ^ 90)%N →
  (Z.of_nat (PyStr.len (Tools._truncate_response result item_count))
   ≤ Tools.CHARACTER_LIMIT)%Z ∧
  ((Z.of_nat (PyStr.len result) ≤ 25000)%Z →
   Tools._truncate_response result item_count = result) ∧
  ((25000 < Z.of_nat (PyStr.len result))%Z →
   Tools._truncate_response result item_count
   = PyStr.take (Z.to_nat 24800) result
     +:+ (nl +:+ nl +:+ "---" +:+ nl +:+ "**Response truncated** from "
          +:+ pretty (PyStr.len result) +:+ " to 25000 characters." +:+ nl)
     +:+ ("Use 'offset' parameter or 'query' filter to see more." +:+ nl) ∧
   Z.of_nat (PyStr.len (PyStr.take (Z.to_nat 24800) result)) = 24800%Z).
Proof.
  intros Hlen. unfold Tools._truncate_response, Tools.CHARACTER_LIMIT.
  destruct (decide (Z.of_nat (PyStr.len result) ≤ 25000)%Z) as [Hle|Hgt].
  - split; [done|]. split; [done|lia].
  - assert (Hd := pretty_nat_length 90 (PyStr.len result) ltac:(lia) Hlen).
    pose proof (len_le_length (pretty (PyStr.len result))) as Hp.
    change (25000 - 200)%Z with 24800%Z.
    split; [|split; [lia|]].
    + rewrite !len_append, len_take.
      change (PyStr.len nl) with 1%nat.
      change (PyStr.len "---") with 3%nat.
      change (PyStr.len "**Response truncated** from ") with 28%nat.
      change (PyStr.len " to ") with 4%nat.
      change (PyStr.len (pretty 25000%Z)) with 5%nat.
      change (PyStr.len " characters.") with 12%nat.
      change (PyStr.len "Use 'offset' parameter or 'query' filter to see more.") with 53%nat.
      lia.
    + intros _. split; [reflexivity|]. rewrite len_take. lia.
Qed.
(** ** Pages of cards *)

Lemma slice_window {A} (l : list A) (lo hi : Z) :
  (0 ≤ lo ≤ hi)%Z → Tools.slice l lo hi = take (Z.to_nat (hi - lo)) (drop (Z.to_nat lo) l).
Proof.
  intros H. unfold Tools.slice. cbv zeta.
  rewrite !(proj2 (Z.ltb_ge _ 0)) by lia.
  destruct (decide (Z.of_nat (length l) ≤ lo)%Z).
  - rewrite !drop_ge by lia. by rewrite !take_nil.
  - rewrite (Z.min_l lo) by lia. destruct (decide (hi ≤ Z.of_nat (length l))%Z).
    + by rewrite Z.min_l by lia.
    + rewrite Z.min_r by lia. rewrite !take_ge; [done|rewrite length_drop; lia..].
Qed.

Lemma list_cards_page_window (all_cards : list json) (offset limit : Z) :
  (0 ≤ offset)%Z → (1 ≤ limit)%Z →
  let page := Tools.list_cards_page all_cards offset limit in
  page.1 = take (Z.to_nat limit) (drop (Z.to_nat offset) all_cards) ∧
  (page.2 = true ↔ (offset + limit < Z.of_nat (length all_cards))%Z) ∧
  (page.2 = true → Z.of_nat (length page.1) = limit) ∧
  (page.2 = false → page.1 = drop (Z.to_nat offset) all_cards).
Proof.
  intros Ho Hl page.
  assert (Hpage : page.1 = take (Z.to_nat limit) (drop (Z.to_nat offset) all_cards)).
  { unfold page, Tools.list_cards_page. cbn [fst]. rewrite slice_window by lia.
    f_equal. lia. }
  assert (Hmore : page.2 = (offset + Z.of_nat (length page.1) <? Z.of_nat (length all_cards))%Z)
    by done.
  assert (Hlen : length page.1 = Nat.min (Z.to_nat limit) (length all_cards - Z.to_nat offset))
    by by rewrite Hpage, length_take, length_drop.
  split; [done|]. rewrite Hmore, Z.ltb_lt. split; [lia|]. split; [lia|].
  rewrite Z.ltb_ge. intros Hend. rewrite Hpage. apply take_ge. rewrite length_drop. lia.
Qed.

(** ** Searching cards *)

Lemma lower_upper_char c : PyStr.to_lower (PyStr.to_upper c) = PyStr.to_lower c.
Proof. by destruct c as [[] [] [] [] [] [] [] []]. Qed.

Lemma lower_lower_char c : PyStr.to_lower (PyStr.to_lower c) = PyStr.to_lower c.
Proof. by destruct c as [[] [] [] [] [] [] [] []]. Qed.

Lemma lower_upper s : PyStr.lower (PyStr.upper s) = PyStr.lower s.
Proof. induction s as [|c s IH]; cbn; [done|]. by rewrite lower_upper_char, IH. Qed.

Lemma lower_lower s : PyStr.lower (PyStr.lower s) = PyStr.lower s.
Proof. induction s as [|c s IH]; cbn; [done|]. by rewrite lower_lower_char, IH. Qed.

Lemma slice_from_start {A} (l : list A) (limit : Z) :
  (0 ≤ limit)%Z → Tools.slice l 0 limit = take (Z.to_nat limit) l.
Proof. intros H. rewrite slice_window by lia. cbn [Z.to_nat drop]. f_equal. lia. Qed.

Lemma filter_result_titles (query_lower : string) (cards : list json) :
  Tools.filter_result
    (λ card,
       Tools.and_then (Tools.get card "title" (JStr ""))
         (λ title, Tools.and_then (Tools.lower_of title)
            (λ title_lower, Tools.Ok (PyStr.contains query_lower title_lower))))
    cards
  = if forallb Tools.titled_card cards
    then Tools.Ok (filter (λ c, PyStr.contains query_lower (PyStr.lower (Tools.title_of c)) = true)
                     cards)
    else Tools.Raise Tools.AttributeError.
Proof.
  induction cards as [|c cards IH]; [done|].
  cbn [Tools.filter_result forallb]. rewrite IH. clear IH.
  destruct c as [| | | | |members]; try done. cbn [Tools.get Tools.and_then Tools.titled_card].
  assert (Ht : Tools.title_of (JObj members)
               = match entry "title" members with Some (JStr s) => s | _ => "" end) by done.
  destruct (entry "title" members) as [[| | |s| |]|]; try done; cbn [default from_option id andb Tools.lower_of
    Tools.and_then].
  - destruct (PyStr.contains query_lower (PyStr.lower s)) eqn:Hc;
      destruct (forallb _ cards); cbn [Tools.and_then]; try done.
    + rewrite filter_cons_True; [done|]. by rewrite Ht.
    + rewrite filter_cons_False; [done|]. by rewrite Ht, Hc.
  - match goal with |- context [if ?b then _ :: _ else _] => destruct b eqn:Hc end;
      destruct (forallb _ cards); cbn [Tools.and_then]; try done.
    + rewrite filter_cons_True; [done|]. by rewrite Ht.
    + rewrite filter_cons_False; [done|]. by rewrite Ht, Hc.
Qed.

Lemma matching_cards_titles (cards : list json) (query : string) (limit : Z) :
  (1 ≤ limit)%Z →
  (forallb Tools.titled_card cards = true →
   Tools.matching_cards cards query limit
   = Tools.Ok (take (Z.to_nat limit)
                 (filter (λ c, PyStr.contains (PyStr.lower query)
                                 (PyStr.lower (Tools.title_of c)) = true) cards))) ∧
  (forallb Tools.titled_card cards = false →
   Tools.matching_cards cards query limit = Tools.Raise Tools.AttributeError) ∧
  Tools.matching_cards cards (PyStr.upper query) limit = Tools.matching_cards cards query limit ∧
  Tools.matching_cards cards (PyStr.lower query) limit = Tools.matching_cards cards query limit.
Proof.
  intros Hl. unfold Tools.matching_cards. cbv zeta. rewrite !filter_result_titles.
  rewrite lower_upper, lower_lower. split; [|split; [|done]].
  - intros ->. cbn [Tools.and_then]. by rewrite slice_from_start by lia.
  - by intros ->.
Qed.
(** ** Statistics *)

Lemma store_key_total {o : json} (k : Tools.key) (d : Tools.pydict Z) :
  foldr Z.add 0%Z (Tools.store_key o k (default 0%Z (Tools.lookup_key k d) + 1)%Z d).*2
  = (foldr Z.add 0%Z d.*2 + 1)%Z.
Proof.
  induction d as [|[[o' k'] v'] d IH]; cbn; [done|].
  destruct (decide (k' = k)); cbn; [lia|]. rewrite IH. lia.
Qed.

Lemma store_key_Forall {V} (P : V → Prop) (o : json) (k : Tools.key) (v : V)
    (d : Tools.pydict V) :
  P v → Forall (λ e, P e.2) d → Forall (λ e, P e.2) (Tools.store_key o k v d).
Proof.
  intros Hv. induction 1 as [|[[o' k'] v'] d Hx Hd IH]; cbn.
  - by repeat constructor.
  - destruct (decide (k' = k)); constructor; done.
Qed.

Lemma store_key_positive (o : json) (k : Tools.key) (d : Tools.pydict Z) :
  Forall (λ e, (1 ≤ e.2)%Z) d →
  Forall (λ e, (1 ≤ e.2)%Z) (Tools.store_key o k (default 0%Z (Tools.lookup_key k d) + 1)%Z d).
Proof.
  induction 1 as [|[[o' k'] v'] d Hx Hd IH]; cbn.
  - repeat constructor. cbn. lia.
  - destruct (decide (k' = k)); constructor; cbn in *; try done. lia.
Qed.

Lemma count_values_total options prop_id cards : ∀ counts counts',
  Tools.count_values options prop_id counts cards = Tools.Ok counts' →
  Forall (λ e, (1 ≤ e.2)%Z) counts →
  foldr Z.add 0%Z counts'.*2 = (foldr Z.add 0%Z counts.*2 + Z.of_nat (length cards))%Z ∧
  Forall (λ e, (1 ≤ e.2)%Z) counts'.
Proof.
  induction cards as [|card cards IH]; intros counts counts' Hrun Hpos; cbn in Hrun.
  - simplify_eq. split; [cbn; lia|done].
  - destruct (Tools.count_value options prop_id counts card) as [c1|] eqn:H1; [|done].
    cbn in Hrun. unfold Tools.count_value in H1.
    destruct (Tools.get card "properties" (JObj [])) as [properties|]; [|done]. cbn in H1.
    destruct (Tools.get_at properties prop_id (JStr "")) as [val|]; [|done]. cbn in H1.
    destruct (Tools.key_of val) as [val_key|]; [|done]. cbn in H1.
    destruct (Tools.key_of (default (JStr "Unset") (Tools.lookup_key val_key options)))
      as [name_key|]; [|done]. cbn in H1. simplify_eq.
    apply IH in Hrun as [Hsum Hpos']; [|by apply store_key_positive].
    split; [|done]. rewrite Hsum, store_key_total. cbn [length]. lia.
Qed.

Lemma by_property_of_counts (cards : list json) (P : Tools.pydict Z → Prop) :
  (∀ options prop_id counts,
     Tools.count_values options prop_id [] cards = Tools.Ok counts → P counts) →
  ∀ card_properties by_property result,
    Tools.by_property_of card_properties cards by_property = Tools.Ok result →
    Forall (λ e, P e.2) by_property → Forall (λ e, P e.2) result.
Proof.
  intros HP. induction card_properties as [|prop props IH]; intros acc result Hrun Hacc;
    cbn in Hrun.
  - by simplify_eq.
  - destruct (Tools.get prop "type" JNull) as [type|]; [|done]. cbn in Hrun.
    destruct (Tools.is_str "select" type); [|by eapply IH].
    destruct (Tools.item prop "id") as [prop_id|]; [|done]. cbn in Hrun.
    destruct (Tools.item prop "name") as [prop_name|]; [|done]. cbn in Hrun.
    destruct (Tools.get prop "options" (JArr [])) as [listed|]; [|done]. cbn in Hrun.
    destruct (Tools.iterate listed) as [opts|]; [|done]. cbn in Hrun.
    destruct (Tools.options_by_id opts []) as [options|]; [|done]. cbn in Hrun.
    destruct (Tools.count_values options prop_id [] cards) as [counts|] eqn:Hc; [|done].
    cbn in Hrun.
    destruct (Tools.key_of prop_name) as [name_key|]; [|done]. cbn in Hrun.
    eapply IH; [done|]. apply store_key_Forall; [by eapply HP|done].
Qed.

(** X16. In the statistics of a board, the counts listed for a select
    property add up to the number of cards of the board, and every
    value listed was counted at least once. *)
Theorem statistics_count_every_card (board : json) (cards : list json) (total : nat)
    (by_property : Tools.pydict (Tools.pydict Z)) :
  Tools.board_statistics board cards = Tools.Ok (total, by_property) →
  total = length cards ∧
  Forall (λ e, foldr Z.add 0%Z e.2.*2 = Z.of_nat (length cards)
               ∧ Forall (λ c, (1 ≤ c.2)%Z) e.2) by_property.
Proof.
  unfold Tools.board_statistics. intros Hrun.
  destruct (Tools.get board "cardProperties" (JArr [])) as [listed|]; [|done]. cbn in Hrun.
  destruct (Tools.iterate listed) as [card_properties|]; [|done]. cbn in Hrun.
  destruct (Tools.by_property_of card_properties cards []) as [result|] eqn:Hby; [|done].
  cbn in Hrun. simplify_eq. split; [done|].
  eapply (by_property_of_counts cards
            (λ counts, foldr Z.add 0%Z counts.*2 = Z.of_nat (length cards)
                       ∧ Forall (λ c, (1 ≤ c.2)%Z) counts)); [|done|constructor].
  intros options prop_id counts Hc. by apply count_values_total in Hc.
Qed.

(** ** The cards of a phase *)

Lemma filter_result_elem {A} (f : A → Tools.result bool) (l r : list A) (x : A) :
  Tools.filter_result f l = Tools.Ok r → x ∈ r → x ∈ l ∧ f x = Tools.Ok true.
Proof.
  revert r. induction l as [|y l IH]; intros r Hrun Hx; cbn in Hrun.
  - simplify_eq. by apply elem_of_nil in Hx.
  - destruct (f y) as [keep|] eqn:Hy; [|done]. cbn in Hrun.
    destruct (Tools.filter_result f l) as [rest|]; [|done]. cbn in Hrun. simplify_eq.
    destruct keep.
    + apply elem_of_cons in Hx as [->|Hx].
      * split; [apply elem_of_cons; by left|done].
      * destruct (IH rest eq_refl Hx). split; [apply elem_of_cons; by right|done].
    + destruct (IH rest eq_refl Hx). split; [apply elem_of_cons; by right|done].
Qed.

Lemma starts_with_take (p s : string) :
  PyStr.starts_with p s = true → str_take (String.length p) s = p.
Proof.
  revert s. induction p as [|a p IH]; intros [|b s]; cbn; try done.
  destruct (Ascii.eqb a b) eqn:Hab; [|done]. apply Ascii.eqb_eq in Hab as ->.
  intros H. by rewrite IH.
Qed.

(** X17. No card is listed under two phases: for two different phase
    numbers between 0 and 12, the cards kept for the one and the cards
    kept for the other have no card in common, and both are cards of
    the board. *)
Theorem phases_share_no_card (cards : list json) (n m : Z) (l l' : list json) :
  (0 ≤ n ≤ 12)%Z → (0 ≤ m ≤ 12)%Z → n ≠ m →
  Tools.phase_cards_of cards n = Tools.Ok l →
  Tools.phase_cards_of cards m = Tools.Ok l' →
  l ⊆ cards ∧ l' ⊆ cards ∧ ∀ c, c ∈ l → c ∉ l'.
Proof.
  intros Hn Hm Hne Hl Hl'. unfold Tools.phase_cards_of in Hl, Hl'.
  split; [|split].
  - intros c Hc. by destruct (filter_result_elem _ _ _ c Hl Hc).
  - intros c Hc. by destruct (filter_result_elem _ _ _ c Hl' Hc).
  - intros c Hc Hc'.
    destruct (filter_result_elem _ _ _ c Hl Hc) as [_ H1].
    destruct (filter_result_elem _ _ _ c Hl' Hc') as [_ H2]. cbn beta in H1, H2.
    destruct (Tools.get c "title" (JStr "")) as [[| | |s| |]|]; try done.
    cbn [Tools.and_then Tools.startswith_of] in H1, H2.
    apply (f_equal (λ r, match r with Tools.Ok keep => keep | _ => false end)) in H1, H2.
    cbv beta iota in H1, H2. apply starts_with_take in H1, H2.
    assert (Hlen : ∀ k, (0 ≤ k ≤ 12)%Z → String.length (Tools.phase_pattern k) = 5%nat).
    { intros k Hk.
      assert (k = 0 ∨ k = 1 ∨ k = 2 ∨ k = 3 ∨ k = 4 ∨ k = 5 ∨ k = 6 ∨ k = 7 ∨ k = 8 ∨ k = 9
              ∨ k = 10 ∨ k = 11 ∨ k = 12)%Z as Hcases by lia.
      repeat (destruct Hcases as [->|Hcases]; [reflexivity|]). subst. reflexivity. }
    rewrite Hlen in H1, H2 by done. rewrite H1 in H2.
    assert (n = 0 ∨ n = 1 ∨ n = 2 ∨ n = 3 ∨ n = 4 ∨ n = 5 ∨ n = 6 ∨ n = 7 ∨ n = 8 ∨ n = 9
            ∨ n = 10 ∨ n = 11 ∨ n = 12)%Z as Hcn by lia.
    assert (m = 0 ∨ m = 1 ∨ m = 2 ∨ m = 3 ∨ m = 4 ∨ m = 5 ∨ m = 6 ∨ m = 7 ∨ m = 8 ∨ m = 9
            ∨ m = 10 ∨ m = 11 ∨ m = 12)%Z as Hcm by lia.
    clear -Hne H2 Hcn Hcm.
    destruct Hcn as [->|[->|[->|[->|[->|[->|[->|[->|[->|[->|[->|[->| ->]]]]]]]]]]]];
      destruct Hcm as [->|[->|[->|[->|[->|[->|[->|[->|[->|[->|[->|[->| ->]]]]]]]]]]]];
      first [done|vm_compute in H2; discriminate H2].
Qed.

(** ** Counting *)

Lemma length_filter_split {A} (P : A → Prop) `{∀ x, Decision (P x)} (l : list A) :
  (length (filter P l) + length (filter (λ x, ¬ P x) l) = length l)%nat.
Proof.
  induction l as [|x l IH]; [done|].
  destruct (decide (P x)).
  - rewrite filter_cons_True, (filter_cons_False (λ x, ¬ P x)) by tauto. cbn. lia.
  - rewrite filter_cons_False, (filter_cons_True (λ x, ¬ P x)) by tauto. cbn. lia.
Qed.

(** ** The tools in a session *)

Section ToolFacts.

Import Tools.

Context {B : Type}.
Variable serve : api_call → B → json * B.
Variable block_id : nat → string.
Variable now : Z.
Variable dumps : json → string.
Variable repr : json → string.
Variable _format_timestamp : json → string.
Variable percent : Z → nat → string.

Lemma bind_api_request {A} (method endpoint : string) (data : option json)
    (params : option (list (string * string))) (k : json → T A) (s : @session B)
    (answer : json) (b : B) :
  serve (ApiCall method endpoint data params) (remote s) = (answer, b) →
  bind (_api_request serve method endpoint data params) k s
  = k answer (Session b (calls s ++ [(ApiCall method endpoint data params, answer)]) (made s)).
Proof. intros H. unfold bind, _api_request. by rewrite H. Qed.

Lemma bind_api_request_at {A} (method endpoint : string) (data : option json)
    (params : option (list (string * string))) (k : json → T A) (b0 : B)
    (log : list (api_call * json)) (n : nat) (answer : json) (b : B) :
  serve (ApiCall method endpoint data params) b0 = (answer, b) →
  bind (_api_request serve method endpoint data params) k (Session b0 log n)
  = k answer (Session b (log ++ [(ApiCall method endpoint data params, answer)]) n).
Proof. apply (bind_api_request _ _ _ _ _ (Session b0 log n)). Qed.

(** *** Bulk creation *)

Lemma bulk_create_card_run (board_id : string) (i : nat) (card : list (string * json))
    (r : bulk_results) (s : @session B) (answer : json) (b : B) :
  is_Some (entry "title" card) →
  serve (card_post board_id card) (remote s) = (answer, b) →
  ∃ r',
    bulk_create_card serve repr board_id i card r s
    = (match error_of answer, answer with
       | Some _, _ | None, JObj _ => Ok r'
       | None, _ => Raise AttributeError
       end,
       Session b (calls s ++ [(card_post board_id card, answer)]) (made s)) ∧
    created r' = (created r + match error_of answer with Some _ => 0 | None => 1 end)%nat ∧
    failed r' = (failed r + match error_of answer with Some _ => 1 | None => 0 end)%nat ∧
    length (errors r') = (length (errors r) + match error_of answer with Some _ => 1 | None => 0 end)%nat.
Proof using serve repr.
  clear block_id now dumps _format_timestamp percent.
  intros [title Htitle] Hserve. unfold bulk_create_card.
  unfold bind at 1, lift at 1. cbn [item]. rewrite Htitle.
  unfold card_post in Hserve. rewrite Htitle in Hserve. cbn [default from_option id] in Hserve.
  rewrite (bind_api_request _ _ _ _ _ _ answer b Hserve).
  unfold card_post. rewrite Htitle. cbn [default from_option id].
  destruct (error_of answer) as [error|] eqn:Herr.
  - eexists. split; [reflexivity|]. cbn. rewrite length_app. cbn. lia.
  - destruct answer as [| | | | |members];
      try (exists (BulkResults (created r + 1) (failed r) (errors r) (ids r));
           split; [reflexivity|cbn; lia]).
    eexists. split; [reflexivity|]. cbn. lia.
Qed.

Lemma bulk_create_from_run (board_id : string) (cards : list (list (string * json))) :
  Forall (λ card, is_Some (entry "title" card)) cards →
  ∀ (i : nat) (r : bulk_results) (s : @session B),
  let run := bulk_create_from serve repr board_id i cards r s in
  ∃ (posted : list (list (string * json))) (answers : list json),
    posted `prefix_of` cards ∧
    length answers = length posted ∧
    calls run.2 = calls s ++ zip (map (card_post board_id) posted) answers ∧
    made run.2 = made s ∧
    match run.1 with
    | Ok r' =>
        posted = cards ∧
        created r' = (created r + length (filter (λ a, error_of a = None) answers))%nat ∧
        failed r' = (failed r + length (filter (λ a, error_of a ≠ None) answers))%nat ∧
        length (errors r') = (length (errors r) + (failed r' - failed r))%nat
    | Raise e =>
        e = AttributeError ∧
        ∃ a, last answers = Some a ∧ error_of a = None ∧ ∀ members, a ≠ JObj members
    end.
Proof using serve repr.
  clear block_id now dumps _format_timestamp percent.
  induction 1 as [|card cards Htitle Hall IH]; intros i r s run.
  - exists [], []. subst run. cbn. rewrite app_nil_r. repeat split; [|lia..]. apply prefix_nil.
  - subst run. cbn [bulk_create_from]. unfold bind.
    destruct (serve (card_post board_id card) (remote s)) as [answer b] eqn:Hserve.
    destruct (bulk_create_card_run board_id i card r s answer b Htitle Hserve)
      as (r1 & -> & Hc1 & Hf1 & He1).
    set (s1 := Session b _ _).
    assert (Hstop : ∀ e, error_of answer = None → (∀ members, answer ≠ JObj members) →
              ∃ posted answers,
                posted `prefix_of` card :: cards ∧ length answers = length posted ∧
                calls (Raise (A:=bulk_results) e, s1).2
                = calls s ++ zip (map (card_post board_id) posted) answers ∧
                made (Raise (A:=bulk_results) e, s1).2 = made s ∧
                e = e ∧ ∃ a, last answers = Some a ∧ error_of a = None
                             ∧ ∀ members, a ≠ JObj members).
    { intros e Herr Hobj. exists [card], [answer]. cbn.
      split; [by apply prefix_cons, prefix_nil|]. repeat split; try done. by exists answer. }
    assert (Hgo : error_of answer ≠ None ∨ (∃ members, answer = JObj members) →
              ∃ posted answers,
                posted `prefix_of` card :: cards ∧ length answers = length posted ∧
                calls (bulk_create_from serve repr board_id (S i) cards r1 s1).2
                = calls s ++ zip (map (card_post board_id) posted) answers ∧
                made (bulk_create_from serve repr board_id (S i) cards r1 s1).2 = made s ∧
                match (bulk_create_from serve repr board_id (S i) cards r1 s1).1 with
                | Ok r' =>
                    posted = card :: cards ∧
                    created r'
                    = (created r + length (filter (λ a, error_of a = None) answers))%nat ∧
                    failed r'
                    = (failed r + length (filter (λ a, error_of a ≠ None) answers))%nat ∧
                    length (errors r') = (length (errors r) + (failed r' - failed r))%nat
                | Raise e =>
                    e = AttributeError ∧
                    ∃ a, last answers = Some a ∧ error_of a = None
                         ∧ ∀ members, a ≠ JObj members
                end).
    { intros Hanswer.
      destruct (IH (S i) r1 s1) as (posted & answers & Hpre & Hlen & Hcalls & Hmade & Hout).
      exists (card :: posted), (answer :: answers).
      split; [by apply prefix_cons|]. split; [cbn; lia|].
      split; [rewrite Hcalls; subst s1; cbn [calls map zip zip_with]; by rewrite <-app_assoc|].
      split; [by rewrite Hmade|].
      destruct (bulk_create_from _ _ _ _ _ _ _).1 as [r'|e].
      - destruct Hout as (-> & Hc & Hf & He). split; [done|].
        destruct (error_of answer) as [error|] eqn:Herr.
        + rewrite filter_cons_False by (rewrite Herr; naive_solver).
          rewrite (filter_cons_True (λ a, error_of a ≠ None)) by by rewrite Herr.
          cbn [length]. lia.
        + rewrite filter_cons_True by done.
          rewrite (filter_cons_False (λ a, error_of a ≠ None)) by (rewrite Herr; naive_solver).
          cbn [length]. lia.
      - destruct Hout as (-> & a & Hlast & Ha). split; [done|]. exists a. split; [|done].
        destruct answers; [done|]. by rewrite last_cons, Hlast. }
    destruct (error_of answer) as [error|] eqn:Herr; [apply Hgo; by left|].
    destruct answer as [| | | | |members];
      try (destruct (Hstop AttributeError) as (p & a & ? & ? & ? & ? & _ & ?);
           [done..|exists p, a; by repeat split]).
    apply Hgo. right. by eexists.
Qed.

(** X18. Bulk creation posts the cards one by one, in the order given,
    with the default icon and no properties where a card has none. When
    it returns, every card was posted, and the numbers of created and
    failed cards it reports add up to the number of cards, a failed one
    being one the server answered with an error. It raises
    [AttributeError], leaving the cards posted so far on the board, when
    the server answers with a value that is not an object. *)
Theorem bulk_create_posts_every_card (params : BulkCreateCardsInput) (s : @session B) :
  Forall (λ card, is_Some (entry "title" card)) (bk_cards params) →
  let run := focalboard_bulk_create_cards serve repr params s in
  ∃ (posted : list (list (string * json))) (answers : list json),
    posted `prefix_of` bk_cards params ∧
    length answers = length posted ∧
    calls run.2
    = calls s
      ++ zip (map (λ card,
                     ApiCall "POST" ("/boards/" +:+ bk_board_id params +:+ "/cards")
                       (Some (JObj [ ("title", default JNull (entry "title" card));
                                     ("icon", default (JStr "📋") (entry "icon" card));
                                     ("properties",
                                      default (JObj []) (entry "properties" card)) ]))
                       (Some [("disable_notify", "true")]))
                posted)
          answers ∧
    match run.1 with
    | Ok text =>
        posted = bk_cards params ∧
        ∃ results,
          text = PyStr.join nl (bulk_lines results) ∧
          created results = length (filter (λ a, error_of a = None) answers) ∧
          failed results = length (filter (λ a, error_of a ≠ None) answers) ∧
          (created results + failed results = length (bk_cards params))%nat ∧
          length (errors results) = failed results
    | Raise e =>
        e = AttributeError ∧
        ∃ a, last answers = Some a ∧ error_of a = None ∧ ∀ members, a ≠ JObj members
    end.
Proof using serve repr.
  clear block_id now dumps _format_timestamp percent.
  intros Htitles run.
  destruct (bulk_create_from_run (bk_board_id params) (bk_cards params) Htitles 0
              (BulkResults 0 0 [] []) s)
    as (posted & answers & Hpre & Hlen & Hcalls & Hmade & Hout).
  exists posted, answers. split; [done|]. split; [done|].
  unfold card_post in Hcalls.
  subst run. unfold focalboard_bulk_create_cards, bind.
  destruct (bulk_create_from serve repr (bk_board_id params) 0 (bk_cards params) _ s)
    as [[r'|e] s'] eqn:Hrun; cbn [fst snd] in *.
  - split; [done|]. destruct Hout as (-> & Hc & Hf & He). split; [done|].
    exists r'. cbn [created failed errors length] in *.
    split; [done|]. split; [lia|]. split; [lia|]. split; [|lia].
    rewrite Hc, Hf, <-Hlen. cbn. apply length_filter_split.
  - by split.
Qed.

(** *** Updating a card *)

Lemma entry_dict_update (k : string) (new : list (string * json)) :
  NoDup new.*1 →
  ∀ current,
    entry k (dict_update current new)
    = match entry k new with Some v => Some v | None => entry k current end.
Proof.
  unfold dict_update.
  induction new as [|[k0 v0] new IH]; intros Hnd current; cbn [fold_left entry fst snd];
    [done|].
  cbn in Hnd. apply NoDup_cons in Hnd as [Hk0 Hnd]. rewrite IH by done.
  destruct (decide (k0 = k)) as [->|Hne].
  - apply entry_None_keys in Hk0. by rewrite Hk0, entry_put_entry_eq.
  - by rewrite entry_put_entry_ne.
Qed.

(** X19. When the card is found and properties are given, the tool
    sends one PATCH whose properties are those of the card overridden
    by the given ones: a given property has the given value, any other
    keeps the value of the card. The icon and the title are sent when
    given; the answer of the server decides the message. *)
Theorem update_merges_properties (params : UpdateCardPropertiesInput) (s : @session B)
    (cards : list json) (b : B) (card : json) (current new : list (string * json)) :
  let read := ApiCall "GET" ("/boards/" +:+ up_board_id params +:+ "/blocks?type=card")
                None None in
  serve read (remote s) = (JArr cards, b) →
  find_card cards (up_card_id params) = Ok (Some card) →
  and_then (get card "fields" (JObj [])) (λ fields, get fields "properties" (JObj []))
  = Ok (JObj current) →
  up_properties params = Some new →
  NoDup new.*1 →
  ∃ merged,
    (∀ k, entry k merged
          = match entry k new with Some v => Some v | None => entry k current end) ∧
    let patch :=
      ApiCall "PATCH" ("/boards/" +:+ up_board_id params +:+ "/blocks/" +:+ up_card_id params)
        (Some (JObj ([("updatedFields",
                       JObj ([("properties", JObj merged)]
                             ++ match up_icon params with
                                | Some icon => [("icon", JStr icon)]
                                | None => []
                                end))]
                     ++ match up_title params with
                        | Some title => [("title", JStr title)]
                        | None => []
                        end)))
        None in
    focalboard_update_card_properties serve repr params s
    = (Ok (match error_of (serve patch b).1 with
           | Some error => "Error: " +:+ fmt repr error
           | None => "Card `" +:+ up_card_id params +:+ "` updated successfully!"
           end),
       Session (serve patch b).2
         (calls s ++ [(read, JArr cards); (patch, (serve patch b).1)]) (made s)).
Proof.
  intros read Hread Hfind Hprops Hnew Hnd.
  exists (dict_update current new). split; [intros k; by apply entry_dict_update|].
  intros patch. unfold focalboard_update_card_properties.
  rewrite (bind_api_request _ _ _ _ _ _ _ _ Hread). fold read.
  cbn [error_of]. unfold bind at 1, lift at 1. cbn [iterate].
  unfold bind at 1, lift at 1. rewrite Hfind.
  unfold bind at 1, lift at 1. unfold update_data_of. rewrite Hnew.
  destruct (get card "fields" (JObj [])) as [fields|]; [|done]. cbn [and_then] in Hprops |- *.
  rewrite Hprops. cbn [and_then].
  destruct (serve patch b) as [answer b'] eqn:Hpatch. cbn [fst snd].
  unfold patch in Hpatch.
  destruct (up_icon params) as [icon|], (up_title params) as [title|];
    cbn [app] in Hpatch |- *;
    try destruct (negb (bool_decide (title = "")));
    rewrite (bind_api_request_at _ _ _ _ _ _ _ _ _ _ Hpatch);
    rewrite <-app_assoc; by destruct (error_of answer).
Qed.

(** X20. Called with no properties, no icon and no title, or an empty
    one, the tool reads the cards of the board and sends nothing
    else. *)
Theorem update_without_change_sends_nothing (params : UpdateCardPropertiesInput)
    (s : @session B) (cards : list json) (b : B) :
  let read := ApiCall "GET" ("/boards/" +:+ up_board_id params +:+ "/blocks?type=card")
                None None in
  serve read (remote s) = (JArr cards, b) →
  up_properties params = None →
  up_icon params = None →
  up_title params = None ∨ up_title params = Some "" →
  let run := focalboard_update_card_properties serve repr params s in
  run.2 = Session b (calls s ++ [(read, JArr cards)]) (made s) ∧
  match find_card cards (up_card_id params) with
  | Ok (Some _) =>
      run.1 = Ok "Error: No updates provided. Specify title, icon, or properties to update."
  | Ok None =>
      run.1 = Ok ("Error: Card `" +:+ up_card_id params +:+ "` not found on board `"
                  +:+ up_board_id params +:+ "`")
  | Raise e => run.1 = Raise e
  end.
Proof.
  intros read Hread Hprops Hicon Htitle run.
  assert (Hrun : run
    = (match find_card cards (up_card_id params) with
       | Ok (Some _) =>
           Ok "Error: No updates provided. Specify title, icon, or properties to update."
       | Ok None =>
           Ok ("Error: Card `" +:+ up_card_id params +:+ "` not found on board `"
               +:+ up_board_id params +:+ "`")
       | Raise e => Raise e
       end,
       Session b (calls s ++ [(read, JArr cards)]) (made s))).
  { subst run. unfold focalboard_update_card_properties.
    rewrite (bind_api_request _ _ _ _ _ _ _ _ Hread). fold read.
    cbn [error_of]. unfold bind at 1, lift at 1. cbn [iterate].
    unfold bind at 1, lift at 1.
    destruct (find_card cards (up_card_id params)) as [[card|]|e]; [|done..].
    unfold bind at 1, lift at 1. unfold update_data_of. rewrite Hprops, Hicon.
    by destruct Htitle as [->| ->]. }
  rewrite Hrun. split; [done|]. by destruct (find_card _ _) as [[?|]|?].
Qed.

(** *** Adding a checklist *)

Lemma generate_block_ids_run (n : nat) : ∀ (s : @session B),
  generate_block_ids block_id n s
  = (Ok (map block_id (seq (made s) n)), Session (remote s) (calls s) (made s + n)).
Proof.
  induction n as [|n IH]; intros s; cbn [generate_block_ids seq map].
  - unfold ret. rewrite Nat.add_0_r. by destruct s.
  - unfold bind at 1, _generate_block_id at 1. unfold bind at 1. rewrite IH.
    unfold ret. cbn [made remote calls]. f_equal. f_equal. lia.
Qed.

(** X21. The checklist tool posts, in one call, a text block for the
    header, when one is given and not empty, followed by one unchecked
    checkbox per item, with identifiers drawn in that order. If the
    server answers the post with an error, nothing else is sent. If
    not, and the card is found with a list as content order, the new
    identifiers are appended to that order in one PATCH. *)
Theorem checklist_tool_appends_in_order (params : BulkAddChecklistInput) (s : @session B) :
  let header := match ck_header params with
                | Some h => if decide (h = "") then [] else [h]
                | None => []
                end in
  let n := (length header + length (ck_items params))%nat in
  let ids := map block_id (seq (made s) n) in
  let new_blocks :=
    zip_with (λ id h, new_block now (ck_board_id params) (ck_card_id params) id "text" h [])
      ids header
    ++ zip_with (λ id item,
                   new_block now (ck_board_id params) (ck_card_id params) id "checkbox" item
                     [("value", JBool false)])
         (drop (length header) ids) (ck_items params) in
  let post := ApiCall "POST" ("/boards/" +:+ ck_board_id params +:+ "/blocks")
                (Some (JArr new_blocks)) None in
  let read := ApiCall "GET" ("/boards/" +:+ ck_board_id params +:+ "/blocks?type=card")
                None None in
  let run := focalboard_add_checklist serve block_id now repr params s in
  ∀ (answer : json) (b1 : B),
    serve post (remote s) = (answer, b1) →
    (∀ error, error_of answer = Some error →
       run = (Ok ("Error: " +:+ fmt repr error),
              Session b1 (calls s ++ [(post, answer)]) (made s + n))) ∧
    (error_of answer = None →
     ∀ (cards : list json) (b2 : B) (card : json) (order : list json),
       serve read b1 = (JArr cards, b2) →
       find_card cards (ck_card_id params) = Ok (Some card) →
       and_then (get card "fields" (JObj [])) (λ fields, get fields "contentOrder" (JArr []))
       = Ok (JArr order) →
       let patch :=
         ApiCall "PATCH"
           ("/boards/" +:+ ck_board_id params +:+ "/blocks/" +:+ ck_card_id params)
           (Some (JObj [("updatedFields",
                         JObj [("contentOrder", JArr (order ++ map JStr ids))])]))
           None in
       run = (Ok ("Checklist added!" +:+ nl +:+ nl +:+ "**Items**: "
                  +:+ pretty (length (ck_items params)) +:+ nl +:+ "**Header**: "
                  +:+ match header with [] => "No" | _ => "Yes" end),
              Session (serve patch b2).2
                (calls s ++ [(post, answer); (read, JArr cards); (patch, (serve patch b2).1)])
                (made s + n))).
Proof.
  intros header n ids new_blocks post read run answer b1 Hpost.
  assert (Hrun : run
    = (focalboard_add_checklist serve block_id now repr params s)) by done.
  unfold focalboard_add_checklist in Hrun.
  assert (Hstart : ∃ with_header : bool,
    header = (if with_header then [default "" (ck_header params)] else []) ∧
    match ck_header params with
    | Some h => negb (bool_decide (h = ""))
    | None => false
    end = with_header).
  { subst header. destruct (ck_header params) as [h|]; [|by exists false].
    destruct (decide (h = "")) as [->|Hne]; [by exists false|].
    exists true. by rewrite bool_decide_eq_false_2. }
  destruct Hstart as (with_header & Hheader & Hwith). rewrite Hwith in Hrun.
  assert (Hids : run
    = bind (_api_request serve "POST" ("/boards/" +:+ ck_board_id params +:+ "/blocks")
              (Some (JArr new_blocks)) None)
        (λ result,
           match error_of result with
           | Some error => ret ("Error: " +:+ fmt repr error)
           | None =>
               bind (extend_content_order serve (ck_board_id params) (ck_card_id params) ids)
                 (λ _, ret ("Checklist added!" +:+ nl +:+ nl +:+ "**Items**: "
                            +:+ pretty (length (ck_items params)) +:+ nl +:+ "**Header**: "
                            +:+ (if with_header then "Yes" else "No")))
           end)
        (Session (remote s) (calls s) (made s + n))).
  { rewrite Hrun. subst new_blocks ids n. rewrite Hheader. clear.
    destruct with_header; cbn [length Nat.add].
    - unfold bind at 1. unfold bind at 1, _generate_block_id at 1. unfold ret at 1.
      unfold bind at 1. rewrite generate_block_ids_run. cbn [made remote calls seq map].
      cbn [zip_with app drop]. rewrite zip_with_nil_r. cbn [app].
      by replace (made s + S (length (ck_items params)))%nat
        with (S (made s) + length (ck_items params))%nat by lia.
    - unfold bind at 1, ret at 1. unfold bind at 1. rewrite generate_block_ids_run.
      rewrite zip_with_nil_r. cbn [zip_with app drop map Nat.add]. done. }
  rewrite Hids. rewrite (bind_api_request_at _ _ _ _ _ _ _ _ _ _ Hpost). fold post.
  split.
  - by intros error ->.
  - intros -> cards b2 card order Hread Hfind Horder patch.
    unfold bind at 1, extend_content_order.
    rewrite (bind_api_request_at _ _ _ _ _ _ _ _ _ _ Hread). fold read.
    unfold bind at 1, lift at 1. rewrite Hfind.
    destruct (get card "fields" (JObj [])) as [fields|]; [|done]. cbn [and_then] in Horder.
    unfold bind at 1, lift at 1. unfold bind at 1, lift at 1. rewrite Horder.
    destruct (serve patch b2) as [patched b3] eqn:Hpatch. unfold patch in Hpatch.
    rewrite (bind_api_request_at _ _ _ _ _ _ _ _ _ _ Hpatch). fold patch.
    unfold ret. cbn [fst snd]. rewrite <-!app_assoc. cbn [app].
    rewrite Hheader. by destruct with_header.
Qed.

(** *** The tasks of a phase *)

(** X22. When the board shows no property named [Status] (it has none,
    or the request for the board failed), [status_prop_id] is never
    assigned: as soon as the phase has a card, the tool raises
    [NameError] in both formats, after its two requests. *)
Theorem phase_tasks_need_a_status_property (params : GetPhaseTasksInput) (s : @session B)
    (cards : list json) (b1 : B) (board : json) (b2 : B) (c : json) (rest : list json)
    (properties : list (string * json)) :
  let read_cards := ApiCall "GET" ("/boards/" +:+ pt_board_id params +:+ "/cards")
                      None None in
  let read_board := ApiCall "GET" ("/boards/" +:+ pt_board_id params) None None in
  serve read_cards (remote s) = (JArr cards, b1) →
  serve read_board b1 = (board, b2) →
  phase_cards_of cards (pt_phase_number params) = Ok (c :: rest) →
  status_of_board board = Ok None →
  get c "properties" (JObj []) = Ok (JObj properties) →
  focalboard_get_phase_tasks serve dumps repr percent params s
  = (Raise NameError,
     Session b2 (calls s ++ [(read_cards, JArr cards); (read_board, board)]) (made s)).
Proof.
  intros read_cards read_board Hcards Hboard Hphase Hstatus Hprops.
  unfold focalboard_get_phase_tasks.
  rewrite (bind_api_request _ _ _ _ _ _ _ _ Hcards). fold read_cards.
  cbn [error_of]. unfold bind at 1, lift at 1. rewrite Hphase.
  rewrite (bind_api_request_at _ _ _ _ _ _ _ _ _ _ Hboard). fold read_board.
  unfold bind at 1, lift at 1. rewrite Hstatus. rewrite <-app_assoc. cbn [app].
  assert (Hst : status_of None c = Raise NameError).
  { unfold status_of. by rewrite Hprops. }
  destruct (pt_response_format params).
  - unfold bind at 1, lift at 1. cbn [status_counts_of]. by rewrite Hst.
  - unfold bind at 1, lift at 1. cbn [map_result]. unfold task_json.
    destruct c as [| | | | |members]; try done. cbn [get and_then] in *. by rewrite Hst.
Qed.

(** *** Listing and searching cards *)

(** X23. For an offset of at least 0 and a limit of at least 1, the
    JSON answer of [focalboard_list_cards] holds the [limit] cards that
    follow the first [offset] ones, or as many as there are. It
    announces more cards exactly when cards remain after the page, and
    then the next offset is [offset + limit]; when it announces none,
    the page reaches the last card. The tool sends its one request and
    does not raise. *)
Theorem list_cards_pages (params : ListCardsInput) (s : @session B) (all_cards : list json)
    (b : B) :
  let read := ApiCall "GET" ("/boards/" +:+ lc_board_id params +:+ "/cards") None None in
  let offset := lc_offset params in
  let limit := lc_limit params in
  (0 ≤ offset)%Z → (1 ≤ limit)%Z →
  lc_response_format params = JSON →
  serve read (remote s) = (JArr all_cards, b) →
  let page := take (Z.to_nat limit) (drop (Z.to_nat offset) all_cards) in
  let more := bool_decide (offset + limit < Z.of_nat (length all_cards))%Z in
  focalboard_list_cards serve dumps repr _format_timestamp params s
  = (Ok (_truncate_response
           (dumps (JObj [ ("total", JNum (Z.of_nat (length all_cards)));
                          ("count", JNum (Z.of_nat (length page)));
                          ("offset", JNum offset);
                          ("has_more", JBool more);
                          ("next_offset", if more then JNum (offset + limit) else JNull);
                          ("cards", JArr page) ]))
           (length page)),
     Session b (calls s ++ [(read, JArr all_cards)]) (made s)) ∧
  (more = false → page = drop (Z.to_nat offset) all_cards).
Proof.
  intros read offset limit Ho Hl Hformat Hread page more.
  destruct (list_cards_page_window all_cards offset limit Ho Hl)
    as (Hpage & Hmore & Hfull & Hend).
  cbv zeta in Hpage, Hmore, Hfull, Hend.
  unfold focalboard_list_cards.
  rewrite (bind_api_request _ _ _ _ _ _ _ _ Hread). fold read offset limit.
  cbn [error_of]. cbv zeta.
  destruct (list_cards_page all_cards offset limit) as [cards has_more] eqn:Hp.
  cbn [fst snd] in *. subst cards. subst page. rewrite Hformat.
  assert (has_more = more) as ->.
  { subst more. destruct has_more.
    - symmetry. apply bool_decide_eq_true. by apply Hmore.
    - symmetry. apply bool_decide_eq_false. intros H. by apply Hmore in H. }
  split.
  - unfold ret. destruct more eqn:Hm; [|done]. by rewrite (Hfull eq_refl).
  - intros Hm. apply Hend. by rewrite <-Hm.
Qed.

(** X24. The search keeps, in the order of the board, the first
    [limit] cards whose title contains the query, letter case apart,
    and in the JSON format returns them with their number. It raises
    [AttributeError] as soon as one card of the board, matching or not,
    is not an object or has a title that is not a string. *)
Theorem search_matches_titles (params : SearchCardsInput) (s : @session B)
    (cards : list json) (b : B) :
  let read := ApiCall "GET" ("/boards/" +:+ sc_board_id params +:+ "/cards") None None in
  (1 ≤ sc_limit params)%Z →
  sc_response_format params = JSON →
  serve read (remote s) = (JArr cards, b) →
  let found :=
    take (Z.to_nat (sc_limit params))
      (filter (λ c, PyStr.contains (PyStr.lower (sc_query params))
                      (PyStr.lower (title_of c)) = true) cards) in
  focalboard_search_cards serve dumps repr _format_timestamp params s
  = (if forallb titled_card cards
     then Ok (dumps (JObj [ ("query", JStr (sc_query params));
                            ("count", JNum (Z.of_nat (length found)));
                            ("cards", JArr found) ]))
     else Raise AttributeError,
     Session b (calls s ++ [(read, JArr cards)]) (made s)).
Proof.
  intros read Hl Hformat Hread found.
  destruct (matching_cards_titles cards (sc_query params) (sc_limit params) Hl)
    as (Hok & Hraise & _).
  unfold focalboard_search_cards.
  rewrite (bind_api_request _ _ _ _ _ _ _ _ Hread). fold read.
  cbn [error_of]. unfold bind, lift.
  destruct (forallb titled_card cards).
  - rewrite (Hok eq_refl). by rewrite Hformat.
  - by rewrite (Hraise eq_refl).
Qed.

End ToolFacts.
(** * The properties on concrete runs *)

Import Examples.

Example status_key_not_started : status_key PyStr.title "not-started" = "Not Started".
Proof. reflexivity. Qed.

Example title_after_apostrophe_and_digit : PyStr.title "they're x1y" = "They'Re X1Y".
Proof. reflexivity. Qed.

(** Two characters of two bytes each, then one of one byte. *)
Example len_counts_characters : PyStr.len "éèa" = 3 ∧ String.length "éèa" = 5.
Proof. split; reflexivity. Qed.

Example take_keeps_characters_whole : PyStr.take 1 "éèa" = "é".
Proof. reflexivity. Qed.

Example sorted_with_none : sorted_titles {[ None; Some "a" ]} = Raised TypeError.
Proof. vm_compute. reflexivity. Qed.

Example sorted_strings :
  sorted_titles {[ Some "b"; Some "a" ]} = Returned [Some "a"; Some "b"].
Proof. vm_compute. reflexivity. Qed.

Example replace_leftmost : PyStr.replace "aaa" "aa" "b" = "ba".
Proof. reflexivity. Qed.

Example replace_empty_pattern : PyStr.replace "ab" "" "-" = "-a-b-".
Proof. reflexivity. Qed.

Example substitute_order_matters :
  _substitute_variables "${A}" [("B", "x"); ("A", "${B}")] = "${B}".
Proof. reflexivity. Qed.

(** The tree of [mixed]: the valid template is not returned. *)
Example discover_mixed : discover mixed None = Raised AttributeError.
Proof. reflexivity. Qed.

Example discover_undecodable : discover undecodable None = Raised UnicodeDecodeError.
Proof. reflexivity. Qed.

(** Without the broken file the same template is listed. *)
Example discover_small :
  discover (store small) None = Returned (valid_summaries (store small) None).
Proof. reflexivity. Qed.

(** One phase, one task, a willing server: one card and no error. *)
Example instantiate_small :
  (run_instantiate willing small).1
  = Returned (PyStr.join nl
                (instantiate_lines url demo_meta "Acme" "b0" "Acme Board" 1 true [])).
Proof. vm_compute. reflexivity. Qed.

(** The reference server answers a card request with an error or an
    object. *)
Lemma mem_serve_answers_object bid data s : answers_object (mem_serve (CreateCard bid data) s).1.
Proof. unfold mem_serve. by destruct (bool_decide _). Qed.

(** The run of [demo] against a server that refuses the card ["b"]: six
    requests, one error, five cards. *)
Lemma instantiate_collects_task_failures_witness :
  ∃ (new : list (request * response)) (view : request * response),
    (run_instantiate picky demo).1
    = Returned (PyStr.join nl
                  (instantiate_lines url demo_meta "Acme" "b0" "Acme Board"
                     (created_count (card_attempts new)) (negb (is_error view.2))
                     (failure_messages (card_attempts new))))
    ∧ length (failure_messages (card_attempts new)) + created_count (card_attempts new) = 6.
Proof.
  edestruct (instantiate_collects_task_failures mem_serve block_id url today now_iso 0%Z
               PyStr.title acme (start picky (store demo)))
    as (new & view & _ & _ & Hlength & Hreturns & _).
  - reflexivity.
  - reflexivity.
  - reflexivity.
  - reflexivity.
  - reflexivity.
  - apply mem_serve_answers_object.
  - exists new, view. split; [|exact Hlength].
    apply (Hreturns [] (store demo)); reflexivity.
Defined.

(** Against C1 as stated. With six refused cards the errors are six,
    and the report returned holds the fifth message but not the sixth.
    When the server answers a card request with a list, the run raises
    at the first task: one card request, no report. When the
    [instances] section lacks [active], and when the template is stored
    under another name in a tree that cannot be written, the run
    raises after the cards. *)
Lemma instantiate_report_drops_sixth_error :
  (∃ out w',
     run_instantiate refusing demo = (Returned out, w')
     ∧ failure_messages (exchanges w')
       = [ "Task 'a': API error (HTTP 500): refused";
           "Task 'b': API error (HTTP 500): refused";
           "Task 'c': API error (HTTP 500): refused";
           "Task 'd': API error (HTTP 500): refused";
           "Task 'e': API error (HTTP 500): refused";
           "Task 'f': API error (HTTP 500): refused" ]
     ∧ PyStr.contains "Task 'e': API error (HTTP 500): refused" out = true
     ∧ PyStr.contains "Task 'f': API error (HTTP 500): refused" out = false)
  ∧ (let run := focalboard_instantiate_template odd_serve block_id url today now_iso 0%Z
                  PyStr.title acme (start willing (store demo)) in
     run.1 = Raised AttributeError
     ∧ length (all_tasks demo) = 6
     ∧ length (card_attempts (exchanges run.2)) = 1)
  ∧ (run_instantiate willing untracked).1 = Raised KeyError
  ∧ (instantiate_in (read_only willing misnamed)).1 = Raised PermissionError.
Proof.
  split_and!.
  - do 2 eexists. split_and!; vm_compute; reflexivity.
  - split_and!; vm_compute; reflexivity.
  - vm_compute. reflexivity.
  - vm_compute. reflexivity.
Qed.

(** A server that refuses the board. *)
Lemma board_creation_failure_aborts_witness :
  run_instantiate no_boards small
  = (Returned "Error creating board: Permission denied.",
     World no_boards
       [(CreateBoard (board_data_of today acme small), RError "Permission denied.")]
       (store small) true 0).
Proof.
  apply (board_creation_failure_aborts mem_serve block_id url today now_iso 0%Z PyStr.title
           acme (start no_boards (store small)) small "Permission denied." no_boards);
    reflexivity.
Defined.

(** A board that lacks one task and has nothing extra. *)
Lemma diff_disjoint_and_complete_witness :
  let template_tasks := [TemplateTask None (Some "a") None None 0;
                         TemplateTask None (Some "b") None None 0] in
  let board_cards := [BoardCard None (Some "a") None] in
  missing_from_board template_tasks board_cards ∪ board_titles board_cards
  = template_titles template_tasks.
Proof.
  intros template_tasks board_cards.
  apply (diff_disjoint_and_complete template_tasks board_cards).
  vm_compute. reflexivity.
Defined.





(** A known token, a literal run and an unknown token. *)
Lemma substitute_token_by_token_witness :
  _substitute_variables (render [Tok "P"; Lit " board"; Tok "MISSING"]) [("P", "X")]
  = substitute_spec [Tok "P"; Lit " board"; Tok "MISSING"] [("P", "X")].
Proof.
  apply (substitute_token_by_token [Tok "P"; Lit " board"; Tok "MISSING"] [("P", "X")]).
  - repeat constructor.
  - repeat constructor.
Defined.

(** Against C6 as stated: the token [${B}] brought in by the value of
    [A] is itself replaced, because [B] comes later in the map; read
    token by token the result would be [${B}]. *)
Lemma substitute_resolves_introduced_token :
  _substitute_variables (render [Tok "A"]) [("A", "${B}"); ("B", "x")] = "x"
  ∧ substitute_spec [Tok "A"] [("A", "${B}"); ("B", "x")] = "${B}".
Proof. split; reflexivity. Qed.

(** With a Status property, the view shows it. *)
Lemma default_view_always_posted_witness :
  ∃ (w2 : @world mem_server) view_result,
    exchanges (run_instantiate willing with_status).2
    = exchanges w2
      ++ [(CreateBlocks "b0"
             [Block "blk0" "view" "b0" "b0" "Task Overview" (ViewFields "table" ["st"]) 0 0],
           view_result)].
Proof.
  edestruct (default_view_always_posted mem_serve block_id url today now_iso 0%Z PyStr.title
               acme (start willing (store with_status)) with_status) as (Hlog & _).
  - reflexivity.
  - reflexivity.
  - reflexivity.
  - vm_compute. reflexivity.
  - do 2 eexists. exact Hlog.
Defined.

(** Against C7 as stated: the schema of [small] has no Status property
    and the view is posted all the same. *)
Lemma default_view_posted_without_status :
  has_property "Status" (schema small) = false
  ∧ existsb (λ x, is_view_request x.1) (exchanges (run_instantiate willing small).2) = true.
Proof. split; vm_compute; reflexivity. Qed.

(** Tracking set and read back on the board ["b0"]; no template has the
    id ["t"], so that nothing follows the three lines. *)
Lemma tracking_round_trip_witness :
  ∃ w2,
    run_get_tracking (run_set_tracking (start drifted (store small))).2
    = (Returned (PyStr.join nl
                   [ "# Board Template Tracking";
                     "";
                     "**Board ID**: `b0`";
                     "**Board Title**: Acme Board";
                     "";
                     "## Template Information";
                     "- **Template ID**: `t`";
                     "- **Template Version**: 1.0.0";
                     "- **Upgrade Status**: current" ]), w2).
Proof.
  edestruct (tracking_round_trip mem_serve track (start drifted (store small)))
    as (_ & _ & upgrade & Hget & Hupgrade).
  - discriminate.
  - reflexivity.
  - reflexivity.
  - reflexivity.
  - vm_compute. reflexivity.
  - vm_compute. reflexivity.
  - vm_compute. reflexivity.
  - reflexivity.
  - eexists. destruct Hupgrade as [->|(t & current & [=] & _)].
    etrans; [exact Hget|]. reflexivity.
Defined.

(** Against C8 as stated. Set for the template [demo] at version 0.9.0
    and read back, the report carries a fourth value, the version
    1.0.0 the stored template is at. With a [template.json] in the
    tree that holds a list, or one that is not valid UTF-8, the
    tracking is set and reading it back raises. *)
Lemma tracking_read_says_more_or_raises :
  (∃ out w2,
     focalboard_get_board_tracking mem_serve {| gt_board_id := "b0" |}
       (focalboard_set_board_tracking mem_serve track_old (start drifted (store small))).2
     = (Returned out, w2)
     ∧ PyStr.contains "Template is now at v1.0.0" out = true)
  ∧ (run_set_tracking (start drifted mixed)).1
    = Returned (PyStr.join nl
                  [ "# Template Tracking Set"; ""; "**Board ID**: `b0`"; "";
                    "## Tracking Properties"; "- **Template ID**: `t`";
                    "- **Template Version**: 1.0.0"; "- **Upgrade Status**: current"; "";
                    "Use `focalboard_sync_template` to sync changes with the template." ])
  ∧ (run_get_tracking (run_set_tracking (start drifted mixed)).2).1 = Raised AttributeError
  ∧ (run_get_tracking (run_set_tracking (start drifted undecodable)).2).1
    = Raised UnicodeDecodeError.
Proof.
  split_and!.
  - do 2 eexists. split; vm_compute; reflexivity.
  - vm_compute. reflexivity.
  - vm_compute. reflexivity.
  - vm_compute. reflexivity.
Qed.


(** ** More runs *)

Import Cases.


(** The category [custom] of [littered] holds one of its two
    templates. *)
Lemma discover_filters_by_category_witness :
  Forall (λ s, s_category s = "custom") (valid_summaries littered (Some "custom"))
  ∧ valid_summaries littered (Some "custom")
    = filter (λ s, s_category s = "custom") (valid_summaries littered None).
Proof.
  destruct (proj2 (discover_filters_by_category littered "custom") ltac:(discriminate)
              (valid_summaries littered (Some "custom")) eq_refl) as [Hall Hfilter].
  split; [exact Hall|]. apply Hfilter. reflexivity.
Defined.


(** A plain file where the category should be, and one where the
    directory of the template should be. *)
Example save_over_plain_files :
  (_save_template demo "demo" "framework" (start willing (Some [("framework", CFile)]))).1
  = Raised NotADirectoryError
  ∧ (_save_template demo "demo" "framework"
       (start willing (Some [("framework", CDir [("demo", TFile)])]))).1
    = Raised FileExistsError.
Proof. split; reflexivity. Qed.


(** With a file that holds a list in the tree, both tools raise. *)
Example unknown_template_in_mixed_tree :
  (instantiate_in (start willing mixed)).1 = Raised AttributeError
  ∧ (run_sync (start willing mixed)).1 = Raised AttributeError.
Proof. split; reflexivity. Qed.


(** The board is created and then the tool raises. *)
Lemma instantiate_raises_without_active_witness :
  (run_instantiate willing untracked).1 = Raised KeyError
  ∧ templates_dir (run_instantiate willing untracked).2 = store untracked.
Proof.
  edestruct (instantiate_raises_without_active mem_serve block_id url today now_iso 0%Z
               PyStr.title acme
               (start willing (store untracked)) untracked)
    as (Hraised & Hdir & _).
  - reflexivity.
  - reflexivity.
  - reflexivity.
  - reflexivity.
  - apply mem_serve_answers_object.
  - split; [exact Hraised|exact Hdir].
Defined.

(** A dry run on the board of [drifted]. *)
Lemma sync_dry_run_only_reads_witness :
  templates_dir
    (focalboard_sync_template mem_serve block_id today now_iso rehearse
       (start drifted (store small))).2
  = store small.
Proof.
  apply (sync_dry_run_only_reads mem_serve block_id today now_iso rehearse
           (start drifted (store small))).
  left. reflexivity.
Defined.

(** The six tasks of [demo] pushed to the board of [drifted], which has
    none of them; the tasks have no icon and neither have the cards. *)
Lemma sync_creates_missing_cards_witness :
  ∃ posts,
    exchanges
      (focalboard_sync_template mem_serve block_id today now_iso push
         (start drifted (store demo))).2
    = [(GetBoard "b0", RObject (ApiObject (Some "b0") (Some "Acme Board") None None None));
       (GetCards "b0", RList (ms_cards_of "b0" drifted))] ++ posts
    ∧ posts.*1
      = map (λ title, CreateCard "b0" (CardData (Some title) None ∅))
          ["a"; "b"; "c"; "d"; "e"; "f"].
Proof.
  edestruct (sync_creates_missing_cards mem_serve block_id today now_iso push
               (start drifted (store demo)) demo)
    as (posts & head & Hlog & Hposts & _).
  - reflexivity.
  - reflexivity.
  - reflexivity.
  - reflexivity.
  - reflexivity.
  - reflexivity.
  - reflexivity.
  - apply (bool_decide_unpack _). vm_compute. exact I.
  - apply (bool_decide_unpack _). vm_compute. exact I.
  - exists posts. split; [exact Hlog|]. etrans; [exact Hposts|]. vm_compute. reflexivity.
Defined.

(** A checklist of two entries on the card ["c1"]. *)
Lemma checklist_blocks_follow_the_entries_witness :
  add_checklist mem_serve block_id 0%Z "b0" "c1" [] [ItemStr "one"; ItemStr "two"]
    (start drifted (store small))
  = (Returned tt,
     World
       (mem_serve (PatchContentOrder "b0" "c1" ["blk0"; "blk1"]) drifted).2
       [(CreateBlocks "b0"
           (zip_with (checkbox_block 0%Z "b0" "c1" []) ["blk0"; "blk1"]
              [ItemStr "one"; ItemStr "two"]),
         RList []);
        (PatchContentOrder "b0" "c1" ["blk0"; "blk1"], ROther)]
       (store small) true 2).
Proof.
  apply (proj1 (checklist_blocks_follow_the_entries mem_serve block_id 0%Z "b0" "c1" []
                  [ItemStr "one"; ItemStr "two"] (start drifted (store small)))).
  - discriminate.
  - discriminate.
Defined.

(** A text block added to the card ["c1"], which has no content
    order. *)
Lemma content_blocks_are_appended_witness :
  (add_content_blocks mem_serve block_id 0%Z "b0" "c1" []
     [ContentBlock (Some "text") (Some "Notes")] (start drifted (store small))).1
  = Returned tt
  ∧ (exchanges
       (add_content_blocks mem_serve block_id 0%Z "b0" "c1" []
          [ContentBlock (Some "text") (Some "Notes")] (start drifted (store small))).2).*1
    = [CreateBlocks "b0"
         (zip_with (content_block_of 0%Z "b0" "c1" []) ["blk0"]
            [ContentBlock (Some "text") (Some "Notes")]);
       GetCardBlocks "b0";
       PatchContentOrder "b0" "c1" ["blk0"]].
Proof.
  rewrite (content_blocks_are_appended mem_serve block_id 0%Z "b0" "c1" []
             [ContentBlock (Some "text") (Some "Notes")] (start drifted (store small))
             (ms_cards_of "b0" drifted) drifted).
  - split; reflexivity.
  - discriminate.
  - discriminate.
  - reflexivity.
Defined.

(** A task in progress of phase 1 under [full_schema]. *)
Lemma card_properties_are_status_and_phase_witness :
  "o2" ≠ ""
  ∧ ∃ name value p opts o,
      (name = "Status" ∧ value = status_key PyStr.title "in-progress"
       ∨ name = "Phase" ∧ value = "Phase " +:+ pretty 1%Z)
      ∧ property_map_of full_schema !! name = Some "st"
      ∧ p ∈ full_schema ∧ default "" (prop_name p) = name ∧ prop_options p = Some opts
      ∧ o ∈ opts ∧ default "" (opt_value o) = value ∧ default "" (opt_id o) = "o2".
Proof.
  apply (proj2 (card_properties_are_status_and_phase PyStr.title full_schema 1
                  (Task None (Some "Query") None (Some "in-progress") None None)) "st" "o2").
  vm_compute. reflexivity.
Defined.

(** [acme] gives no variables and [small] no board title. *)
Lemma instantiate_variables_defaults_witness :
  bd_title (board_data_of today acme small) = "Acme Board".
Proof.
  apply (proj2 (proj2 (proj2 (instantiate_variables_defaults today acme small)))).
  - reflexivity.
  - reflexivity.
  - reflexivity.
Defined.

(** A status in capitals. *)
Lemma status_key_is_normal_witness :
  status_key PyStr.title (PyStr.upper "in-progress") = status_key PyStr.title "in-progress"
  ∧ status_key PyStr.title "in-progress" = "In Progress".
Proof.
  destruct (status_key_is_normal PyStr.title "in-progress") as (_ & Hupper & _).
  - intros s _. reflexivity.
  - reflexivity.
  - split; [exact Hupper|reflexivity].
Defined.

(** The template list of [littered]. *)
Lemma templates_listed_by_category_witness :
  ∃ groups : list (string * list summary),
    StronglySorted (λ a b, String.le a b ∧ a ≠ b) groups.*1
    ∧ ∀ cat, cat ∈ groups.*1
             ↔ ∃ t, t ∈ valid_summaries littered None ∧ s_category t = cat.
Proof.
  destruct (templates_listed_by_category dumps PyStr.title "/home/u/.bacon-ai/templates"
              {| lt_category := None; lt_response_format := MARKDOWN |} bare
              (valid_summaries littered None))
    as (groups & _ & Hsorted & Hcategories & _).
  - intros Hempty. vm_compute in Hempty. discriminate.
  - by exists groups.
Defined.

Example templates_of_littered_by_category :
  (sorted_categories (valid_summaries littered None)).*1 = ["custom"; "framework"].
Proof. vm_compute. reflexivity. Qed.

(** Categories are compared by code point, and two that differ in case
    get the same heading. *)
Example categories_by_code_point :
  (sorted_categories [ summarise "framework" "a" small; summarise "alpha" "b" small;
                       summarise "Zeta" "c" small; summarise "Framework" "d" small ]).*1
  = ["Framework"; "Zeta"; "alpha"; "framework"]
  ∧ category_lines PyStr.title ("framework", []) = category_lines PyStr.title ("Framework", []).
Proof. split; vm_compute; reflexivity. Qed.

(** A response of 32768 characters. *)
Lemma truncated_response_fits_witness :
  (Z.of_nat (PyStr.len (Tools._truncate_response long_text 0)) ≤ Tools.CHARACTER_LIMIT)%Z.
Proof.
  apply (truncated_response_fits long_text 0). vm_compute. reflexivity.
Defined.

(** A response of 16384 characters that takes 32768 bytes is within the
    limit. *)
Example response_counted_in_characters :
  Z.of_nat (PyStr.len (doubled 14 "é")) = 16384%Z
  ∧ Z.of_nat (String.length (doubled 14 "é")) = 32768%Z
  ∧ bool_decide (Tools._truncate_response (doubled 14 "é") 0 = doubled 14 "é") = true.
Proof. split_and!; vm_compute; reflexivity. Qed.

(** The second page of two of [five_cards]. *)
Lemma list_cards_pages_witness :
  Tools.focalboard_list_cards scripted dumps repr _format_timestamp
    {| Tools.lc_board_id := "b0"; Tools.lc_limit := 2; Tools.lc_offset := 2;
       Tools.lc_response_format := JSON |}
    (opening [JArr five_cards])
  = (Tools.Ok
       (Tools._truncate_response
          (dumps (JObj [ ("total", JNum 5); ("count", JNum 2); ("offset", JNum 2);
                         ("has_more", JBool true); ("next_offset", JNum 4);
                         ("cards", JArr [ card "c3" "P0002-T0001 Gather data";
                                          card "c4" "P0010-T0001 Prepare go-live" ]) ]))
          2),
     Tools.Session []
       [(Tools.ApiCall "GET" "/boards/b0/cards" None None, JArr five_cards)] 0).
Proof.
  apply (list_cards_pages scripted dumps repr _format_timestamp
           {| Tools.lc_board_id := "b0"; Tools.lc_limit := 2; Tools.lc_offset := 2;
              Tools.lc_response_format := JSON |}
           (opening [JArr five_cards]) five_cards []).
  - done.
  - done.
  - reflexivity.
  - reflexivity.
Defined.

(** A search for [PLAN] among [five_cards]. *)
Lemma search_matches_titles_witness :
  Tools.focalboard_search_cards scripted dumps repr _format_timestamp
    {| Tools.sc_board_id := "b0"; Tools.sc_query := "PLAN"; Tools.sc_limit := 50;
       Tools.sc_response_format := JSON |}
    (opening [JArr five_cards])
  = (Tools.Ok (dumps (JObj [ ("query", JStr "PLAN"); ("count", JNum 1);
                             ("cards", JArr [card "c5" "Unplanned"]) ])),
     Tools.Session []
       [(Tools.ApiCall "GET" "/boards/b0/cards" None None, JArr five_cards)] 0).
Proof.
  apply (search_matches_titles scripted dumps repr _format_timestamp
           {| Tools.sc_board_id := "b0"; Tools.sc_query := "PLAN"; Tools.sc_limit := 50;
              Tools.sc_response_format := JSON |}
           (opening [JArr five_cards]) five_cards []).
  - done.
  - reflexivity.
  - reflexivity.
Defined.

(** One title that is [null] in the board makes the search fail. *)
Example search_fails_on_null_title :
  (Tools.focalboard_search_cards scripted dumps repr _format_timestamp
     {| Tools.sc_board_id := "b0"; Tools.sc_query := "plan"; Tools.sc_limit := 1;
        Tools.sc_response_format := JSON |}
     (opening [JArr (five_cards ++ [JObj [("id", JStr "c6"); ("title", JNull)]])])).1
  = Tools.Raise Tools.AttributeError.
Proof. vm_compute. reflexivity. Qed.

(** Three cards, of which the server refuses the second. *)
Lemma bulk_create_posts_every_card_witness :
  ∃ (posted : list (list (string * json))) (answers : list json),
    posted `prefix_of` [ [("title", JStr "one")]; [("title", JStr "two"); ("icon", JStr "x")];
                         [("title", JStr "three")] ]
    ∧ length answers = length posted.
Proof.
  edestruct (bulk_create_posts_every_card scripted repr
               {| Tools.bk_board_id := "b0";
                  Tools.bk_cards := [ [("title", JStr "one")];
                                      [("title", JStr "two"); ("icon", JStr "x")];
                                      [("title", JStr "three")] ] |}
               (opening [ JObj [("id", JStr "c1")]; JObj [("error", JStr "refused")];
                          JObj [("id", JStr "c3")] ]))
    as (posted & answers & Hprefix & Hlength & _).
  - repeat constructor; by eexists.
  - exists posted, answers. split; [exact Hprefix|exact Hlength].
Defined.

(** The same run, reported. *)
Example bulk_create_reports_failure :
  (Tools.focalboard_bulk_create_cards scripted repr
     {| Tools.bk_board_id := "b0";
        Tools.bk_cards := [ [("title", JStr "one")];
                            [("title", JStr "two"); ("icon", JStr "x")];
                            [("title", JStr "three")] ] |}
     (opening [ JObj [("id", JStr "c1")]; JObj [("error", JStr "refused")];
                JObj [("id", JStr "c3")] ])).1
  = Tools.Ok (PyStr.join nl [ "# Bulk Create Results"; "";
                              "**Created**: 2 cards"; "**Failed**: 1 cards"; "";
                              "## Errors:"; "- Card 2 ('two'): refused" ]).
Proof. vm_compute. reflexivity. Qed.

(** A list as answer to the second card: the first card stays. *)
Example bulk_create_raises_on_list :
  let run := Tools.focalboard_bulk_create_cards scripted repr
               {| Tools.bk_board_id := "b0";
                  Tools.bk_cards := [ [("title", JStr "one")]; [("title", JStr "two")];
                                      [("title", JStr "three")] ] |}
               (opening [ JObj [("id", JStr "c1")]; JArr []; JObj [("id", JStr "c3")] ]) in
  run.1 = Tools.Raise Tools.AttributeError ∧ length (Tools.calls run.2) = 2%nat.
Proof. vm_compute. split; reflexivity. Qed.

(** The status of [stored_card] changed and a due date added. *)
Lemma update_merges_properties_witness :
  ∃ merged,
    (entry "st" merged = Some (JStr "o2")
     ∧ entry "ph" merged = Some (JStr "p1")
     ∧ entry "due" merged = Some (JStr "1738368000000"))
    ∧ (Tools.focalboard_update_card_properties scripted repr
         {| Tools.up_board_id := "b0"; Tools.up_card_id := "c1"; Tools.up_title := None;
            Tools.up_icon := None;
            Tools.up_properties := Some [("st", JStr "o2"); ("due", JStr "1738368000000")] |}
         (opening [JArr [card "c0" "Other"; stored_card]; JObj []])).1
      = Tools.Ok "Card `c1` updated successfully!".
Proof.
  edestruct (update_merges_properties scripted repr
               {| Tools.up_board_id := "b0"; Tools.up_card_id := "c1"; Tools.up_title := None;
                  Tools.up_icon := None;
                  Tools.up_properties :=
                    Some [("st", JStr "o2"); ("due", JStr "1738368000000")] |}
               (opening [JArr [card "c0" "Other"; stored_card]; JObj []])
               [card "c0" "Other"; stored_card] [JObj []] stored_card
               [("st", JStr "o1"); ("ph", JStr "p1")]
               [("st", JStr "o2"); ("due", JStr "1738368000000")])
    as (merged & Hmerged & Hrun).
  - reflexivity.
  - reflexivity.
  - reflexivity.
  - reflexivity.
  - apply (bool_decide_unpack _). vm_compute. exact I.
  - exists merged. split.
    + split; [exact (Hmerged "st")|]. split; [exact (Hmerged "ph")|exact (Hmerged "due")].
    + cbv zeta in Hrun. rewrite Hrun. reflexivity.
Defined.

(** Nothing to update on [stored_card]. *)
Lemma update_without_change_sends_nothing_witness :
  Tools.focalboard_update_card_properties scripted repr
    {| Tools.up_board_id := "b0"; Tools.up_card_id := "c1"; Tools.up_title := Some "";
       Tools.up_icon := None; Tools.up_properties := None |}
    (opening [JArr [stored_card]; JObj []])
  = (Tools.Ok "Error: No updates provided. Specify title, icon, or properties to update.",
     Tools.Session [JObj []]
       [(Tools.ApiCall "GET" "/boards/b0/blocks?type=card" None None, JArr [stored_card])] 0).
Proof.
  edestruct (update_without_change_sends_nothing scripted repr
               {| Tools.up_board_id := "b0"; Tools.up_card_id := "c1";
                  Tools.up_title := Some ""; Tools.up_icon := None;
                  Tools.up_properties := None |}
               (opening [JArr [stored_card]; JObj []]) [stored_card] [JObj []])
    as [Hsession Hout].
  - reflexivity.
  - reflexivity.
  - reflexivity.
  - right. reflexivity.
  - cbn [Tools.find_card Tools.get Tools.and_then stored_card] in Hout.
    apply injective_projections; [exact Hout|exact Hsession].
Defined.

(** Four cards, two of high priority, one of low and one without. *)
Lemma statistics_count_every_card_witness :
  ∃ by_property,
    Tools.board_statistics priority_board priority_cards = Tools.Ok (4%nat, by_property)
    ∧ map (λ e, e.2.*2) by_property = [[2; 1; 1]]%Z
    ∧ Forall (λ e, foldr Z.add 0%Z e.2.*2 = 4%Z ∧ Forall (λ c, (1 ≤ c.2)%Z) e.2) by_property.
Proof.
  eexists. split; [vm_compute; reflexivity|]. split; [reflexivity|].
  refine (proj2 (statistics_count_every_card priority_board priority_cards 4 _ _)).
  vm_compute. reflexivity.
Defined.

(** A header and two items on [stored_card]. *)
Lemma checklist_tool_appends_in_order_witness :
  Tools.calls
    (Tools.focalboard_add_checklist scripted block_id 0%Z repr
       {| Tools.ck_board_id := "b0"; Tools.ck_card_id := "c1";
          Tools.ck_items := ["one"; "two"]; Tools.ck_header := Some "## Subtasks" |}
       (opening [JArr []; JArr [stored_card]; JObj []])).2
  = [ (Tools.ApiCall "POST" "/boards/b0/blocks"
         (Some (JArr [ Tools.new_block 0 "b0" "c1" "blk0" "text" "## Subtasks" [];
                       Tools.new_block 0 "b0" "c1" "blk1" "checkbox" "one"
                         [("value", JBool false)];
                       Tools.new_block 0 "b0" "c1" "blk2" "checkbox" "two"
                         [("value", JBool false)] ]))
         None,
       JArr []);
      (Tools.ApiCall "GET" "/boards/b0/blocks?type=card" None None, JArr [stored_card]);
      (Tools.ApiCall "PATCH" "/boards/b0/blocks/c1"
         (Some (JObj [("updatedFields",
                       JObj [("contentOrder",
                              JArr [JStr "old"; JStr "blk0"; JStr "blk1"; JStr "blk2"])])]))
         None,
       JObj []) ].
Proof.
  edestruct (checklist_tool_appends_in_order scripted block_id 0%Z repr
               {| Tools.ck_board_id := "b0"; Tools.ck_card_id := "c1";
                  Tools.ck_items := ["one"; "two"]; Tools.ck_header := Some "## Subtasks" |}
               (opening [JArr []; JArr [stored_card]; JObj []]) (JArr [])
               [JArr [stored_card]; JObj []])
    as [_ Hadded].
  - reflexivity.
  - rewrite (Hadded eq_refl [stored_card] [JObj []] stored_card [JStr "old"]).
    + reflexivity.
    + reflexivity.
    + reflexivity.
    + reflexivity.
Defined.

(** The board request fails and phase 1 has two cards. *)
Lemma phase_tasks_need_a_status_property_witness :
  Tools.focalboard_get_phase_tasks scripted dumps repr percent
    {| Tools.pt_board_id := "b0"; Tools.pt_phase_number := 1;
       Tools.pt_response_format := MARKDOWN |}
    (opening [JArr five_cards; JObj [("error", JStr "Request timed out.")]])
  = (Tools.Raise Tools.NameError,
     Tools.Session []
       [ (Tools.ApiCall "GET" "/boards/b0/cards" None None, JArr five_cards);
         (Tools.ApiCall "GET" "/boards/b0" None None,
          JObj [("error", JStr "Request timed out.")]) ]
       0).
Proof.
  apply (phase_tasks_need_a_status_property scripted dumps repr percent
           {| Tools.pt_board_id := "b0"; Tools.pt_phase_number := 1;
              Tools.pt_response_format := MARKDOWN |}
           (opening [JArr five_cards; JObj [("error", JStr "Request timed out.")]])
           five_cards [JObj [("error", JStr "Request timed out.")]]
           (JObj [("error", JStr "Request timed out.")]) []
           (card "c1" "P0001-T0001 Interview users")
           [card "c2" "P0001-T0002 Draw the empathy map"] []).
  - reflexivity.
  - reflexivity.
  - reflexivity.
  - reflexivity.
  - reflexivity.
Defined.

(** With a Status property the same phase is listed. *)
Example phase_tasks_with_status :
  (Tools.focalboard_get_phase_tasks scripted dumps repr percent
     {| Tools.pt_board_id := "b0"; Tools.pt_phase_number := 1;
        Tools.pt_response_format := MARKDOWN |}
     (opening [ JArr five_cards;
                JObj [("cardProperties",
                       JArr [JObj [("id", JStr "st"); ("name", JStr "Status");
                                   ("options", JArr [])]])] ])).1
  = Tools.Ok (PyStr.join nl
                [ "# 💭 Phase 1: Empathetic Problem Definition"; "";
                  "**Leader**: Elisabeth + Maisie"; "**Tasks**: 2"; "";
                  "## Status Summary"; "- **Unknown**: 2 (<percent>%)"; "";
                  "## Tasks"; "";
                  "- ⬜ 📋 **P0001-T0001 Interview users** (`c1`)";
                  "- ⬜ 📋 **P0001-T0002 Draw the empathy map** (`c2`)" ]).
Proof. vm_compute. reflexivity. Qed.

(** Phase 1 and phase 10 of [five_cards]. *)
Lemma phases_share_no_card_witness :
  [card "c1" "P0001-T0001 Interview users"; card "c2" "P0001-T0002 Draw the empathy map"]
    ⊆ five_cards
  ∧ [card "c4" "P0010-T0001 Prepare go-live"] ⊆ five_cards
  ∧ ∀ c, c ∈ [card "c1" "P0001-T0001 Interview users";
              card "c2" "P0001-T0002 Draw the empathy map"] →
         c ∉ [card "c4" "P0010-T0001 Prepare go-live"].
Proof.
  apply (phases_share_no_card five_cards 1 10).
  - done.
  - done.
  - done.
  - reflexivity.
  - reflexivity.
Defined.
